(** * CargoForge-C web backend: dispatch gateway, entitlement ledger and
      billing webhooks

    A shallow embedding of [web/backend/app.py], [web/backend/app_prod.py]
    and [web/backend/stripe_integration.py].

    - JSON request bodies are values of [json]; the Python operations the
      handlers apply to them ([in], [x[k]], [.get], [len], iteration,
      truthiness, [<= 0]) are total functions into [res], with the Python
      exception they raise on a value of the wrong shape.
    - Handlers run in a state-and-exception monad over the [World]: the
      filesystem holding the solver workspace, the [users] and
      [optimization_logs] tables, the console and the trace of solver
      processes that were started.
    - What lies outside the repository is a parameter: the solver binary,
      the JSON parser, Python's string formatting of values and exceptions,
      Stripe's signature check. *)

From Stdlib Require Import ZArith QArith Qabs String Ascii List Bool Lia.
From stdpp Require Import base option list gmap strings.

Local Open Scope string_scope.
Local Open Scope Z_scope.

(** ** Python values and exceptions *)

#[warnings="-register-all"]
Inductive json : Type :=
| JNull
| JBool (b : bool)
| JNum (q : Q)
| JStr (s : string)
| JArr (l : list json)
| JObj (o : list (string * json)).

Inductive exn : Type :=
| KeyError
| TypeError
| IndexError
| AttributeError
| FileNotFoundError
| OSError
| TimeoutExpired
| JSONDecodeError
| PlainException.

Inductive res (A : Type) : Type :=
| Ret (a : A)
| Raise (e : exn).
Arguments Ret {A} a.
Arguments Raise {A} e.

Definition is_TimeoutExpired (e : exn) : bool :=
  match e with TimeoutExpired => true | _ => false end.

Definition is_JSONDecodeError (e : exn) : bool :=
  match e with JSONDecodeError => true | _ => false end.

(** ** Strings, as Python's [str] methods use them *)

Module Str.

Definition nl : string := String (ascii_of_nat 10) EmptyString.

Definition is_empty (s : string) : bool :=
  match s with EmptyString => true | String _ _ => false end.

(** [s.find(c)] for a one-character needle: the index of the first
    occurrence, or -1. *)
Fixpoint find_from (c : ascii) (s : string) (i : Z) : Z :=
  match s with
  | EmptyString => -1
  | String a s' => if Ascii.eqb a c then i else find_from c s' (i + 1)
  end.

Definition find (c : ascii) (s : string) : Z := find_from c s 0.

(** [s[i:]] for [0 <= i]. *)
Fixpoint drop (n : nat) (s : string) : string :=
  match n, s with
  | O, _ => s
  | S n', EmptyString => EmptyString
  | S n', String _ s' => drop n' s'
  end.

Definition slice_from (i : Z) (s : string) : string := drop (Z.to_nat i) s.

Fixpoint occurs (c : ascii) (s : string) : bool :=
  match s with
  | EmptyString => false
  | String a s' => Ascii.eqb a c || occurs c s'
  end.

(** [needle in s] on two strings. *)
Fixpoint is_prefix (p s : string) : bool :=
  match p, s with
  | EmptyString, _ => true
  | String _ _, EmptyString => false
  | String a p', String b s' => Ascii.eqb a b && is_prefix p' s'
  end.

Fixpoint contains (needle s : string) : bool :=
  is_prefix needle s ||
  match s with
  | EmptyString => false
  | String _ s' => contains needle s'
  end.

(** The ASCII characters [str.isspace] accepts. *)
Definition is_space (a : ascii) : bool :=
  let n := nat_of_ascii a in
  ((9 <=? n)%nat && (n <=? 13)%nat) || ((28 <=? n)%nat && (n <=? 32)%nat).

Fixpoint lstrip (s : string) : string :=
  match s with
  | EmptyString => EmptyString
  | String a s' => if is_space a then lstrip s' else s
  end.

Fixpoint rstrip (s : string) : string :=
  match s with
  | EmptyString => EmptyString
  | String a s' =>
      match rstrip s' with
      | EmptyString => if is_space a then EmptyString else String a EmptyString
      | r => String a r
      end
  end.

Definition strip (s : string) : string := rstrip (lstrip s).

(** [s.split(sep)] for a one-character separator: never the empty list. *)
Fixpoint split (sep : ascii) (s : string) : list string :=
  match s with
  | EmptyString => [EmptyString]
  | String a s' =>
      if Ascii.eqb a sep then EmptyString :: split sep s'
      else match split sep s' with
           | [] => [String a EmptyString]
           | w :: ws => String a w :: ws
           end
  end.


(** The characters of a string, as iteration over a [str] yields them. *)
Fixpoint chars (s : string) : list string :=
  match s with
  | EmptyString => []
  | String a s' => String a EmptyString :: chars s'
  end.

End Str.

(** ** Python operations on JSON values *)

Module Py.

Fixpoint assoc (k : string) (o : list (string * json)) : option json :=
  match o with
  | [] => None
  | (k', v) :: o' => if String.eqb k' k then Some v else assoc k o'
  end.

(** [d[k] = v] on a dict: replace in place, or add at the end. *)
Fixpoint dict_set (k : string) (v : json) (o : list (string * json))
  : list (string * json) :=
  match o with
  | [] => [(k, v)]
  | (k', v') :: o' =>
      if String.eqb k' k then (k, v) :: o' else (k', v') :: dict_set k v o'
  end.

(** Truth value of an object, as [not x] and [if x:] test it. *)
Definition truthy (v : json) : bool :=
  match v with
  | JNull => false
  | JBool b => b
  | JNum q => negb (Qeq_bool q 0)
  | JStr s => negb (Str.is_empty s)
  | JArr l => match l with [] => false | _ => true end
  | JObj o => match o with [] => false | _ => true end
  end.

Definition is_str (k : string) (v : json) : bool :=
  match v with JStr s => String.eqb s k | _ => false end.

(** [k in v] for a string [k]. *)
Definition contains (k : string) (v : json) : res bool :=
  match v with
  | JObj o => Ret (match assoc k o with Some _ => true | None => false end)
  | JArr l => Ret (existsb (is_str k) l)
  | JStr s => Ret (Str.contains k s)
  | _ => Raise TypeError
  end.

(** [v[k]] for a string [k]. *)
Definition getitem (v : json) (k : string) : res json :=
  match v with
  | JObj o => match assoc k o with Some x => Ret x | None => Raise KeyError end
  | _ => Raise TypeError
  end.

(** [v[i]] for a literal index [0 <= i]. *)
Definition index (v : json) (i : nat) : res json :=
  match v with
  | JArr l => match nth_error l i with Some x => Ret x | None => Raise IndexError end
  | JStr s => match nth_error (Str.chars s) i with
              | Some c => Ret (JStr c)
              | None => Raise IndexError
              end
  | JObj _ => Raise KeyError
  | _ => Raise TypeError
  end.

(** [v.get(k, d)]: only a dict has the method. *)
Definition get (v : json) (k : string) (d : json) : res json :=
  match v with
  | JObj o => Ret (match assoc k o with Some x => x | None => d end)
  | _ => Raise AttributeError
  end.

(** [len(v)]. *)
Definition len (v : json) : res Z :=
  match v with
  | JArr l => Ret (Z.of_nat (length l))
  | JStr s => Ret (Z.of_nat (String.length s))
  | JObj o => Ret (Z.of_nat (length o))
  | _ => Raise TypeError
  end.

(** The items a [for] loop over [v] visits. *)
Definition iter (v : json) : res (list json) :=
  match v with
  | JArr l => Ret l
  | JStr s => Ret (map JStr (Str.chars s))
  | JObj o => Ret (map (fun kv => JStr (fst kv)) o)
  | _ => Raise TypeError
  end.

(** [v <= 0]: numbers compare, [True]/[False] count as 1/0, anything else
    is a [TypeError]. *)
Definition le0 (v : json) : res bool :=
  match v with
  | JNum q => Ret (Qle_bool q 0)
  | JBool b => Ret (negb b)
  | _ => Raise TypeError
  end.

(** [v * 0.2], over the rationals. *)
Definition times_fifth (v : json) : res json :=
  match v with
  | JNum q => Ret (JNum (q * (1 # 5)))
  | JBool b => Ret (JNum (if b then 1 # 5 else 0))
  | _ => Raise TypeError
  end.

End Py.

(** ** The state-and-exception monad *)

Definition M (S A : Type) : Type := S -> res A * S.

Definition ret {S A} (a : A) : M S A := fun s => (Ret a, s).

Definition raise {S A} (e : exn) : M S A := fun s => (Raise e, s).

Definition bind {S A B} (m : M S A) (k : A -> M S B) : M S B :=
  fun s =>
    match m s with
    | (Ret a, s') => k a s'
    | (Raise e, s') => (Raise e, s')
    end.

Notation "x <- m ;; k" := (bind m (fun x => k))
  (at level 100, m at next level, right associativity).
Notation "m ;;; k" := (bind m (fun _ => k))
  (at level 100, right associativity).

(** A pure operation that may raise. *)
Definition lift {S A} (r : res A) : M S A := fun s => (r, s).

(** [try: body finally: fin]; a [fin] that raises replaces the outcome. *)
Definition try_finally {S A} (body : M S A) (fin : M S unit) : M S A :=
  fun s =>
    match body s with
    | (r, s1) =>
        match fin s1 with
        | (Ret _, s2) => (r, s2)
        | (Raise e, s2) => (Raise e, s2)
        end
    end.

(** [try: body except <matching>: handler], clauses tried in order by the
    handler itself. *)
Definition try_except {S A} (body : M S A) (handler : exn -> M S A) : M S A :=
  fun s =>
    match body s with
    | (Ret a, s1) => (Ret a, s1)
    | (Raise e, s1) => handler e s1
    end.

(** [for x in xs: body x]. *)
Fixpoint for_each {S A} (xs : list A) (body : A -> M S unit) : M S unit :=
  match xs with
  | [] => ret tt
  | x :: xs' => body x ;;; for_each xs' body
  end.

Definition py_not (a : res bool) : res bool :=
  match a with Ret b => Ret (negb b) | Raise e => Raise e end.

(** [a or b] on conditions: [b] is evaluated only when [a] is false. *)
Definition py_or (a b : res bool) : res bool :=
  match a with
  | Ret true => Ret true
  | Ret false => b
  | Raise e => Raise e
  end.

(** ** The filesystem: directories and the files they hold *)

Abbreviation FS := (gmap string (gmap string string)).

(** [os.path.join(dir, name)] *)
Definition path : Type := string * string.

Module Fs.

(** [tempfile.mkdtemp()]: a new directory under a name not in use. *)
Definition mkdtemp : M FS string :=
  fun fs => let d := fresh (dom fs) in (Ret d, <[d := ∅]> fs).

(** [open(p, 'w')] *)
Definition open_w (p : path) : M FS unit :=
  fun fs =>
    match fs !! p.1 with
    | Some entries => (Ret tt, <[p.1 := <[p.2 := ""]> entries]> fs)
    | None => (Raise FileNotFoundError, fs)
    end.

(** [f.write(text)] on the file opened at [p] *)
Definition write (p : path) (text : string) : M FS unit :=
  fun fs =>
    match fs !! p.1 with
    | Some entries =>
        match entries !! p.2 with
        | Some old => (Ret tt, <[p.1 := <[p.2 := old +:+ text]> entries]> fs)
        | None => (Raise FileNotFoundError, fs)
        end
    | None => (Raise FileNotFoundError, fs)
    end.

Definition read (p : path) (fs : FS) : option string :=
  match fs !! p.1 with
  | Some entries => entries !! p.2
  | None => None
  end.

(** [os.remove(p)] *)
Definition remove (p : path) : M FS unit :=
  fun fs =>
    match fs !! p.1 with
    | Some entries =>
        match entries !! p.2 with
        | Some _ => (Ret tt, <[p.1 := delete p.2 entries]> fs)
        | None => (Raise FileNotFoundError, fs)
        end
    | None => (Raise FileNotFoundError, fs)
    end.

(** [os.rmdir(d)]: only an empty directory goes. *)
Definition rmdir (d : string) : M FS unit :=
  fun fs =>
    match fs !! d with
    | Some entries =>
        if decide (entries = ∅) then (Ret tt, delete d fs)
        else (Raise OSError, fs)
    | None => (Raise FileNotFoundError, fs)
    end.

End Fs.

(** ** Tables, processes and the world *)

Module User.

Record t : Type := mk {
  id : Z;
  email : string;
  subscription_tier : string;
  subscription_status : option string;
  stripe_customer_id : option string;
  stripe_subscription_id : option string;
  api_key : option string
}.

(** [limits = {'free': 10, 'pro': 1000, 'enterprise': 10000}] *)
Definition limits : gmap string Z :=
  <["free" := 10]> (<["pro" := 1000]> (<["enterprise" := 10000]> ∅)).

(** [limits.get(self.subscription_tier, 10)] *)
Definition daily_limit (u : t) : Z :=
  default 10 (limits !! subscription_tier u).

End User.

Module OptimizationLog.

Record t : Type := mk {
  user_id : option Z;
  execution_time_ms : Q;
  cargo_count : Z;
  placed_count : json;
  success : bool;
  created_at : Z
}.

End OptimizationLog.

(** What a started solver process does when left alone: how long it runs
    (seconds) and what it leaves behind. *)
Record Proc : Type := mkProc {
  returncode : Z;
  stdout : string;
  stderr : string;
  duration : Q
}.

Record World : Type := mkWorld {
  fs : FS;
  users : list User.t;
  logs : list OptimizationLog.t;
  console : list string;
  started : list Proc;
  uuids : nat -> string;
  uuid_next : nat
}.

Definition set_fs (f : FS) (w : World) : World :=
  mkWorld f (users w) (logs w) (console w) (started w) (uuids w) (uuid_next w).

Definition set_users (us : list User.t) (w : World) : World :=
  mkWorld (fs w) us (logs w) (console w) (started w) (uuids w) (uuid_next w).

(** Run a filesystem action on the world's filesystem. *)
Definition in_fs {A} (m : M FS A) : M World A :=
  fun w => match m (fs w) with (r, f) => (r, set_fs f w) end.

(** [print(line)] *)
Definition print (line : string) : M World unit :=
  fun w => (Ret tt, mkWorld (fs w) (users w) (logs w) (console w ++ [line])
                            (started w) (uuids w) (uuid_next w)).

(** [uuid.uuid4().hex[:8]] *)
Definition uuid4_hex8 : M World string :=
  fun w => (Ret (uuids w (uuid_next w)),
            mkWorld (fs w) (users w) (logs w) (console w) (started w)
                    (uuids w) (S (uuid_next w))).

(** [db.session.add(log); db.session.commit()] *)
Definition db_add_log (l : OptimizationLog.t) : M World unit :=
  fun w => (Ret tt, mkWorld (fs w) (users w) (logs w ++ [l]) (console w)
                            (started w) (uuids w) (uuid_next w)).

Record Response : Type := mkResponse {
  body : json;
  status : Z
}.

Definition jsonify (b : json) (st : Z) : Response := mkResponse b st.

Definition error_body (msg : string) : json := JObj [("error", JStr msg)].

(** A verified Stripe event: [event['type']] and [event['data']['object']],
    the latter with the keys the handlers read. *)
Record StripeObject : Type := mkStripeObject {
  o_id : option string;
  o_customer_email : option string;
  o_customer : option string;
  o_subscription : option string;
  o_metadata_tier : option string;
  o_status : option string;
  o_cancel_at_period_end : option bool
}.

Record Event : Type := mkEvent {
  ev_type : string;
  ev_object : StripeObject
}.

(** What the repository calls but does not contain. *)
Class Externals : Type := {
  (** the [cargoforge] binary on the contents of its two input files *)
  solver : option string -> option string -> Proc;
  (** [json.loads] *)
  json_loads : string -> option json;
  (** how an f-string renders a value *)
  fmt : json -> string;
  (** [str(e)] *)
  str_exn : exn -> string;
  (** [stripe.Webhook.construct_event] with the configured secret *)
  construct_event : string -> option string -> option Event
}.

(** ** Helpers shared, word for word, by [app.py] and [app_prod.py] *)

Section Helpers.
Context {ext : Externals}.

(** [write_ship_config(ship_data, filepath)] *)
Definition write_ship_config (ship_data : json) (filepath : path) : M FS unit :=
  Fs.open_w filepath ;;;
  v <- lift (Py.getitem ship_data "length") ;;
  Fs.write filepath ("length_m=" +:+ fmt v +:+ Str.nl) ;;;
  v <- lift (Py.getitem ship_data "width") ;;
  Fs.write filepath ("width_m=" +:+ fmt v +:+ Str.nl) ;;;
  v <- lift (Py.getitem ship_data "max_weight") ;;
  Fs.write filepath ("max_weight_kg=" +:+ fmt v +:+ Str.nl) ;;;
  mw <- lift (Py.getitem ship_data "max_weight") ;;
  dflt <- lift (Py.times_fifth mw) ;;
  v <- lift (Py.get ship_data "lightship_weight" dflt) ;;
  Fs.write filepath ("lightship_weight_kg=" +:+ fmt v +:+ Str.nl) ;;;
  v <- lift (Py.get ship_data "lightship_kg" (JNum 8)) ;;
  Fs.write filepath ("lightship_kg_m=" +:+ fmt v +:+ Str.nl).

(** One pass of the loop of [write_cargo_manifest]. *)
Definition write_cargo_line (filepath : path) (cargo : json) : M FS unit :=
  i <- lift (Py.getitem cargo "id") ;;
  w <- lift (Py.getitem cargo "weight") ;;
  dims <- lift (Py.getitem cargo "dimensions") ;;
  d0 <- lift (Py.index dims 0) ;;
  dims <- lift (Py.getitem cargo "dimensions") ;;
  d1 <- lift (Py.index dims 1) ;;
  dims <- lift (Py.getitem cargo "dimensions") ;;
  d2 <- lift (Py.index dims 2) ;;
  ty <- lift (Py.get cargo "type" (JStr "standard")) ;;
  Fs.write filepath
    (fmt i +:+ " " +:+ fmt w +:+ " " +:+
     fmt d0 +:+ " " +:+ fmt d1 +:+ " " +:+ fmt d2 +:+ " " +:+
     fmt ty +:+ Str.nl).

(** [write_cargo_manifest(cargo_list, filepath)] *)
Definition write_cargo_manifest (cargo_list : json) (filepath : path) : M FS unit :=
  Fs.open_w filepath ;;;
  Fs.write filepath ("# id weight_kg length_m width_m height_m type" +:+ Str.nl) ;;;
  items <- lift (Py.iter cargo_list) ;;
  for_each items (write_cargo_line filepath).

(** [subprocess.run([CARGOFORGE_BIN, ship_file, cargo_file, '--json'],
    capture_output=True, text=True, timeout=...)]: the process is started;
    one that outlives the timeout is killed and [TimeoutExpired] raised. *)
Definition subprocess_run (ship_file cargo_file : path) (timeout : Q)
  : M World Proc :=
  fun w =>
    let p := solver (Fs.read ship_file (fs w)) (Fs.read cargo_file (fs w)) in
    let w' := mkWorld (fs w) (users w) (logs w) (console w) (p :: started w)
                      (uuids w) (uuid_next w) in
    if Qle_bool (duration p) timeout then (Ret p, w')
    else (Raise TimeoutExpired, w').

(** The [finally] block of both dispatchers: the three removals under a
    bare [except: pass]. *)
Definition cleanup (ship_file cargo_file : path) (temp_dir : string)
  : M World unit :=
  try_except
    (in_fs (Fs.remove ship_file ;;; Fs.remove cargo_file ;;; Fs.rmdir temp_dir))
    (fun _ => ret tt).

(** [result.stderr.strip().split('\n') if result.stderr else []] *)
Definition warnings_of (err : string) : list string :=
  if Str.is_empty err then []
  else Str.split (ascii_of_nat 10) (Str.strip err).

(** [response_data[k] = v] *)
Definition setitem (d : json) (k : string) (v : json) : res json :=
  match d with
  | JObj o => Ret (JObj (Py.dict_set k v o))
  | _ => Raise TypeError
  end.

Definition loads (s : string) : res json :=
  match json_loads s with
  | Some v => Ret v
  | None => Raise JSONDecodeError
  end.

(** [not data or 'ship' not in data or 'cargo' not in data] *)
Definition missing_ship_or_cargo (data : json) : res bool :=
  py_or (Ret (negb (Py.truthy data)))
        (py_or (py_not (Py.contains "ship" data))
               (py_not (Py.contains "cargo" data))).

End Helpers.

(** ** [app.py] *)

Module App.
Section Routes.
Context {ext : Externals}.

(** [POST /api/optimize] *)
Definition optimize (data : json) : M World Response :=
  try_except
    (missing <- lift (missing_ship_or_cargo data) ;;
     if (missing : bool) then
       ret (jsonify (error_body "Missing ship or cargo data") 400)
     else
       temp_dir <- in_fs Fs.mkdtemp ;;
       h <- uuid4_hex8 ;;
       let ship_file : path := (temp_dir, "ship_" +:+ h +:+ ".cfg") in
       h <- uuid4_hex8 ;;
       let cargo_file : path := (temp_dir, "cargo_" +:+ h +:+ ".txt") in
       try_finally
         (ship <- lift (Py.getitem data "ship") ;;
          in_fs (write_ship_config ship ship_file) ;;;
          cargo <- lift (Py.getitem data "cargo") ;;
          in_fs (write_cargo_manifest cargo cargo_file) ;;;
          result <- subprocess_run ship_file cargo_file 30 ;;
          if negb (returncode result =? 0) then
            ret (jsonify (error_body ("Optimization failed: " +:+ stderr result)) 500)
          else
            let json_start := Str.find "{" (stdout result) in
            if json_start =? -1 then
              ret (jsonify (error_body "No JSON output from optimizer") 500)
            else
              let json_output := Str.slice_from json_start (stdout result) in
              response_data <- lift (loads json_output) ;;
              response_data <- lift (setitem response_data "execution"
                (JObj [("success", JBool true);
                       ("warnings", JArr (map JStr (warnings_of (stderr result))))])) ;;
              ret (jsonify response_data 200))
         (cleanup ship_file cargo_file temp_dir))
    (fun e =>
       if is_TimeoutExpired e then
         ret (jsonify (error_body "Optimization timeout (>30s)") 408)
       else if is_JSONDecodeError e then
         ret (jsonify (error_body ("Invalid JSON output: " +:+ str_exn e)) 500)
       else ret (jsonify (error_body (str_exn e)) 500)).

(** [errors.append(msg)] *)
Definition append (msg : string) : M (list string) unit :=
  fun errors => (Ret tt, (errors ++ [msg])%list).

Definition when (b : bool) (m : M (list string) unit) : M (list string) unit :=
  if b then m else ret tt.

(** [any(d <= 0 for d in dims)]: stops at the first hit. *)
Fixpoint any_le0 (ds : list json) : res bool :=
  match ds with
  | [] => Ret false
  | d :: ds' => py_or (Py.le0 d) (any_le0 ds')
  end.

(** [len(dims) != 3 or any(d <= 0 for d in dims)] *)
Definition invalid_dimensions (dims : json) : res bool :=
  py_or (match Py.len dims with
         | Ret n => Ret (negb (n =? 3))
         | Raise e => Raise e
         end)
        (match Py.iter dims with
         | Ret ds => any_le0 ds
         | Raise e => Raise e
         end).

(** One pass of the loop of [validate], at 0-based position [i]. *)
Definition validate_item (i : nat) (item : json) : M (list string) unit :=
  let pos := JNum (inject_Z (Z.of_nat i + 1)) in
  ident <- lift (Py.get item "id" JNull) ;;
  when (negb (Py.truthy ident))
       (append ("Cargo " +:+ fmt pos +:+ ": ID required")) ;;;
  w <- lift (Py.get item "weight" (JNum 0)) ;;
  b <- lift (Py.le0 w) ;;
  when b (label <- lift (Py.get item "id" pos) ;;
          append ("Cargo " +:+ fmt label +:+ ": Weight must be positive")) ;;;
  dims <- lift (Py.get item "dimensions" (JArr [])) ;;
  b <- lift (invalid_dimensions dims) ;;
  when b (label <- lift (Py.get item "id" pos) ;;
          append ("Cargo " +:+ fmt label +:+ ": Invalid dimensions")).

(** [for i, item in enumerate(cargo): ...] from position [i] on. *)
Fixpoint validate_items (i : nat) (items : list json) : M (list string) unit :=
  match items with
  | [] => ret tt
  | item :: items' => validate_item i item ;;; validate_items (S i) items'
  end.

(** The body of [validate] up to the response, run on [errors = []]. *)
Definition validate_checks (data : json) : M (list string) unit :=
  ship <- lift (Py.get data "ship" (JObj [])) ;;
  v <- lift (Py.get ship "length" (JNum 0)) ;;
  b <- lift (Py.le0 v) ;;
  when b (append "Ship length must be positive") ;;;
  v <- lift (Py.get ship "width" (JNum 0)) ;;
  b <- lift (Py.le0 v) ;;
  when b (append "Ship width must be positive") ;;;
  v <- lift (Py.get ship "max_weight" (JNum 0)) ;;
  b <- lift (Py.le0 v) ;;
  when b (append "Ship max weight must be positive") ;;;
  cargo <- lift (Py.get data "cargo" (JArr [])) ;;
  when (negb (Py.truthy cargo)) (append "At least one cargo item required") ;;;
  items <- lift (Py.iter cargo) ;;
  validate_items 0 items.

(** [POST /api/validate] *)
Definition validate (data : json) : M World Response :=
  fun w =>
    match validate_checks data [] with
    | (Ret _, errors) =>
        (Ret (jsonify (JObj [("valid", JBool (Nat.eqb (length errors) 0));
                             ("errors", JArr (map JStr errors))]) 200), w)
    | (Raise e, _) => (Ret (jsonify (error_body (str_exn e)) 500), w)
    end.

End Routes.
End App.

(** ** [stripe_integration.py], class [WebhookHandler] *)

Module WebhookHandler.

(** [User.query.filter_by(...).first()] and the attribute writes that
    [db.session.commit()] makes durable: the first row the filter accepts
    is the row that changes. *)
Fixpoint update_first (p : User.t -> bool) (f : User.t -> User.t)
  (rows : list User.t) : list User.t :=
  match rows with
  | [] => []
  | u :: rows' => if p u then f u :: rows' else u :: update_first p f rows'
  end.

Definition commit (p : User.t -> bool) (f : User.t -> User.t) : M World unit :=
  fun w => (Ret tt, set_users (update_first p f (users w)) w).

(** [filter_by(email=customer_email)]; the column is not nullable. *)
Definition by_email (customer_email : option string) (u : User.t) : bool :=
  bool_decide (Some (User.email u) = customer_email).

(** [filter_by(stripe_customer_id=customer_id)]; a missing reference is
    compared as [IS NULL]. *)
Definition by_customer (customer_id : option string) (u : User.t) : bool :=
  bool_decide (User.stripe_customer_id u = customer_id).

(** How an f-string renders a value that may be [None]. *)
Definition show (o : option string) : string := default "None" o.

Definition handle_checkout_completed (session : StripeObject) : M World unit :=
  let customer_email := o_customer_email session in
  let customer_id := o_customer session in
  let subscription_id := o_subscription session in
  let tier := default "pro" (o_metadata_tier session) in
  fun w =>
    match List.find (by_email customer_email) (users w) with
    | None => print ("Warning: User not found for email " +:+ show customer_email) w
    | Some user =>
        (commit (by_email customer_email)
           (fun u => User.mk (User.id u) (User.email u) tier (Some "active")
                             customer_id subscription_id (User.api_key u)) ;;;
         print ("User " +:+ User.email user +:+ " upgraded to " +:+ tier)) w
    end.

Definition handle_invoice_paid (invoice : StripeObject) : M World unit :=
  let customer_id := o_customer invoice in
  let subscription_id := o_subscription invoice in
  fun w =>
    match List.find (by_customer customer_id) (users w) with
    | None => print ("Warning: User not found for customer " +:+ show customer_id) w
    | Some user =>
        (commit (by_customer customer_id)
           (fun u => User.mk (User.id u) (User.email u) (User.subscription_tier u)
                             (Some "active") (User.stripe_customer_id u)
                             subscription_id (User.api_key u)) ;;;
         print ("Invoice paid for user " +:+ User.email user)) w
    end.

Definition handle_invoice_failed (invoice : StripeObject) : M World unit :=
  let customer_id := o_customer invoice in
  fun w =>
    match List.find (by_customer customer_id) (users w) with
    | None => print ("Warning: User not found for customer " +:+ show customer_id) w
    | Some user =>
        (commit (by_customer customer_id)
           (fun u => User.mk (User.id u) (User.email u) (User.subscription_tier u)
                             (Some "past_due") (User.stripe_customer_id u)
                             (User.stripe_subscription_id u) (User.api_key u)) ;;;
         print ("Payment failed for user " +:+ User.email user)) w
    end.

Definition handle_subscription_updated (subscription : StripeObject) : M World unit :=
  let customer_id := o_customer subscription in
  let subscription_id := o_id subscription in
  let status := o_status subscription in
  let cancel_at_period_end := default false (o_cancel_at_period_end subscription) in
  fun w =>
    match List.find (by_customer customer_id) (users w) with
    | None => print ("Warning: User not found for customer " +:+ show customer_id) w
    | Some user =>
        (commit (by_customer customer_id)
           (fun u => User.mk (User.id u) (User.email u) (User.subscription_tier u)
                             (if cancel_at_period_end then Some "canceling" else status)
                             (User.stripe_customer_id u)
                             subscription_id (User.api_key u)) ;;;
         print ("Subscription updated for user " +:+ User.email user +:+ ": "
                +:+ show status)) w
    end.

Definition handle_subscription_deleted (subscription : StripeObject) : M World unit :=
  let customer_id := o_customer subscription in
  fun w =>
    match List.find (by_customer customer_id) (users w) with
    | None => print ("Warning: User not found for customer " +:+ show customer_id) w
    | Some user =>
        (commit (by_customer customer_id)
           (fun u => User.mk (User.id u) (User.email u) "free" (Some "canceled")
                             (User.stripe_customer_id u) None (User.api_key u)) ;;;
         print ("Subscription cancelled for user " +:+ User.email user
                +:+ ", downgraded to free tier")) w
    end.

End WebhookHandler.

(** ** [app_prod.py] *)

Module AppProd.

(** What a route reads from the incoming request: the JSON body
    ([JNull] for [None]), the [X-API-Key] header, the id of the logged-in
    user if there is one, the UTC clock in seconds, and the
    [request.current_user] attribute the API-key guard sets. *)
Record Request : Type := mkRequest {
  json_body : json;
  x_api_key : option string;
  current_user : option Z;
  now : Z;
  request_current_user : option User.t
}.

Section Routes.
Context {ext : Externals}.

(** [datetime.utcnow().replace(hour=0, minute=0, second=0, microsecond=0)] *)
Definition today_start (req : Request) : Z := now req - now req mod 86400.

(** The rows of [optimization_logs] of [user] created since [start]. *)
Definition counts_today (user : User.t) (start : Z) (l : OptimizationLog.t) : bool :=
  bool_decide (OptimizationLog.user_id l = Some (User.id user))
  && (start <=? OptimizationLog.created_at l).

Definition today_count (user : User.t) (req : Request) (w : World) : Z :=
  Z.of_nat (length (List.filter (counts_today user (today_start req)) (logs w))).

(** The decorator [api_key_required(f)]. *)
Definition api_key_required (f : Request -> M World Response) (req : Request)
  : M World Response :=
  match x_api_key req with
  | None => ret (jsonify (error_body "API key required") 401)
  | Some key =>
      if Str.is_empty key then ret (jsonify (error_body "API key required") 401)
      else fun w =>
        match List.find (fun u => bool_decide (User.api_key u = Some key)) (users w) with
        | None => (Ret (jsonify (error_body "Invalid API key") 401), w)
        | Some user =>
            if User.daily_limit user <=? today_count user req w then
              (Ret (jsonify (JObj [("error", JStr "Daily limit exceeded");
                                   ("limit", JNum (inject_Z (User.daily_limit user)))])
                            429), w)
            else
              f (mkRequest (json_body req) (x_api_key req) (current_user req)
                           (now req) (Some user)) w
        end
  end.

(** [run_optimization(ship_data, cargo_list)]: the triple
    [(result, execution_time, error)], with [JNull] for a [None] result. *)
Definition run_optimization (ship_data cargo_list : json)
  : M World (json * Q * option string) :=
  temp_dir <- in_fs Fs.mkdtemp ;;
  h <- uuid4_hex8 ;;
  let ship_file : path := (temp_dir, "ship_" +:+ h +:+ ".cfg") in
  h <- uuid4_hex8 ;;
  let cargo_file : path := (temp_dir, "cargo_" +:+ h +:+ ".txt") in
  try_finally
    (in_fs (write_ship_config ship_data ship_file) ;;;
     in_fs (write_cargo_manifest cargo_list cargo_file) ;;;
     result <- subprocess_run ship_file cargo_file 30 ;;
     let execution_time := (duration result * 1000)%Q in
     if negb (returncode result =? 0) then
       ret (JNull, execution_time, Some (stderr result))
     else
       let json_start := Str.find "{" (stdout result) in
       if json_start =? -1 then
         ret (JNull, execution_time, Some "No JSON output")
       else
         let json_output := Str.slice_from json_start (stdout result) in
         response_data <- lift (loads json_output) ;;
         response_data <- lift (setitem response_data "execution"
           (JObj [("success", JBool true);
                  ("execution_time_ms", JNum execution_time);
                  ("warnings", JArr (map JStr (warnings_of (stderr result))))])) ;;
         ret (response_data, execution_time, None))
    (cleanup ship_file cargo_file temp_dir).

(** [if error:] on a value that is [None] or a string. *)
Definition truthy_error (error : option string) : bool :=
  match error with
  | None => false
  | Some s => negb (Str.is_empty s)
  end.

(** [POST /api/optimize] *)
Definition optimize (req : Request) : M World Response :=
  let data := json_body req in
  try_except
    (missing <- lift (missing_ship_or_cargo data) ;;
     if (missing : bool) then
       ret (jsonify (error_body "Missing ship or cargo data") 400)
     else
       ship <- lift (Py.getitem data "ship") ;;
       cargo <- lift (Py.getitem data "cargo") ;;
       r <- run_optimization ship cargo ;;
       let '(result, exec_time, error) := r in
       if truthy_error error then
         ret (jsonify (error_body ("Optimization failed: " +:+ WebhookHandler.show error)) 500)
       else
         match current_user req with
         | Some uid =>
             cargo <- lift (Py.getitem data "cargo") ;;
             n <- lift (Py.len cargo) ;;
             analysis <- lift (Py.getitem result "analysis") ;;
             placed <- lift (Py.getitem analysis "placed_count") ;;
             db_add_log (OptimizationLog.mk (Some uid) exec_time n placed true (now req))
         | None => ret tt
         end ;;;
         ret (jsonify result 200))
    (fun e => ret (jsonify (error_body (str_exn e)) 500)).

(** [POST /api/billing/webhook] *)
Definition stripe_webhook (payload : string) (signature : option string)
  : M World Response :=
  try_except
    (event <- lift (match construct_event payload signature with
                     | Some ev => Ret ev
                     | None => Raise PlainException
                     end) ;;
     let event_type := ev_type event in
     let event_data := ev_object event in
     (if String.eqb event_type "checkout.session.completed" then
        WebhookHandler.handle_checkout_completed event_data
      else if String.eqb event_type "invoice.payment_succeeded" then
        WebhookHandler.handle_invoice_paid event_data
      else if String.eqb event_type "invoice.payment_failed" then
        WebhookHandler.handle_invoice_failed event_data
      else if String.eqb event_type "customer.subscription.updated" then
        WebhookHandler.handle_subscription_updated event_data
      else if String.eqb event_type "customer.subscription.deleted" then
        WebhookHandler.handle_subscription_deleted event_data
      else ret tt) ;;;
     ret (jsonify (JObj [("success", JBool true)]) 200))
    (fun e =>
       print ("Webhook error: " +:+ str_exn e) ;;;
       ret (jsonify (error_body (str_exn e)) 400)).

End Routes.
End AppProd.

(** ** Vocabulary of the properties *)

(** The two artifact names never coincide. *)
Definition ship_name (h : string) : string := "ship_" +:+ h +:+ ".cfg".
Definition cargo_name (h : string) : string := "cargo_" +:+ h +:+ ".txt".

(** The directory and the two random suffixes a dispatch started in [w]
    draws. *)
Definition temp_dir_of (w : World) : string := fresh (dom (fs w)).
Definition ship_file_of (w : World) : path :=
  (temp_dir_of w, ship_name (uuids w (uuid_next w))).
Definition cargo_file_of (w : World) : path :=
  (temp_dir_of w, cargo_name (uuids w (S (uuid_next w)))).

(** The world a dispatch started in [w] leaves behind: filesystem [f],
    trace of started processes [ps], two suffixes drawn. *)
Definition after_dispatch (f : FS) (ps : list Proc) (w : World) : World :=
  mkWorld f (users w) (logs w) (console w) ps (uuids w) (S (S (uuid_next w))).

(** The process a dispatch started in [w] runs once both artifacts are
    written, given the filesystem [f] that holds them. *)
Definition proc_of {ext : Externals} (f : FS) (w : World) : Proc :=
  solver (Fs.read (ship_file_of w) f) (Fs.read (cargo_file_of w) f).

(** A filesystem action that at most rewrites the content of the existing
    file [p]. *)
Definition appends_to {A} (p : path) (m : M FS A) : Prop :=
  forall (f : FS) e c,
    f !! p.1 = Some e -> e !! p.2 = Some c ->
    exists r c', m f = (r, <[p.1 := <[p.2 := c']> e]> f).

(** [response_data['execution']] as [run_optimization] fills it in. *)
Definition execution_info (p : Proc) : json :=
  JObj [("success", JBool true);
        ("execution_time_ms", JNum (duration p * 1000));
        ("warnings", JArr (map JStr (warnings_of (stderr p))))].

(** What [run_optimization] makes of the process [p] it started. *)
Definition run_verdict {ext : Externals} (p : Proc) : res (json * Q * option string) :=
  if Qle_bool (duration p) 30 then
    if negb (returncode p =? 0) then
      Ret (JNull, (duration p * 1000)%Q, Some (stderr p))
    else if Str.find "{" (stdout p) =? -1 then
      Ret (JNull, (duration p * 1000)%Q, Some "No JSON output")
    else
      match loads (Str.slice_from (Str.find "{" (stdout p)) (stdout p)) with
      | Raise e => Raise e
      | Ret d =>
          match setitem d "execution" (execution_info p) with
          | Raise e => Raise e
          | Ret d' => Ret (d', (duration p * 1000)%Q, None)
          end
      end
  else Raise TimeoutExpired.

(** The [except] clauses of [app.py]'s [optimize]. *)
Definition app_handler {ext : Externals} (e : exn) : Response :=
  if is_TimeoutExpired e then
    jsonify (error_body "Optimization timeout (>30s)") 408
  else if is_JSONDecodeError e then
    jsonify (error_body ("Invalid JSON output: " +:+ str_exn e)) 500
  else jsonify (error_body (str_exn e)) 500.

(** [response_data['execution']] as [app.py] fills it in. *)
Definition app_execution_info (p : Proc) : json :=
  JObj [("success", JBool true);
        ("warnings", JArr (map JStr (warnings_of (stderr p))))].

(** What [app.py]'s [optimize] answers for the process [p] it started. *)
Definition app_verdict {ext : Externals} (p : Proc) : Response :=
  if Qle_bool (duration p) 30 then
    if negb (returncode p =? 0) then
      jsonify (error_body ("Optimization failed: " +:+ stderr p)) 500
    else if Str.find "{" (stdout p) =? -1 then
      jsonify (error_body "No JSON output from optimizer") 500
    else
      match loads (Str.slice_from (Str.find "{" (stdout p)) (stdout p)) with
      | Raise e => app_handler e
      | Ret d =>
          match setitem d "execution" (app_execution_info p) with
          | Raise e => app_handler e
          | Ret d' => jsonify d' 200
          end
      end
  else app_handler TimeoutExpired.

(** The [except Exception] clause of [app_prod.py]'s [optimize]. *)
Definition prod_handler {ext : Externals} (e : exn) : Response :=
  jsonify (error_body (str_exn e)) 500.

(** The part of [app_prod.py]'s [optimize] after [run_optimization]
    returned [(result, exec_time, error)], as a pure function of the table
    of logs: the response, and the row appended if any. *)
Definition prod_after_run {ext : Externals} (req : AppProd.Request)
  (cargo result : json) (exec_time : Q) (error : option string)
  : Response * option OptimizationLog.t :=
  if AppProd.truthy_error error then
    (jsonify (error_body ("Optimization failed: " +:+ WebhookHandler.show error)) 500,
     None)
  else
    match AppProd.current_user req with
    | None => (jsonify result 200, None)
    | Some uid =>
        match Py.len cargo with
        | Raise e => (prod_handler e, None)
        | Ret n =>
            match Py.getitem result "analysis" with
            | Raise e => (prod_handler e, None)
            | Ret analysis =>
                match Py.getitem analysis "placed_count" with
                | Raise e => (prod_handler e, None)
                | Ret placed =>
                    (jsonify result 200,
                     Some (OptimizationLog.mk (Some uid) exec_time n placed true
                                              (AppProd.now req)))
                end
            end
        end
    end.

Definition add_log (l : option OptimizationLog.t) (w : World) : World :=
  match l with
  | None => w
  | Some row => mkWorld (fs w) (users w) (logs w ++ [row]) (console w)
                        (started w) (uuids w) (uuid_next w)
  end.


(** ** Concrete inputs *)

Module Fixture.

Definition plan : json :=
  JObj [("cargo", JArr []); ("analysis", JObj [("placed_count", JNum 1)])].

(** A solver that behaves as [p] whatever it is given, a parser that knows
    one document, and no billing events. *)
Definition externals (p : Proc) : Externals :=
  {| solver := fun _ _ => p;
     json_loads := fun s => if String.eqb s "{plan}" then Some plan else None;
     fmt := fun _ => "v";
     str_exn := fun _ => "error";
     construct_event := fun _ _ => None |}.

Definition fast : Proc := mkProc 0 "note {plan}" "" 2.
Definition slow : Proc := mkProc 0 "" "" 31.
Definition crashed : Proc := mkProc 1 "" "bad manifest" 1.
Definition silent : Proc := mkProc 0 "no braces here" "" 1.
Definition garbled : Proc := mkProc 0 "{not json" "" 1.

Definition item (ident : string) (weight : Q) (dims : list Q) : json :=
  JObj [("id", JStr ident); ("weight", JNum weight);
        ("dimensions", JArr (map JNum dims))].

Definition ship : json :=
  JObj [("length", JNum 100); ("width", JNum 20); ("max_weight", JNum 10000000)].

Definition request_of (items : list json) : json :=
  JObj [("ship", ship); ("cargo", JArr items)].

Definition good_body : json := request_of [item "C1" 250000 [12; 2; 3]%Q].


Definition alice : User.t :=
  User.mk 1 "alice@example.com" "free" (Some "active") None None (Some "key-alice").

Definition midnight : Z := 1000 * 86400.

Definition empty_world : World :=
  mkWorld ∅ [] [] [] [] (fun _ => "0a1b2c3d") 0.

(** Alice has used her ten free runs today. *)
Definition busy_world : World :=
  mkWorld ∅ [alice]
    (replicate 10 (OptimizationLog.mk (Some 1) 5 1 (JNum 1) true (midnight + 60)))
    [] [] (fun _ => "0a1b2c3d") 0.

Definition logged_in (data : json) : AppProd.Request :=
  AppProd.mkRequest data None (Some 1) (midnight + 7200) None.

Definition with_key (data : json) : AppProd.Request :=
  AppProd.mkRequest data (Some "key-alice") None (midnight + 7200) None.

Definition gold : User.t :=
  User.mk 2 "bob@example.com" "gold" (Some "active") None None None.

Definition with_tier (tier : string) : User.t :=
  User.mk 3 "carol@example.com" tier (Some "active") None None None.

End Fixture.


(** ** Billing events: what each handler writes *)

(** The attribute writes of the five handlers. *)
Definition checkout_writes (session : StripeObject) (u : User.t) : User.t :=
  User.mk (User.id u) (User.email u) (default "pro" (o_metadata_tier session))
          (Some "active") (o_customer session) (o_subscription session)
          (User.api_key u).

Definition invoice_paid_writes (invoice : StripeObject) (u : User.t) : User.t :=
  User.mk (User.id u) (User.email u) (User.subscription_tier u) (Some "active")
          (User.stripe_customer_id u) (o_subscription invoice) (User.api_key u).

Definition invoice_failed_writes (u : User.t) : User.t :=
  User.mk (User.id u) (User.email u) (User.subscription_tier u) (Some "past_due")
          (User.stripe_customer_id u) (User.stripe_subscription_id u)
          (User.api_key u).

Definition subscription_updated_writes (subscription : StripeObject) (u : User.t)
  : User.t :=
  User.mk (User.id u) (User.email u) (User.subscription_tier u)
          (if default false (o_cancel_at_period_end subscription)
           then Some "canceling" else o_status subscription)
          (User.stripe_customer_id u) (o_id subscription) (User.api_key u).

Definition subscription_deleted_writes (u : User.t) : User.t :=
  User.mk (User.id u) (User.email u) "free" (Some "canceled")
          (User.stripe_customer_id u) None (User.api_key u).

(** The four handlers that look the principal up by customer reference. *)
Definition customer_keyed : list (StripeObject -> M World unit) :=
  [WebhookHandler.handle_invoice_paid;
   WebhookHandler.handle_invoice_failed;
   WebhookHandler.handle_subscription_updated;
   WebhookHandler.handle_subscription_deleted].

Definition unknown_customer_warning (ev : StripeObject) : string :=
  "Warning: User not found for customer " +:+ WebhookHandler.show (o_customer ev).

Definition unknown_email_warning (ev : StripeObject) : string :=
  "Warning: User not found for email " +:+ WebhookHandler.show (o_customer_email ev).

Module BillingFixture.

Definition bob : User.t :=
  User.mk 7 "bob@example.com" "pro" (Some "active") (Some "cus_7") (Some "sub_7")
          None.

Definition world : World :=
  mkWorld ∅ [Fixture.alice; bob] [] [] [] (fun _ => "0a1b2c3d") 0.

(** Alice checks out; Stripe names her customer [cus_1] for the first time. *)
Definition checkout : StripeObject :=
  mkStripeObject (Some "cs_1") (Some "alice@example.com") (Some "cus_1")
                 (Some "sub_1") (Some "pro") None None.

Definition deleted : StripeObject :=
  mkStripeObject (Some "sub_7") None (Some "cus_7") None None (Some "canceled") None.

Definition invoice : StripeObject :=
  mkStripeObject (Some "in_7") None (Some "cus_7") (Some "sub_7") None (Some "paid") None.

(** An invoice for a customer nobody holds. *)
Definition stray_invoice : StripeObject :=
  mkStripeObject (Some "in_9") None (Some "cus_9") (Some "sub_9") None (Some "paid") None.

End BillingFixture.


(** ** The workspace of one dispatch *)

(** The dispatch started in [w] gets its workspace: the directory is made
    and the ship descriptor [ship] is written in full. The cargo manifest
    is opened next, which in an existing directory cannot fail, so from
    then on both artifacts exist. *)
Definition workspace_created {ext : Externals} (ship : json) (w : World) : Prop :=
  exists f, write_ship_config ship (ship_file_of w)
              (<[temp_dir_of w := ∅]> (fs w)) = (Ret tt, f).

(** Nothing of the workspace of the dispatch started in [w] is left in [f]. *)
Definition workspace_gone (w : World) (f : FS) : Prop :=
  f !! temp_dir_of w = None /\
  Fs.read (ship_file_of w) f = None /\
  Fs.read (cargo_file_of w) f = None.


(** ** Malformed requests *)






(** ** Valid configurations *)

Module Valid.

(** The conditions of a valid configuration, on values that may be
    absent. *)
Definition positive (v : option json) : bool :=
  match v with Some (JNum q) => negb (Qle_bool q 0) | _ => false end.

Definition nonempty_id (v : option json) : bool :=
  match v with Some (JStr s) => negb (Str.is_empty s) | _ => false end.

Definition three_positive (v : option json) : bool :=
  match v with
  | Some (JArr l) => Nat.eqb (length l) 3 && forallb (fun d => positive (Some d)) l
  | _ => false
  end.

Definition field (v : option json) (k : string) : option json :=
  match v with Some (JObj o) => Py.assoc k o | _ => None end.

Definition items_of (v : option json) : list json :=
  match v with Some (JArr l) => l | _ => [] end.



(** The number of conditions that fail. *)
Definition miss (b : bool) : nat := if b then 0%nat else 1%nat.

Definition item_violations (item : json) : nat :=
  (miss (nonempty_id (field (Some item) "id"))
   + (miss (positive (field (Some item) "weight"))
      + (miss (three_positive (field (Some item) "dimensions")) + 0)))%nat.

Fixpoint items_violations (items : list json) : nat :=
  match items with
  | [] => 0%nat
  | item :: items' => (item_violations item + items_violations items')%nat
  end.

Definition violations (data : json) : nat :=
  let ship := field (Some data) "ship" in
  let cargo := items_of (field (Some data) "cargo") in
  (miss (positive (field ship "length"))
   + (miss (positive (field ship "width"))
      + (miss (positive (field ship "max_weight"))
         + (miss (negb (Nat.eqb (length cargo) 0))
            + items_violations cargo))))%nat.

(** Bodies of the expected shape: an object; [ship], when present, an
    object whose three measures, when present, are numbers; [cargo], when
    present, a list of objects whose id, when present, is a string, whose
    weight, when present, is a number and whose dimensions, when present,
    are a list of numbers. *)
Definition is_number (v : json) : bool :=
  match v with JNum _ => true | _ => false end.

Definition number_if_present (v : option json) : bool :=
  match v with None => true | Some x => is_number x end.

Definition well_typed_item (item : json) : bool :=
  match item with
  | JObj o =>
      match Py.assoc "id" o with
      | None | Some (JStr _) => true
      | _ => false
      end
      && number_if_present (Py.assoc "weight" o)
      && match Py.assoc "dimensions" o with
         | None => true
         | Some (JArr l) => forallb is_number l
         | _ => false
         end
  | _ => false
  end.

Definition well_typed (data : json) : bool :=
  match data with
  | JObj o =>
      match Py.assoc "ship" o with
      | None => true
      | Some (JObj so) =>
          number_if_present (Py.assoc "length" so)
          && number_if_present (Py.assoc "width" so)
          && number_if_present (Py.assoc "max_weight" so)
      | _ => false
      end
      && match Py.assoc "cargo" o with
         | None => true
         | Some (JArr items) => forallb well_typed_item items
         | _ => false
         end
  | _ => false
  end.

(** An action on the list of errors that appends exactly [n] messages and
    never raises. *)
Definition appends (m : M (list string) unit) (n : nat) : Prop :=
  forall errors, exists msgs,
    m errors = (Ret tt, (errors ++ msgs)%list) /\ length msgs = n.



End Valid.


(** ** The two artifacts, line by line *)



(** The line of the manifest for one cargo item, when the item has an id,
    a weight and at least three dimensions. *)
Definition manifest_line {ext : Externals} (cargo : json) : option string :=
  match Py.getitem cargo "id", Py.getitem cargo "weight",
        Py.getitem cargo "dimensions" with
  | Ret i, Ret w, Ret dims =>
      match Py.index dims 0, Py.index dims 1, Py.index dims 2,
            Py.get cargo "type" (JStr "standard") with
      | Ret d0, Ret d1, Ret d2, Ret ty =>
          Some (fmt i +:+ " " +:+ fmt w +:+ " " +:+
                fmt d0 +:+ " " +:+ fmt d1 +:+ " " +:+ fmt d2 +:+ " " +:+
                fmt ty +:+ Str.nl)
      | _, _, _, _ => None
      end
  | _, _, _ => None
  end.

(** The lines of the items up to the first that cannot be rendered. *)
Fixpoint manifest_lines {ext : Externals} (items : list json) : list string :=
  match items with
  | [] => []
  | item :: items' =>
      match manifest_line item with
      | Some line => line :: manifest_lines items'
      | None => []
      end
  end.

Definition manifest_header : string :=
  "# id weight_kg length_m width_m height_m type" +:+ Str.nl.

Fixpoint concat_lines (lines : list string) : string :=
  match lines with
  | [] => ""
  | l :: ls => l +:+ concat_lines ls
  end.


(** ** Billing events: what stays the same *)

(** What identifies a principal: the handlers never write these. *)
Definition identity (u : User.t) : Z * string * option string :=
  (User.id u, User.email u, User.api_key u).

(** The three handlers that report a payment or a change of status. *)
Definition status_only : list (StripeObject -> M World unit) :=
  [WebhookHandler.handle_invoice_paid;
   WebhookHandler.handle_invoice_failed;
   WebhookHandler.handle_subscription_updated].



Module WebhookFixture.

Definition failed_event : Event :=
  mkEvent "invoice.payment_failed" BillingFixture.invoice.

(** Stripe accepts the payload ["signed"] and nothing else. *)
Definition externals : Externals :=
  {| solver := fun _ _ => Fixture.fast;
     json_loads := fun _ => None;
     fmt := fun _ => "v";
     str_exn := fun _ => "Invalid signature";
     construct_event := fun payload _ =>
       if String.eqb payload "signed" then Some failed_event else None |}.

End WebhookFixture.


(** ** [get_challenges], in [app.py] and in [app_prod.py] *)

Module Challenges.

Definition cargo (ident : string) (weight : Q) (dims : list Q) (ty : string) : json :=
  JObj [("id", JStr ident); ("weight", JNum weight);
        ("dimensions", JArr (map JNum dims)); ("type", JStr ty)].

Definition range (a b : Q) : json := JArr [JNum a; JNum b].

(** The list [challenges] of [app.py]. *)
Definition app_challenges : list json :=
  [JObj [("id", JNum 1);
         ("title", JStr "Getting Started");
         ("difficulty", JStr "beginner");
         ("description",
          JStr "Learn the basics by loading 3 containers on a small vessel");
         ("ship", JObj [("length", JNum 100); ("width", JNum 20);
                        ("max_weight", JNum 10000000)]);
         ("cargo", JArr [cargo "Container1" 250000 [12; 12 # 5; 13 # 5]%Q "standard";
                         cargo "Container2" 250000 [12; 12 # 5; 13 # 5]%Q "standard";
                         cargo "Container3" 200000 [10; 12 # 5; 13 # 5]%Q "standard"]);
         ("goals", JObj [("cg_range", range 40 60); ("min_gm", JNum (1 # 2));
                         ("all_placed", JBool true)])];
   JObj [("id", JNum 2);
         ("title", JStr "Balance Master");
         ("difficulty", JStr "intermediate");
         ("description",
          JStr "Achieve perfect longitudinal balance with asymmetric cargo");
         ("ship", JObj [("length", JNum 150); ("width", JNum 25);
                        ("max_weight", JNum 50000000)]);
         ("cargo", JArr [cargo "HeavyFwd" 800000 [15; 5; 4]%Q "heavy";
                         cargo "LightAft1" 200000 [8; 3; 2]%Q "standard";
                         cargo "LightAft2" 200000 [8; 3; 2]%Q "standard";
                         cargo "MidWeight" 400000 [10; 4; 3]%Q "standard"]);
         ("goals", JObj [("cg_range", range 48 52);
                         ("balance_status", JStr "good");
                         ("stability_status", JStr "optimal")])];
   JObj [("id", JNum 3);
         ("title", JStr "Hazmat Separation");
         ("difficulty", JStr "advanced");
         ("description",
          JStr "Safely load hazardous materials with proper separation");
         ("ship", JObj [("length", JNum 200); ("width", JNum 30);
                        ("max_weight", JNum 80000000)]);
         ("cargo", JArr [cargo "Hazmat1" 300000 [10; 3; 3]%Q "hazardous";
                         cargo "Hazmat2" 300000 [10; 3; 3]%Q "hazardous";
                         cargo "Reefer1" 250000 [12; 12 # 5; 13 # 5]%Q "reefer";
                         cargo "General1" 400000 [15; 4; 3]%Q "standard";
                         cargo "General2" 400000 [15; 4; 3]%Q "standard"]);
         ("goals", JObj [("all_placed", JBool true);
                         ("stability_status", JStr "optimal");
                         ("no_constraint_violations", JBool true)])]].

(** The list [challenges] of [app_prod.py]. *)
Definition app_prod_challenges : list json :=
  [JObj [("id", JNum 1);
         ("title", JStr "Getting Started");
         ("difficulty", JStr "beginner");
         ("description",
          JStr "Learn the basics by loading 3 containers on a small vessel");
         ("ship", JObj [("length", JNum 100); ("width", JNum 20);
                        ("max_weight", JNum 10000000)]);
         ("cargo", JArr [cargo "Container1" 250000 [12; 12 # 5; 13 # 5]%Q "standard";
                         cargo "Container2" 250000 [12; 12 # 5; 13 # 5]%Q "standard";
                         cargo "Container3" 200000 [10; 12 # 5; 13 # 5]%Q "standard"]);
         ("goals", JObj [("cg_range", range 40 60); ("min_gm", JNum (1 # 2));
                         ("all_placed", JBool true)])];
   JObj [("id", JNum 2);
         ("title", JStr "Balance Master");
         ("difficulty", JStr "intermediate");
         ("description",
          JStr "Achieve perfect longitudinal balance with asymmetric cargo");
         ("ship", JObj [("length", JNum 150); ("width", JNum 25);
                        ("max_weight", JNum 50000000)]);
         ("cargo", JArr [cargo "HeavyFwd" 800000 [15; 5; 4]%Q "heavy";
                         cargo "LightAft1" 200000 [8; 3; 2]%Q "standard";
                         cargo "LightAft2" 200000 [8; 3; 2]%Q "standard";
                         cargo "MidWeight" 400000 [10; 4; 3]%Q "standard"]);
         ("goals", JObj [("cg_range", range 48 52);
                         ("balance_status", JStr "good");
                         ("stability_status", JStr "optimal")])];
   JObj [("id", JNum 3);
         ("title", JStr "Hazmat Separation");
         ("difficulty", JStr "advanced");
         ("description",
          JStr "Safely load hazardous materials with proper separation");
         ("ship", JObj [("length", JNum 200); ("width", JNum 30);
                        ("max_weight", JNum 80000000)]);
         ("cargo", JArr [cargo "Hazmat1" 300000 [10; 3; 3]%Q "hazardous";
                         cargo "Hazmat2" 300000 [10; 3; 3]%Q "hazardous";
                         cargo "Reefer1" 250000 [12; 12 # 5; 13 # 5]%Q "reefer";
                         cargo "General1" 400000 [15; 4; 3]%Q "standard";
                         cargo "General2" 400000 [15; 4; 3]%Q "standard"]);
         ("goals", JObj [("all_placed", JBool true);
                         ("stability_status", JStr "optimal");
                         ("no_constraint_violations", JBool true)])]].

(** [GET /api/challenges] of [app.py] *)
Definition app_get_challenges : Response :=
  jsonify (JObj [("challenges", JArr app_challenges)]) 200.

(** [GET /api/challenges] of [app_prod.py] *)
Definition app_prod_get_challenges : Response :=
  jsonify (JObj [("challenges", JArr app_prod_challenges)]) 200.

(** The request a client makes of a challenge: its ship and its cargo. *)
Definition request_of (challenge : json) : json :=
  JObj [("ship", default JNull (Valid.field (Some challenge) "ship"));
        ("cargo", default JNull (Valid.field (Some challenge) "cargo"))].

(** The summed weight of the items of a request, and the ship's capacity. *)
Definition weight_of (item : json) : Q :=
  match Valid.field (Some item) "weight" with Some (JNum q) => q | _ => 0%Q end.

Definition total_weight (data : json) : Q :=
  fold_right Qplus 0%Q (map weight_of (Valid.items_of (Valid.field (Some data) "cargo"))).

Definition capacity (data : json) : Q :=
  match Valid.field (Valid.field (Some data) "ship") "max_weight" with
  | Some (JNum q) => q
  | _ => 0%Q
  end.

End Challenges.


(** ** [stripe_integration.py]: prices, tiers and [StripeService] *)

Module StripeService.

(** The two environment variables that name the prices. *)
Record Env : Type := mkEnv {
  STRIPE_PRICE_PRO_MONTHLY : option string;
  STRIPE_PRICE_PRO_ANNUAL : option string
}.

(** [os.getenv(name, fallback)] *)
Definition getenv (value : option string) (fallback : string) : string :=
  default fallback value.

Definition STRIPE_PRICES (env : Env) : gmap string string :=
  <["pro_monthly" := getenv (STRIPE_PRICE_PRO_MONTHLY env) "price_pro_monthly"]>
    (<["pro_annual" := getenv (STRIPE_PRICE_PRO_ANNUAL env) "price_pro_annual"]>
       (<["enterprise" := "contact_sales"]> ∅)).

(** The arguments of [stripe.checkout.Session.create]. *)
Record CheckoutParams : Type := mkCheckoutParams {
  customer_email : string;
  payment_method_types : list string;
  price : string;
  quantity : Z;
  mode : string;
  success_url : string;
  cancel_url : string;
  metadata_tier : string
}.

Record Session : Type := mkSession {
  session_id : string;
  session_url : string
}.

Record Subscription : Type := mkSubscription {
  current_period_end : Z
}.

(** Stripe's API, as the module calls it; [inl msg] is a
    [stripe.error.StripeError] whose text is [msg]. *)
Class Api : Type := {
  checkout_session_create : CheckoutParams -> string + Session;
  billing_portal_session_create : string -> string -> string + Session;
  subscription_modify : string -> bool -> string + Subscription;
  subscription_retrieve : string -> string + Subscription
}.

(** What the service and the routes around it raise: [ValueError(msg)],
    [Exception(msg)], or an exception of Python's own. *)
Inductive failure : Type :=
| ValueError (msg : string)
| PlainError (msg : string)
| Python (e : exn).

(** [tier.split('_')[0]] *)
Definition tier_of_plan (tier : string) : string :=
  match Str.split "_" tier with
  | first :: _ => first
  | [] => ""
  end.

Section Service.
Context {api : Api}.
Variable env : Env.

(** Re-raise a [StripeError] as [Exception(f"Stripe error: {str(e)}")]. *)
Definition stripe_call {A} (r : string + A) : failure + A :=
  match r with
  | inl msg => inl (PlainError ("Stripe error: " +:+ msg))
  | inr a => inr a
  end.

Definition create_checkout_session (user_email tier success_url cancel_url : string)
  : failure + Session :=
  match STRIPE_PRICES env !! tier with
  | None => inl (ValueError ("Invalid tier: " +:+ tier))
  | Some listed =>
      if String.eqb listed "contact_sales" then
        inl (ValueError ("Invalid tier: " +:+ tier))
      else
        stripe_call
          (checkout_session_create
             (mkCheckoutParams user_email ["card"] listed 1 "subscription"
                (success_url +:+ "?session_id={CHECKOUT_SESSION_ID}")
                cancel_url (tier_of_plan tier)))
  end.

Definition create_customer_portal_session (customer_id return_url : string)
  : failure + Session :=
  stripe_call (billing_portal_session_create customer_id return_url).

Definition cancel_subscription (subscription_id : string) : failure + Subscription :=
  stripe_call (subscription_modify subscription_id true).

Definition reactivate_subscription (subscription_id : string)
  : failure + Subscription :=
  stripe_call (subscription_modify subscription_id false).

Definition get_subscription (subscription_id : string) : failure + Subscription :=
  stripe_call (subscription_retrieve subscription_id).

Definition features (lines : list string) : json := JArr (map JStr lines).

(** [get_tier_info()] *)
Definition get_tier_info : json :=
  let listed plan := JStr (default "" (STRIPE_PRICES env !! plan)) in
  JObj
    [("free",
      JObj [("name", JStr "Free"); ("price", JNum 0); ("currency", JStr "USD");
            ("interval", JNull); ("daily_limit", JNum 10);
            ("features", features ["10 optimizations per day";
                                   "Basic 3D visualization";
                                   "Training challenges";
                                   "Community support"])]);
     ("pro_monthly",
      JObj [("name", JStr "Pro (Monthly)"); ("price", JNum 29);
            ("currency", JStr "USD"); ("interval", JStr "month");
            ("daily_limit", JNum 1000);
            ("stripe_price_id", listed "pro_monthly");
            ("features", features ["1,000 optimizations per day";
                                   "Save unlimited scenarios";
                                   "PDF export";
                                   "API access";
                                   "Priority support";
                                   "Advanced analytics"])]);
     ("pro_annual",
      JObj [("name", JStr "Pro (Annual)"); ("price", JNum 290);
            ("currency", JStr "USD"); ("interval", JStr "year");
            ("daily_limit", JNum 1000);
            ("stripe_price_id", listed "pro_annual");
            ("features", features ["1,000 optimizations per day";
                                   "Save unlimited scenarios";
                                   "PDF export";
                                   "API access";
                                   "Priority support";
                                   "Advanced analytics";
                                   "2 months free (annual billing)"])]);
     ("enterprise",
      JObj [("name", JStr "Enterprise"); ("price", JStr "Custom");
            ("currency", JStr "USD"); ("interval", JNull);
            ("daily_limit", JNum 10000);
            ("contact_sales", JBool true);
            ("features", features ["Unlimited optimizations";
                                   "Custom ship configurations";
                                   "Dedicated support";
                                   "SLA guarantee";
                                   "On-premise deployment option";
                                   "Custom integrations";
                                   "White-label solution"])])].

End Service.
End StripeService.

(** ** [app_prod.py]: the billing routes

    Each route below is the body that [login_required] lets a logged-in
    user reach; [me] is the row that [current_user] stands for. *)

Module Billing.
Section Routes.
Context {ext : Externals} {api : StripeService.Api}.
Variable env : StripeService.Env.

(** [str(e)] *)
Definition str_failure (e : StripeService.failure) : string :=
  match e with
  | StripeService.ValueError msg => msg
  | StripeService.PlainError msg => msg
  | StripeService.Python e => str_exn e
  end.

(** [GET /api/billing/pricing] *)
Definition get_pricing : Response :=
  jsonify (StripeService.get_tier_info env) 200.

(** [tier not in ['pro_monthly', 'pro_annual']], and the string [tier] is
    when it is in the list. *)
Definition plan_of (tier : json) : option string :=
  match tier with
  | JStr s =>
      if String.eqb s "pro_monthly" || String.eqb s "pro_annual" then Some s
      else None
  | _ => None
  end.

(** [POST /api/billing/checkout] *)
Definition create_checkout (data : json) (me : User.t) (host_url : string)
  : Response :=
  match Py.get data "tier" JNull with
  | Raise e => jsonify (error_body (str_exn e)) 500
  | Ret tier =>
      if negb (Py.truthy tier) then jsonify (error_body "Tier required") 400
      else
        match plan_of tier with
        | None => jsonify (error_body "Invalid tier") 400
        | Some plan =>
            if negb (String.eqb (User.subscription_tier me) "free") then
              jsonify (error_body
                "Already subscribed. Use billing portal to manage subscription.") 400
            else
              let success_url := host_url +:+ "app?payment=success" in
              let cancel_url := host_url +:+ "app?payment=canceled" in
              match StripeService.create_checkout_session env (User.email me) plan
                      success_url cancel_url with
              | inl e => jsonify (error_body (str_failure e)) 500
              | inr session =>
                  jsonify (JObj [("checkout_url",
                                  JStr (StripeService.session_url session));
                                 ("session_id",
                                  JStr (StripeService.session_id session))]) 200
              end
        end
  end.

(** [not current_user.stripe_customer_id] and the like: [None] and the
    empty string are both false. *)
Definition present (reference : option string) : option string :=
  match reference with
  | Some s => if Str.is_empty s then None else Some s
  | None => None
  end.

(** [POST /api/billing/portal] *)
Definition create_portal_session (me : User.t) (host_url : string) : Response :=
  match present (User.stripe_customer_id me) with
  | None => jsonify (error_body "No active subscription") 400
  | Some customer_id =>
      let return_url := host_url +:+ "app" in
      match StripeService.create_customer_portal_session customer_id return_url with
      | inl e => jsonify (error_body (str_failure e)) 500
      | inr session =>
          jsonify (JObj [("portal_url", JStr (StripeService.session_url session))]) 200
      end
  end.

(** [current_user.subscription_status = status; db.session.commit()]:
    the row with the user's primary key takes the new status. *)
Definition set_status (status : string) (u : User.t) : User.t :=
  User.mk (User.id u) (User.email u) (User.subscription_tier u) (Some status)
          (User.stripe_customer_id u) (User.stripe_subscription_id u)
          (User.api_key u).

Definition commit_status (me : User.t) (status : string) : M World unit :=
  fun w =>
    (Ret tt,
     set_users (map (fun u => if User.id u =? User.id me then set_status status u
                              else u) (users w)) w).

(** [POST /api/billing/cancel] *)
Definition cancel_subscription (me : User.t) : M World Response :=
  match present (User.stripe_subscription_id me) with
  | None => ret (jsonify (error_body "No active subscription") 400)
  | Some subscription_id =>
      match StripeService.cancel_subscription subscription_id with
      | inl e => ret (jsonify (error_body (str_failure e)) 500)
      | inr subscription =>
          commit_status me "canceling" ;;;
          ret (jsonify
                 (JObj [("success", JBool true);
                        ("message",
                         JStr "Subscription will be cancelled at period end");
                        ("period_end",
                         JNum (inject_Z (StripeService.current_period_end
                                           subscription)))]) 200)
      end
  end.

(** [POST /api/billing/reactivate] *)
Definition reactivate_subscription (me : User.t) : M World Response :=
  match present (User.stripe_subscription_id me) with
  | None => ret (jsonify (error_body "No subscription to reactivate") 400)
  | Some subscription_id =>
      match StripeService.reactivate_subscription subscription_id with
      | inl e => ret (jsonify (error_body (str_failure e)) 500)
      | inr subscription =>
          commit_status me "active" ;;;
          ret (jsonify
                 (JObj [("success", JBool true);
                        ("message", JStr "Subscription reactivated successfully")])
                 200)
      end
  end.

End Routes.
End Billing.

Module BillingRoutesFixture.

(** A Stripe that accepts everything. *)
Definition api : StripeService.Api :=
  {| StripeService.checkout_session_create := fun params =>
       inr (StripeService.mkSession "cs_test" "https://checkout.example/cs_test");
     StripeService.billing_portal_session_create := fun _ _ =>
       inr (StripeService.mkSession "bps_test" "https://portal.example");
     StripeService.subscription_modify := fun _ _ =>
       inr (StripeService.mkSubscription 1700000000);
     StripeService.subscription_retrieve := fun _ =>
       inr (StripeService.mkSubscription 1700000000) |}.

Definition env : StripeService.Env := StripeService.mkEnv None None.

End BillingRoutesFixture.


(** ** [app_prod.py]: saved scenarios

    The [scenarios] table is a finite map from the primary key to the row.
    What the database and the platform decide is a parameter: the key given
    to a new row, the share tokens of [secrets.token_urlsafe], the text of
    [isoformat] and the order [order_by] returns. A commit always succeeds.
    [get_or_404] answers 404 with a page of the framework; its body is not
    modelled and stands as [null]. An exception a route does not catch
    leaves it as [Raise]. *)
Module Scenario.

Record t := mk {
  user_id : Z;
  name : json;
  description : json;
  ship_config : json;
  cargo_manifest : json;
  results : json;
  share_token : option string;
  is_public : bool;
  created_at : Z;
  updated_at : Z
}.

End Scenario.

Module Scenarios.

Record Db := mkDb {
  rows : gmap Z Scenario.t;
  tokens_issued : nat
}.

Class Platform := {
  next_id : gmap Z Scenario.t -> Z;
  token_urlsafe : nat -> string;
  isoformat : Z -> string;
  order_by_updated_at_desc : list (Z * Scenario.t) -> list (Z * Scenario.t)
}.


(** [order_by] returns the rows it is given, in some order. *)
Definition reorders (platform : Platform) : Prop :=
  forall l, order_by_updated_at_desc l ≡ₚ l.

Definition not_found : Response := mkResponse JNull 404.

Definition token_json (token : option string) : json :=
  match token with Some s => JStr s | None => JNull end.

Section Routes.
Context {platform : Platform}.




(** [db.session.delete(scenario); db.session.commit()] *)
Definition delete_commit (key : Z) : M Db unit :=
  fun db => (Ret tt, mkDb (delete key (rows db)) (tokens_issued db)).

Definition summary (row : Z * Scenario.t) : json :=
  let s := row.2 in
  JObj [("id", JNum (inject_Z row.1));
        ("name", Scenario.name s);
        ("description", Scenario.description s);
        ("created_at", JStr (isoformat (Scenario.created_at s)));
        ("updated_at", JStr (isoformat (Scenario.updated_at s)));
        ("is_public", JBool (Scenario.is_public s));
        ("share_token", token_json (Scenario.share_token s))].

Definition owned_by (me : User.t) (row : Z * Scenario.t) : bool :=
  Scenario.user_id row.2 =? User.id me.

(** [GET /api/scenarios] *)
Definition get_scenarios (me : User.t) (db : Db) : Response :=
  let scenarios :=
    order_by_updated_at_desc (List.filter (owned_by me) (map_to_list (rows db))) in
  jsonify (JObj [("scenarios", JArr (map summary scenarios))]) 200.


(** [GET /api/scenarios/<int:scenario_id>] *)
Definition get_scenario (scenario_id : Z) (me : User.t) (db : Db) : Response :=
  match rows db !! scenario_id with
  | None => not_found
  | Some scenario =>
      if negb (Scenario.user_id scenario =? User.id me)
         && negb (Scenario.is_public scenario) then
        jsonify (error_body "Unauthorized") 403
      else
        jsonify
          (JObj [("scenario",
                  JObj [("id", JNum (inject_Z scenario_id));
                        ("name", Scenario.name scenario);
                        ("description", Scenario.description scenario);
                        ("ship", Scenario.ship_config scenario);
                        ("cargo", Scenario.cargo_manifest scenario);
                        ("results", Scenario.results scenario);
                        ("created_at",
                         JStr (isoformat (Scenario.created_at scenario)))])]) 200
  end.

(** [DELETE /api/scenarios/<int:scenario_id>] *)
Definition delete_scenario (scenario_id : Z) (me : User.t) : M Db Response :=
  fun db =>
    match rows db !! scenario_id with
    | None => (Ret not_found, db)
    | Some scenario =>
        if negb (Scenario.user_id scenario =? User.id me) then
          (Ret (jsonify (error_body "Unauthorized") 403), db)
        else
          (delete_commit scenario_id ;;;
           ret (jsonify (JObj [("success", JBool true)]) 200)) db
    end.

End Routes.

(** What a reader of scenario [scenario_id] is shown of it. *)
Definition shown (field : string) (resp : Response) : res json :=
  match Py.getitem (body resp) "scenario" with
  | Ret scenario => Py.getitem scenario field
  | Raise e => Raise e
  end.

End Scenarios.

Module ScenarioFixture.

Definition platform : Scenarios.Platform :=
  {| Scenarios.next_id := fun table => fresh (dom table);
     Scenarios.token_urlsafe := fun _ => "c2hhcmUtdG9rZW4";
     Scenarios.isoformat := fun _ => "2024-05-01T12:00:00";
     Scenarios.order_by_updated_at_desc := fun l => l |}.

Definition plan : Scenario.t :=
  Scenario.mk 1 (JStr "Spring run") (JStr "") (JObj [("length", JNum 100)])
    (JArr []) JNull None false 0 0.

Definition db : Scenarios.Db := Scenarios.mkDb (<[4 := plan]> ∅) 0.

Definition body : json :=
  JObj [("name", JStr "Autumn run"); ("ship", JObj [("length", JNum 150)]);
        ("is_public", JBool true)].

End ScenarioFixture.

(** ** [pdf_export.py]: what the report says about stability

    The drawing of the report is ReportLab's. What is embedded is the text
    [CargoLoadingPlanPDF] decides on: the status cell of the stability
    table and the list of recommendations. [format_1f] is the rendering of
    a number by [:.1f]. *)
Module CargoLoadingPlanPDF.

Class Formatter := { format_1f : Q -> string }.

(** A value where Python's [<], [>] and [abs] need a number. *)
Definition number (v : json) : res Q :=
  match v with
  | JNum q => Ret q
  | JBool b => Ret (if b then 1%Q else 0%Q)
  | _ => Raise TypeError
  end.

Definition lt (x y : Q) : bool := negb (Qle_bool y x).

(** [analysis_data.get(key, 0)], as a number. *)
Definition measure (analysis_data : json) (key : string) : res Q :=
  match Py.get analysis_data key (JNum 0%Q) with
  | Ret v => number v
  | Raise e => Raise e
  end.

(** [status] in [_create_stability_analysis_table] *)
Definition stability_status (analysis_data : json) : res string :=
  match measure analysis_data "gm" with
  | Raise e => Raise e
  | Ret gm =>
      Ret (if lt gm 0%Q then "CRITICAL - UNSTABLE"
           else if lt gm (3 # 10)%Q then "WARNING - Low Stability"
           else if lt 3%Q gm then "WARNING - Over-stiff"
           else "OPTIMAL")
  end.

Section Report.
Context {formatter : Formatter}.

Definition recommend (analysis_data : json) : M (list string) unit :=
  gm <- lift (measure analysis_data "gm") ;;
  (if lt gm 0%Q then
     App.append "CRITICAL: Ship is unstable. Do not proceed with loading. Redistribute cargo immediately."
   else if lt gm (3 # 10)%Q then
     App.append "WARNING: Metacentric height is below safe limits. Consider redistributing cargo for better stability."
   else if lt 3%Q gm then
     App.append "Ship is over-stiff. This may cause uncomfortable rolling motion. Consider adjusting cargo distribution."
   else
     App.append "Stability is within optimal range. Ship is safe for operation.") ;;;
  long_balance <- lift (measure analysis_data "longitudinal_balance") ;;
  let long_balance := Qabs long_balance in
  App.when (lt 10%Q long_balance)
    (App.append ("Longitudinal imbalance is " +:+ format_1f long_balance
                 +:+ "%. Redistribute cargo along ship's length.")) ;;;
  lat_balance <- lift (measure analysis_data "lateral_balance") ;;
  let lat_balance := Qabs lat_balance in
  App.when (lt 5%Q lat_balance)
    (App.append ("Lateral imbalance is " +:+ format_1f lat_balance
                 +:+ "%. Redistribute cargo across ship's width.")) ;;;
  cargo_util <- lift (measure analysis_data "cargo_utilization") ;;
  (if lt cargo_util 60%Q then
     App.append ("Cargo space utilization is only " +:+ format_1f cargo_util
                 +:+ "%. Consider better arrangement or additional cargo.")
   else if lt 95%Q cargo_util then
     App.append "Excellent cargo space utilization achieved."
   else ret tt) ;;;
  App.append "Verify all hazardous materials are properly separated (minimum 3m)." ;;;
  App.append "Ensure all cargo is properly secured before departure." ;;;
  App.append "Monitor weather conditions and adjust loading plan if necessary.".

Definition _generate_recommendations (analysis_data : json) : res (list string) :=
  match recommend analysis_data [] with
  | (Ret _, recommendations) => Ret recommendations
  | (Raise e, _) => Raise e
  end.

End Report.

(** The four measures the recommendations read are numbers where the
    analysis has them. *)
Definition measured (analysis : list (string * json)) : Prop :=
  forall key,
    In key ["gm"; "longitudinal_balance"; "lateral_balance"; "cargo_utilization"] ->
    exists q, measure (JObj analysis) key = Ret q.

End CargoLoadingPlanPDF.

Module ReportFixture.

Definition formatter : CargoLoadingPlanPDF.Formatter :=
  {| CargoLoadingPlanPDF.format_1f := fun _ => "0.0" |}.

(** An analysis without a metacentric height. *)
Definition analysis : list (string * json) :=
  [("longitudinal_balance", JNum (-12)%Q); ("cargo_utilization", JNum 80%Q)].

End ReportFixture.

(** ** [app_prod.py]: the PDF export

    The rendering is [generate_pdf_report] of [pdf_export.py], a parameter
    here: it returns the bytes of the report or raises. The route is behind
    [login_required]; [me] is the logged-in user. *)
Module PdfExport.

Class Generator := {
  generate_pdf_report : json -> string -> json -> res string
}.

(** What [send_file] is given. *)
Record Download := mkDownload {
  pdf_buffer : string;
  mimetype : string;
  download_name : string
}.

Inductive Reply :=
| Json (response : Response)
| File (download : Download).

(** [s.replace(" ", "_")] *)
Fixpoint underscored (s : string) : string :=
  match s with
  | EmptyString => EmptyString
  | String c s' =>
      String (if Ascii.eqb c " "%char then "_"%char else c) (underscored s')
  end.

(** [f'cargo_loading_plan_{scenario_name.replace(" ", "_")}.pdf']: only a
    string has [replace]. *)
Definition file_name (scenario_name : json) : res string :=
  match scenario_name with
  | JStr s => Ret ("cargo_loading_plan_" +:+ underscored s +:+ ".pdf")
  | _ => Raise AttributeError
  end.

Section Routes.
Context {ext : Externals} {generator : Generator}.

(** [POST /api/export/pdf] *)
Definition export_pdf (req : AppProd.Request) (me : User.t) : M World Reply :=
  let data := AppProd.json_body req in
  try_except
    (missing <- lift (missing_ship_or_cargo data) ;;
     if (missing : bool) then
       ret (Json (jsonify (error_body "Missing ship or cargo data") 400))
     else
       ship <- lift (Py.getitem data "ship") ;;
       cargo <- lift (Py.getitem data "cargo") ;;
       r <- AppProd.run_optimization ship cargo ;;
       let '(result, exec_time, error) := r in
       if AppProd.truthy_error error then
         ret (Json (jsonify (error_body ("Optimization failed: "
                                         +:+ WebhookHandler.show error)) 500))
       else
         ship <- lift (Py.getitem data "ship") ;;
         placed_cargo <- lift (Py.getitem result "cargo") ;;
         analysis <- lift (Py.getitem result "analysis") ;;
         let optimization_data :=
           JObj [("ship", ship); ("cargo", placed_cargo); ("analysis", analysis)] in
         scenario_name <- lift (Py.get data "scenario_name"
                                  (JStr "Untitled Scenario")) ;;
         pdf <- lift (generate_pdf_report optimization_data
                        (User.subscription_tier me) scenario_name) ;;
         cargo <- lift (Py.getitem data "cargo") ;;
         n <- lift (Py.len cargo) ;;
         analysis <- lift (Py.getitem result "analysis") ;;
         placed <- lift (Py.getitem analysis "placed_count") ;;
         db_add_log (OptimizationLog.mk (Some (User.id me)) exec_time n placed true
                       (AppProd.now req)) ;;;
         name <- lift (file_name scenario_name) ;;
         ret (File (mkDownload pdf "application/pdf" name)))
    (fun e => ret (Json (jsonify (error_body (str_exn e)) 500))).

End Routes.

(** The reply once the report is rendered and the export is logged. *)
Definition served {ext : Externals} (pdf : string) (scenario_name : json) : Reply :=
  match file_name scenario_name with
  | Ret name => File (mkDownload pdf "application/pdf" name)
  | Raise e => Json (jsonify (error_body (str_exn e)) 500)
  end.

(** A reply that is an error in JSON. *)
Definition refused (reply : Reply) : Prop :=
  exists response,
    reply = Json response /\ (status response = 400 \/ status response = 500).

End PdfExport.

Module ExportFixture.

Definition generator : PdfExport.Generator :=
  {| PdfExport.generate_pdf_report := fun _ _ _ => Ret "%PDF-1.4" |}.

(** A request that names its scenario by a number. *)
Definition numbered : AppProd.Request :=
  Fixture.logged_in
    (JObj [("ship", Fixture.ship);
           ("cargo", JArr [Fixture.item "C1" 250000 [12; 2; 3]%Q]);
           ("scenario_name", JNum 7)]).

End ExportFixture.

(** ** [app_prod.py]: the PDF export of a saved scenario *)
Module ScenarioExport.

Section Routes.
Context {ext : Externals} {generator : PdfExport.Generator}.

(** From [generate_pdf_report] to [send_file]. *)
Definition send_report (optimization_data : json) (me : User.t)
  (scenario : Scenario.t) : M World PdfExport.Reply :=
  pdf <- lift (PdfExport.generate_pdf_report optimization_data
                 (User.subscription_tier me) (Scenario.name scenario)) ;;
  name <- lift (PdfExport.file_name (Scenario.name scenario)) ;;
  ret (PdfExport.File (PdfExport.mkDownload pdf "application/pdf" name)).

(** [GET /api/export/pdf/<int:scenario_id>] *)
Definition export_scenario_pdf (scenario_id : Z) (me : User.t)
  (db : Scenarios.Db) : M World PdfExport.Reply :=
  try_except
    (match Scenarios.rows db !! scenario_id with
     | None =>
         ret (PdfExport.Json (jsonify (error_body "Scenario not found") 404))
     | Some scenario =>
         if negb (Scenario.user_id scenario =? User.id me)
            && negb (Scenario.is_public scenario) then
           ret (PdfExport.Json (jsonify (error_body "Access denied") 403))
         else if Py.truthy (Scenario.results scenario) then
           cargo <- lift (Py.get (Scenario.results scenario) "cargo" (JArr [])) ;;
           analysis <- lift (Py.get (Scenario.results scenario) "analysis"
                               (JObj [])) ;;
           send_report (JObj [("ship", Scenario.ship_config scenario);
                              ("cargo", cargo); ("analysis", analysis)])
                       me scenario
         else
           r <- AppProd.run_optimization (Scenario.ship_config scenario)
                  (Scenario.cargo_manifest scenario) ;;
           let '(result, _, error) := r in
           if AppProd.truthy_error error then
             ret (PdfExport.Json
                    (jsonify (error_body ("Optimization failed: "
                                          +:+ WebhookHandler.show error)) 500))
           else
             cargo <- lift (Py.getitem result "cargo") ;;
             analysis <- lift (Py.getitem result "analysis") ;;
             send_report (JObj [("ship", Scenario.ship_config scenario);
                                ("cargo", cargo); ("analysis", analysis)])
                         me scenario
     end)
    (fun e => ret (PdfExport.Json (jsonify (error_body (str_exn e)) 500))).

End Routes.

End ScenarioExport.

(** The status of a reply; [send_file] answers 200. *)
Definition status_of (reply : PdfExport.Reply) : Z :=
  match reply with
  | PdfExport.Json response => status response
  | PdfExport.File _ => 200
  end.

Module ScenarioExportFixture.

(** A stored scenario with its results. *)
Definition solved : Scenario.t :=
  Scenario.mk 1 (JStr "Spring run") (JStr "") Fixture.ship (JArr [])
    Fixture.plan None false 0 0.

Definition db : Scenarios.Db := Scenarios.mkDb (<[4 := solved]> ∅) 0.

End ScenarioExportFixture.

(** * Properties *)

(** ** The filesystem *)

Lemma ship_cargo_names_differ h1 h2 : ship_name h1 <> cargo_name h2.
Proof.
  unfold ship_name, cargo_name. cbv [String.app].
  intros H. inversion H.
Qed.

Lemma temp_dir_fresh (w : World) : fs w !! temp_dir_of w = None.
Proof. unfold temp_dir_of. apply not_elem_of_dom, is_fresh. Qed.

Lemma appends_to_lift {A} p (r : res A) : appends_to p (lift r).
Proof.
  intros f e c Hd Hn. exists r, c. unfold lift.
  rewrite (insert_id e), (insert_id f); auto.
Qed.

Lemma appends_to_ret {A} p (a : A) : appends_to p (ret a).
Proof. apply (appends_to_lift p (Ret a)). Qed.

Lemma appends_to_write p text : appends_to p (Fs.write p text).
Proof.
  intros f e c Hd Hn. unfold Fs.write. rewrite Hd, Hn. eauto.
Qed.

Lemma appends_to_bind {A B} p (m : M FS A) (k : A -> M FS B) :
  appends_to p m -> (forall a, appends_to p (k a)) -> appends_to p (bind m k).
Proof.
  intros Hm Hk f e c Hd Hn.
  destruct (Hm f e c Hd Hn) as (r & c1 & E1).
  unfold bind. rewrite E1. destruct r as [a|x].
  - destruct (Hk a (<[p.1 := <[p.2 := c1]> e]> f) (<[p.2 := c1]> e) c1)
      as (r2 & c2 & E2).
    + apply lookup_insert_eq.
    + apply lookup_insert_eq.
    + exists r2, c2. rewrite E2. by rewrite !insert_insert_eq.
  - eauto.
Qed.

Lemma appends_to_for_each {A} p (xs : list A) (body : A -> M FS unit) :
  (forall x, appends_to p (body x)) -> appends_to p (for_each xs body).
Proof.
  intros Hb. induction xs as [|x xs IH]; simpl.
  - apply appends_to_ret.
  - apply appends_to_bind; auto.
Qed.

Create HintDb fsdb.
#[local] Hint Resolve appends_to_lift appends_to_ret appends_to_write : fsdb.

Ltac appends := repeat (apply appends_to_bind; [|intros]); auto with fsdb.

(** Opening a file in an existing directory and then only writing to it
    leaves the directory with that file, whatever the outcome. *)
Lemma open_then_append {A} (p : path) (m : M FS A) (f : FS) e :
  appends_to p m -> f !! p.1 = Some e ->
  exists r c, (Fs.open_w p ;;; m) f = (r, <[p.1 := <[p.2 := c]> e]> f).
Proof.
  intros Hm Hd. unfold bind, Fs.open_w. rewrite Hd.
  destruct (Hm (<[p.1 := <[p.2 := ""]> e]> f) (<[p.2 := ""]> e) "")
    as (r & c & E).
  - apply lookup_insert_eq.
  - apply lookup_insert_eq.
  - exists r, c. rewrite E. by rewrite !insert_insert_eq.
Qed.

Section HelperFacts.
Context {ext : Externals}.

Lemma write_ship_config_creates ship_data (p : path) (f : FS) e :
  f !! p.1 = Some e ->
  exists r c, write_ship_config ship_data p f = (r, <[p.1 := <[p.2 := c]> e]> f).
Proof.
  intros Hd. unfold write_ship_config.
  apply open_then_append; [|done]. appends.
Qed.

Lemma write_cargo_manifest_creates cargo_list (p : path) (f : FS) e :
  f !! p.1 = Some e ->
  exists r c, write_cargo_manifest cargo_list p f = (r, <[p.1 := <[p.2 := c]> e]> f).
Proof.
  intros Hd. unfold write_cargo_manifest.
  apply open_then_append; [|done]. appends.
  apply appends_to_for_each. intros x. unfold write_cargo_line. appends.
Qed.

(** The [finally] block when both artifacts exist: files and directory go. *)
Lemma cleanup_both (w : World) (f0 : FS) d sn cn c1 c2 :
  sn <> cn -> f0 !! d = None ->
  fs w = <[d := <[cn := c2]> (<[sn := c1]> ∅)]> f0 ->
  cleanup (d, sn) (d, cn) d w = (Ret tt, set_fs f0 w).
Proof.
  intros Hne Hd Hfs.
  unfold cleanup, try_except, in_fs, bind, Fs.remove, Fs.rmdir. simpl.
  rewrite Hfs. rewrite lookup_insert_eq.
  rewrite lookup_insert_ne by congruence. rewrite lookup_insert_eq.
  rewrite lookup_insert_eq.
  rewrite delete_insert_ne by congruence. rewrite delete_insert_eq, delete_empty.
  rewrite lookup_insert_eq.
  rewrite insert_insert_eq, lookup_insert_eq.
  rewrite delete_insert_eq, delete_empty.
  rewrite decide_True by done.
  rewrite !insert_insert_eq, delete_insert_id by done.
  reflexivity.
Qed.

(** The [finally] block when the cargo manifest was never opened: the
    second removal raises, the bare [except] swallows it, and the
    directory stays. *)
Lemma cleanup_ship_only (w : World) (f0 : FS) d sn cn c1 :
  sn <> cn ->
  fs w = <[d := <[sn := c1]> ∅]> f0 ->
  cleanup (d, sn) (d, cn) d w = (Ret tt, set_fs (<[d := ∅]> f0) w).
Proof.
  intros Hne Hfs.
  unfold cleanup, try_except, in_fs, bind, Fs.remove, Fs.rmdir. simpl.
  rewrite Hfs. rewrite !lookup_insert_eq.
  rewrite delete_insert_eq, delete_empty, lookup_empty.
  unfold ret. by rewrite insert_insert_eq.
Qed.

End HelperFacts.

(** ** What a dispatch does, step by step *)


Lemma bind_eq {S A B} (m : M S A) (k : A -> M S B) (s : S) :
  bind m k s = match m s with
               | (Ret a, s') => k a s'
               | (Raise e, s') => (Raise e, s')
               end.
Proof. reflexivity. Qed.

Lemma try_finally_eq {S A} (body : M S A) (fin : M S unit) (s : S) :
  try_finally body fin s =
    match body s with
    | (r, s1) => match fin s1 with
                 | (Ret _, s2) => (r, s2)
                 | (Raise e, s2) => (Raise e, s2)
                 end
    end.
Proof. reflexivity. Qed.

Lemma in_fs_eq {A} (m : M FS A) (w : World) :
  in_fs m w = match m (fs w) with (r, f) => (r, set_fs f w) end.
Proof. reflexivity. Qed.

Lemma in_fs_mkdtemp (w : World) :
  in_fs Fs.mkdtemp w = (Ret (temp_dir_of w), set_fs (<[temp_dir_of w := ∅]> (fs w)) w).
Proof. reflexivity. Qed.

Lemma uuid4_hex8_eq (w : World) :
  uuid4_hex8 w = (Ret (uuids w (uuid_next w)),
                  mkWorld (fs w) (users w) (logs w) (console w) (started w)
                          (uuids w) (S (uuid_next w))).
Proof. reflexivity. Qed.

Ltac world := unfold set_fs, set_users; cbn [fs users logs console started uuids uuid_next].
Section Dispatch.
Context {ext : Externals}.

Lemma subprocess_run_eq sf cf t (w : World) :
  subprocess_run sf cf t w =
    let p := solver (Fs.read sf (fs w)) (Fs.read cf (fs w)) in
    (if Qle_bool (duration p) t then Ret p else Raise TimeoutExpired,
     mkWorld (fs w) (users w) (logs w) (console w) (p :: started w)
             (uuids w) (uuid_next w)).
Proof. unfold subprocess_run. cbv zeta. by destruct (Qle_bool _ _). Qed.


Lemma run_optimization_steps ship cargo (w : World) :
  AppProd.run_optimization ship cargo w =
    let f1 := <[temp_dir_of w := ∅]> (fs w) in
    match write_ship_config ship (ship_file_of w) f1 with
    | (Raise e, _) => (Raise e, after_dispatch f1 (started w) w)
    | (Ret _, f2) =>
        match write_cargo_manifest cargo (cargo_file_of w) f2 with
        | (Raise e, _) => (Raise e, after_dispatch (fs w) (started w) w)
        | (Ret _, f3) =>
            (run_verdict (proc_of f3 w),
             after_dispatch (fs w) (proc_of f3 w :: started w) w)
        end
    end.
Proof.
  pose proof (temp_dir_fresh w) as Hfresh.
  pose proof (ship_cargo_names_differ (uuids w (uuid_next w))
                (uuids w (S (uuid_next w)))) as Hne.
  unfold AppProd.run_optimization, ship_file_of, cargo_file_of.
  cbv zeta.
  rewrite bind_eq, in_fs_mkdtemp.
  rewrite bind_eq, uuid4_hex8_eq. world.
  rewrite bind_eq, uuid4_hex8_eq. world.
  fold (ship_name (uuids w (uuid_next w))).
  fold (cargo_name (uuids w (S (uuid_next w)))).
  set (d := temp_dir_of w) in *.
  set (sn := ship_name _) in *. set (cn := cargo_name _) in *.
  destruct (write_ship_config_creates ship (d, sn) (<[d := ∅]> (fs w)) ∅)
    as (r1 & c1 & E1); [apply lookup_insert_eq|].
  cbn [fst snd] in E1. rewrite insert_insert_eq in E1.
  rewrite try_finally_eq, bind_eq, in_fs_eq. world. rewrite E1.
  destruct r1 as [[]|e1].
  - destruct (write_cargo_manifest_creates cargo (d, cn)
                (<[d := <[sn := c1]> ∅]> (fs w)) (<[sn := c1]> ∅))
      as (r2 & c2 & E2); [apply lookup_insert_eq|].
    cbn [fst snd] in E2. rewrite insert_insert_eq in E2.
    rewrite bind_eq, in_fs_eq. world. rewrite E2.
    destruct r2 as [[]|e2].
    + rewrite bind_eq, subprocess_run_eq. world. cbv zeta.
      unfold proc_of, ship_file_of, cargo_file_of, run_verdict.
      fold d. fold sn. fold cn.
      set (p := solver _ _).
      destruct (Qle_bool (duration p) 30);
        [destruct (negb (returncode p =? 0));
         [|destruct (Str.find "{" (stdout p) =? -1);
           [|rewrite bind_eq; unfold lift at 1; fold (execution_info p);
             destruct (loads _) as [v|e3];
             [rewrite bind_eq; unfold lift at 1;
              destruct (setitem v _ _) as [v'|e4]|]]]|];
        unfold ret;
        (erewrite (cleanup_both _ (fs w) d sn cn c1 c2); [reflexivity|done..]).
    + erewrite (cleanup_both _ (fs w) d sn cn c1 c2); [reflexivity|done..].
  - erewrite (cleanup_ship_only _ (fs w) d sn cn c1); [reflexivity|done..].
Qed.
End Dispatch.

Section DispatchRoutes.
Context {ext : Externals}.

Lemma try_except_eq {S A} (body : M S A) (handler : exn -> M S A) (s : S) :
  try_except body handler s =
    match body s with
    | (Ret a, s1) => (Ret a, s1)
    | (Raise e, s1) => handler e s1
    end.
Proof. reflexivity. Qed.

(** The [finally] block when no artifact was opened: the first removal
    raises, and the directory stays. *)
Lemma cleanup_nothing (w : World) (f0 : FS) d sn cn :
  fs w = <[d := ∅]> f0 ->
  cleanup (d, sn) (d, cn) d w = (Ret tt, w).
Proof.
  intros Hfs.
  unfold cleanup, try_except, in_fs, bind, Fs.remove. simpl.
  rewrite Hfs, lookup_insert_eq, lookup_empty. unfold ret, set_fs.
  rewrite <- Hfs. by destruct w.
Qed.

Lemma app_optimize_steps data (w : World) :
  App.optimize data w =
    match missing_ship_or_cargo data with
    | Raise e => (Ret (app_handler e), w)
    | Ret true => (Ret (jsonify (error_body "Missing ship or cargo data") 400), w)
    | Ret false =>
        let f1 := <[temp_dir_of w := ∅]> (fs w) in
        match Py.getitem data "ship" with
        | Raise e => (Ret (app_handler e), after_dispatch f1 (started w) w)
        | Ret ship =>
            match write_ship_config ship (ship_file_of w) f1 with
            | (Raise e, _) => (Ret (app_handler e), after_dispatch f1 (started w) w)
            | (Ret _, f2) =>
                match Py.getitem data "cargo" with
                | Raise e => (Ret (app_handler e), after_dispatch f1 (started w) w)
                | Ret cargo =>
                    match write_cargo_manifest cargo (cargo_file_of w) f2 with
                    | (Raise e, _) =>
                        (Ret (app_handler e), after_dispatch (fs w) (started w) w)
                    | (Ret _, f3) =>
                        (Ret (app_verdict (proc_of f3 w)),
                         after_dispatch (fs w) (proc_of f3 w :: started w) w)
                    end
                end
            end
        end
    end.
Proof.
  pose proof (temp_dir_fresh w) as Hfresh.
  pose proof (ship_cargo_names_differ (uuids w (uuid_next w))
                (uuids w (S (uuid_next w)))) as Hne.
  unfold App.optimize, ship_file_of, cargo_file_of.
  match goal with
  | |- try_except _ ?h _ = _ =>
      set (handler := h);
      assert (Hh : forall e s, handler e s = (Ret (app_handler e), s))
        by (intros e s; unfold handler, app_handler; destruct e; reflexivity)
  end.
  clearbody handler. cbv zeta.
  rewrite try_except_eq, bind_eq. unfold lift at 1.
  destruct (missing_ship_or_cargo data) as [[|]|e0]; [reflexivity| |apply Hh].
  rewrite bind_eq, in_fs_mkdtemp.
  rewrite bind_eq, uuid4_hex8_eq. world.
  rewrite bind_eq, uuid4_hex8_eq. world.
  fold (ship_name (uuids w (uuid_next w))).
  fold (cargo_name (uuids w (S (uuid_next w)))).
  set (d := temp_dir_of w) in *.
  set (sn := ship_name _) in *. set (cn := cargo_name _) in *.
  rewrite try_finally_eq, bind_eq. unfold lift at 1.
  destruct (Py.getitem data "ship") as [ship|e].
  2:{ erewrite (cleanup_nothing _ (fs w) d sn cn); [cbv beta iota zeta; rewrite ?Hh; reflexivity|done]. }
  destruct (write_ship_config_creates ship (d, sn) (<[d := ∅]> (fs w)) ∅)
    as (r1 & c1 & E1); [apply lookup_insert_eq|].
  cbn [fst snd] in E1. rewrite insert_insert_eq in E1.
  rewrite bind_eq, in_fs_eq. world. rewrite E1.
  destruct r1 as [[]|e1].
  2:{ erewrite (cleanup_ship_only _ (fs w) d sn cn c1); [cbv beta iota zeta; rewrite ?Hh; reflexivity|done..]. }
  rewrite bind_eq. unfold lift at 1.
  destruct (Py.getitem data "cargo") as [cargo|e].
  2:{ erewrite (cleanup_ship_only _ (fs w) d sn cn c1); [cbv beta iota zeta; rewrite ?Hh; reflexivity|done..]. }
  destruct (write_cargo_manifest_creates cargo (d, cn)
              (<[d := <[sn := c1]> ∅]> (fs w)) (<[sn := c1]> ∅))
    as (r2 & c2 & E2); [apply lookup_insert_eq|].
  cbn [fst snd] in E2. rewrite insert_insert_eq in E2.
  rewrite bind_eq, in_fs_eq. world. rewrite E2.
  destruct r2 as [[]|e2].
  2:{ erewrite (cleanup_both _ (fs w) d sn cn c1 c2); [cbv beta iota zeta; rewrite ?Hh; reflexivity|done..]. }
  rewrite bind_eq, subprocess_run_eq. world. cbv zeta.
  unfold proc_of, ship_file_of, cargo_file_of, app_verdict.
  fold d. fold sn. fold cn.
  set (p := solver _ _).
  destruct (Qle_bool (duration p) 30);
    [destruct (negb (returncode p =? 0));
     [|destruct (Str.find "{" (stdout p) =? -1);
       [|rewrite bind_eq; unfold lift at 1; fold (app_execution_info p);
         destruct (loads _) as [v|e3];
         [rewrite bind_eq; unfold lift at 1;
          destruct (setitem v _ _) as [v'|e4]|]]]|];
    unfold ret;
    (erewrite (cleanup_both _ (fs w) d sn cn c1 c2); [cbv beta iota zeta; rewrite ?Hh; reflexivity|done..]).
Qed.

Lemma prod_optimize_steps (req : AppProd.Request) (w : World) :
  AppProd.optimize req w =
    let data := AppProd.json_body req in
    match missing_ship_or_cargo data with
    | Raise e => (Ret (prod_handler e), w)
    | Ret true => (Ret (jsonify (error_body "Missing ship or cargo data") 400), w)
    | Ret false =>
        match Py.getitem data "ship" with
        | Raise e => (Ret (prod_handler e), w)
        | Ret ship =>
            match Py.getitem data "cargo" with
            | Raise e => (Ret (prod_handler e), w)
            | Ret cargo =>
                match AppProd.run_optimization ship cargo w with
                | (Raise e, w') => (Ret (prod_handler e), w')
                | (Ret (result, exec_time, error), w') =>
                    let out := prod_after_run req cargo result exec_time error in
                    (Ret (fst out), add_log (snd out) w')
                end
            end
        end
    end.
Proof.
  unfold AppProd.optimize. fold prod_handler. cbv zeta.
  rewrite try_except_eq, bind_eq. unfold lift at 1.
  destruct (missing_ship_or_cargo _) as [[|]|e0]; [reflexivity| |reflexivity].
  rewrite bind_eq. unfold lift at 1.
  destruct (Py.getitem _ "ship") as [ship|e]; [|reflexivity].
  rewrite bind_eq. unfold lift at 1.
  destruct (Py.getitem _ "cargo") as [cargo|e] eqn:Ecargo; [|reflexivity].
  rewrite bind_eq.
  destruct (AppProd.run_optimization ship cargo w) as [[[[result t] error]|e] w'];
    [|reflexivity].
  unfold prod_after_run.
  destruct (AppProd.truthy_error error); [reflexivity|].
  rewrite bind_eq.
  destruct (AppProd.current_user req) as [uid|]; [|reflexivity].
  rewrite bind_eq. unfold lift at 1.
  rewrite bind_eq. unfold lift at 1.
  destruct (Py.len cargo) as [n|e]; [|reflexivity].
  rewrite bind_eq. unfold lift at 1.
  destruct (Py.getitem result "analysis") as [analysis|e]; [|reflexivity].
  rewrite bind_eq. unfold lift at 1.
  destruct (Py.getitem analysis "placed_count") as [placed|e]; [|reflexivity].
  reflexivity.
Qed.

End DispatchRoutes.

(** ** The entitlement ledger *)

(** C9: the daily limit is 10 for tier free, 1000 for pro, 10000 for
    enterprise, and for every tier string outside these three it is the
    free limit 10. *)
Theorem daily_limit_by_tier (u : User.t) :
  (User.subscription_tier u = "free" -> User.daily_limit u = 10) /\
  (User.subscription_tier u = "pro" -> User.daily_limit u = 1000) /\
  (User.subscription_tier u = "enterprise" -> User.daily_limit u = 10000) /\
  (User.subscription_tier u <> "free" -> User.subscription_tier u <> "pro" ->
   User.subscription_tier u <> "enterprise" -> User.daily_limit u = 10).
Proof.
  unfold User.daily_limit, User.limits.
  repeat split.
  - intros ->. reflexivity.
  - intros ->. reflexivity.
  - intros ->. reflexivity.
  - intros Hf Hp He.
    rewrite !lookup_insert_ne by congruence.
    rewrite lookup_empty. reflexivity.
Qed.

Lemma daily_limit_by_tier_witness :
  User.daily_limit (Fixture.with_tier "free") = 10 /\
  User.daily_limit (Fixture.with_tier "pro") = 1000 /\
  User.daily_limit (Fixture.with_tier "enterprise") = 10000 /\
  User.daily_limit Fixture.gold = 10.
Proof.
  split; [|split; [|split]].
  - apply (proj1 (daily_limit_by_tier (Fixture.with_tier "free"))).
    reflexivity.
  - apply (proj1 (proj2 (daily_limit_by_tier (Fixture.with_tier "pro")))).
    reflexivity.
  - apply (proj1 (proj2 (proj2 (daily_limit_by_tier (Fixture.with_tier "enterprise"))))).
    reflexivity.
  - apply (proj2 (proj2 (proj2 (daily_limit_by_tier Fixture.gold))));
      simpl; congruence.
Defined.

(** The guard, where it is applied, turns a principal at the limit away
    before the wrapped route runs. *)
Lemma api_key_required_at_limit (f : AppProd.Request -> M World Response)
  (req : AppProd.Request) (w : World) key user :
  AppProd.x_api_key req = Some key ->
  Str.is_empty key = false ->
  List.find (fun u => bool_decide (User.api_key u = Some key)) (users w) = Some user ->
  User.daily_limit user <= AppProd.today_count user req w ->
  AppProd.api_key_required f req w =
    (Ret (jsonify (JObj [("error", JStr "Daily limit exceeded");
                         ("limit", JNum (inject_Z (User.daily_limit user)))]) 429),
     w).
Proof.
  intros Hkey Hne Hfind Hle.
  unfold AppProd.api_key_required. rewrite Hkey, Hne, Hfind.
  apply Z.leb_le in Hle. by rewrite Hle.
Qed.

(** C1, on the code: [optimize] is registered without the guard. Alice,
    on the free tier with ten runs logged today, runs an eleventh: the
    solver is started, an eleventh row is written and the answer is 200. *)
Theorem optimize_exceeds_daily_limit :
  let req := Fixture.logged_in Fixture.good_body in
  let w := Fixture.busy_world in
  User.daily_limit Fixture.alice = 10 /\
  AppProd.today_count Fixture.alice req w = 10 /\
  exists resp w',
    @AppProd.optimize (Fixture.externals Fixture.fast) req w = (Ret resp, w') /\
    status resp = 200 /\
    started w' = [Fixture.fast] /\
    length (logs w') = 11%nat.
Proof.
  cbv zeta. split; [reflexivity|]. split; [reflexivity|].
  eexists _, _. split; [vm_compute; reflexivity|].
  repeat split.
Qed.

(** ** The subscription state machine *)

Section Rows.
Variables (p : User.t -> bool) (f : User.t -> User.t).

Lemma update_first_none (us : list User.t) :
  List.find p us = None -> WebhookHandler.update_first p f us = us.
Proof.
  induction us as [|u us IH]; simpl; [done|].
  destruct (p u); [done|]. intros H. by rewrite IH.
Qed.

Lemma length_update_first (us : list User.t) :
  length (WebhookHandler.update_first p f us) = length us.
Proof.
  induction us as [|u us IH]; simpl; [done|].
  destruct (p u); simpl; by rewrite ?IH.
Qed.

(** The one row that changes is the row the query returns. *)
Lemma update_first_touches (us : list User.t) (i : nat) (u u' : User.t) :
  us !! i = Some u ->
  WebhookHandler.update_first p f us !! i = Some u' ->
  u <> u' ->
  List.find p us = Some u /\ u' = f u.
Proof.
  revert i. induction us as [|v us IH]; intros i Hi Hi' Hne; [done|].
  simpl in *. destruct (p v) eqn:Hp.
  - destruct i as [|i]; simpl in *.
    + split; congruence.
    + congruence.
  - destruct i as [|i]; simpl in *.
    + congruence.
    + eauto.
Qed.

Hypothesis keeps : forall u, p (f u) = p u.


Lemma update_first_twice (us : list User.t) :
  (forall u, f (f u) = f u) ->
  WebhookHandler.update_first p f (WebhookHandler.update_first p f us)
  = WebhookHandler.update_first p f us.
Proof.
  intros Hff. induction us as [|u us IH]; simpl; [done|].
  destruct (p u) eqn:Hp; simpl.
  - by rewrite keeps, Hp, Hff.
  - by rewrite Hp, IH.
Qed.

End Rows.

(** Each handler, as one update of the table and one line on the console. *)
Lemma users_after_checkout session (w : World) :
  users (WebhookHandler.handle_checkout_completed session w).2 =
  WebhookHandler.update_first (WebhookHandler.by_email (o_customer_email session))
    (checkout_writes session) (users w).
Proof.
  unfold WebhookHandler.handle_checkout_completed. cbv zeta.
  destruct (List.find _ (users w)) eqn:E; [reflexivity|].
  simpl. by rewrite update_first_none.
Qed.

Lemma users_after_invoice_paid invoice (w : World) :
  users (WebhookHandler.handle_invoice_paid invoice w).2 =
  WebhookHandler.update_first (WebhookHandler.by_customer (o_customer invoice))
    (invoice_paid_writes invoice) (users w).
Proof.
  unfold WebhookHandler.handle_invoice_paid. cbv zeta.
  destruct (List.find _ (users w)) eqn:E; [reflexivity|].
  simpl. by rewrite update_first_none.
Qed.

Lemma users_after_invoice_failed invoice (w : World) :
  users (WebhookHandler.handle_invoice_failed invoice w).2 =
  WebhookHandler.update_first (WebhookHandler.by_customer (o_customer invoice))
    invoice_failed_writes (users w).
Proof.
  unfold WebhookHandler.handle_invoice_failed. cbv zeta.
  destruct (List.find _ (users w)) eqn:E; [reflexivity|].
  simpl. by rewrite update_first_none.
Qed.

Lemma users_after_subscription_updated subscription (w : World) :
  users (WebhookHandler.handle_subscription_updated subscription w).2 =
  WebhookHandler.update_first (WebhookHandler.by_customer (o_customer subscription))
    (subscription_updated_writes subscription) (users w).
Proof.
  unfold WebhookHandler.handle_subscription_updated. cbv zeta.
  destruct (List.find _ (users w)) eqn:E; [reflexivity|].
  simpl. by rewrite update_first_none.
Qed.

Lemma users_after_subscription_deleted subscription (w : World) :
  users (WebhookHandler.handle_subscription_deleted subscription w).2 =
  WebhookHandler.update_first (WebhookHandler.by_customer (o_customer subscription))
    subscription_deleted_writes (users w).
Proof.
  unfold WebhookHandler.handle_subscription_deleted. cbv zeta.
  destruct (List.find _ (users w)) eqn:E; [reflexivity|].
  simpl. by rewrite update_first_none.
Qed.

(** C6: applying the checkout-completed handler twice with the same event
    leaves every principal (tier, status, customer and subscription
    reference) exactly as applying it once does. *)
Theorem checkout_completed_idempotent (session : StripeObject) (w : World) :
  let once := (WebhookHandler.handle_checkout_completed session w).2 in
  let twice := (WebhookHandler.handle_checkout_completed session once).2 in
  users twice = users once.
Proof.
  cbv zeta. rewrite !users_after_checkout.
  apply update_first_twice; reflexivity.
Qed.



(** A handler that finds nobody leaves the table alone and reports it. *)
Lemma customer_keyed_unknown (h : StripeObject -> M World unit) ev (w : World) :
  In h customer_keyed ->
  List.find (WebhookHandler.by_customer (o_customer ev)) (users w) = None ->
  h ev w = print (unknown_customer_warning ev) w.
Proof.
  intros Hh Hnone. simpl in Hh.
  destruct Hh as [<-|[<-|[<-|[<-|[]]]]].
  - unfold WebhookHandler.handle_invoice_paid. cbv zeta. by rewrite Hnone.
  - unfold WebhookHandler.handle_invoice_failed. cbv zeta. by rewrite Hnone.
  - unfold WebhookHandler.handle_subscription_updated. cbv zeta. by rewrite Hnone.
  - unfold WebhookHandler.handle_subscription_deleted. cbv zeta. by rewrite Hnone.
Qed.

Lemma customer_keyed_users (h : StripeObject -> M World unit) ev (w : World) :
  In h customer_keyed ->
  exists f, users (h ev w).2 =
            WebhookHandler.update_first
              (WebhookHandler.by_customer (o_customer ev)) f (users w).
Proof.
  intros Hh. simpl in Hh.
  destruct Hh as [<-|[<-|[<-|[<-|[]]]]]; eexists.
  - apply users_after_invoice_paid.
  - apply users_after_invoice_failed.
  - apply users_after_subscription_updated.
  - apply users_after_subscription_deleted.
Qed.

(** C8, as stated, fails for the checkout handler: the event's customer
    reference [cus_1] matches no stored principal, and yet Alice's row
    changes, because the handler found her by email. *)
Lemma checkout_reaches_unknown_customer :
  List.find (WebhookHandler.by_customer (o_customer BillingFixture.checkout))
    (users BillingFixture.world) = None /\
  users (WebhookHandler.handle_checkout_completed BillingFixture.checkout
           BillingFixture.world).2 <> users BillingFixture.world.
Proof. split; [reflexivity|]. vm_compute. discriminate. Qed.

(** C8, amended: the invoice and subscription handlers touch only the
    first principal holding the event's customer reference, whatever its
    id; the checkout handler touches only the principal whose email the
    event carries; and a handler whose lookup finds nobody changes no
    principal and prints a warning. *)
Theorem billing_lookup_key (ev : StripeObject) (w : World) :
  (forall h, In h customer_keyed ->
     let w' := (h ev w).2 in
     length (users w') = length (users w) /\
     (forall i u u', users w !! i = Some u -> users w' !! i = Some u' -> u <> u' ->
        User.stripe_customer_id u = o_customer ev /\
        List.find (WebhookHandler.by_customer (o_customer ev)) (users w) = Some u) /\
     (List.find (WebhookHandler.by_customer (o_customer ev)) (users w) = None ->
        h ev w = (Ret tt, w') /\
        users w' = users w /\
        console w' = (console w ++ [unknown_customer_warning ev])%list)) /\
  (let w' := (WebhookHandler.handle_checkout_completed ev w).2 in
   length (users w') = length (users w) /\
   (forall i u u', users w !! i = Some u -> users w' !! i = Some u' -> u <> u' ->
      Some (User.email u) = o_customer_email ev /\
      List.find (WebhookHandler.by_email (o_customer_email ev)) (users w) = Some u) /\
   (List.find (WebhookHandler.by_email (o_customer_email ev)) (users w) = None ->
      WebhookHandler.handle_checkout_completed ev w = (Ret tt, w') /\
      users w' = users w /\
      console w' = (console w ++ [unknown_email_warning ev])%list)).
Proof.
  split.
  - intros h Hh. cbv zeta.
    destruct (customer_keyed_users h ev w Hh) as [f Hf].
    split; [|split].
    + rewrite Hf. apply length_update_first.
    + intros i u u' Hi Hi' Hne. rewrite Hf in Hi'.
      destruct (update_first_touches _ _ _ _ _ _ Hi Hi' Hne) as [Hfind _].
      split; [|done].
      apply find_some in Hfind as [_ Hp].
      unfold WebhookHandler.by_customer in Hp. by apply bool_decide_eq_true in Hp.
    + intros Hnone. rewrite (customer_keyed_unknown h ev w Hh Hnone).
      repeat split.
  - cbv zeta. split; [|split].
    + rewrite users_after_checkout. apply length_update_first.
    + intros i u u' Hi Hi' Hne. rewrite users_after_checkout in Hi'.
      destruct (update_first_touches _ _ _ _ _ _ Hi Hi' Hne) as [Hfind _].
      split; [|done].
      apply find_some in Hfind as [_ Hp].
      unfold WebhookHandler.by_email in Hp. by apply bool_decide_eq_true in Hp.
    + intros Hnone. unfold WebhookHandler.handle_checkout_completed. cbv zeta.
      rewrite Hnone. repeat split.
Qed.

Lemma billing_lookup_key_witness :
  WebhookHandler.handle_invoice_paid BillingFixture.stray_invoice BillingFixture.world
  = (Ret tt,
     (WebhookHandler.handle_invoice_paid BillingFixture.stray_invoice
        BillingFixture.world).2) /\
  users (WebhookHandler.handle_invoice_paid BillingFixture.stray_invoice
           BillingFixture.world).2 = users BillingFixture.world /\
  console (WebhookHandler.handle_invoice_paid BillingFixture.stray_invoice
             BillingFixture.world).2
  = [unknown_customer_warning BillingFixture.stray_invoice].
Proof.
  apply (proj1 (billing_lookup_key BillingFixture.stray_invoice BillingFixture.world)
           WebhookHandler.handle_invoice_paid).
  - simpl. auto.
  - reflexivity.
Defined.

(** The webhook route answers 200 for an event that matches nobody, and no
    principal changes. *)
Lemma stripe_webhook_unknown_customer {ext : Externals} payload signature ev
  (w : World) :
  construct_event payload signature = Some ev ->
  List.find (WebhookHandler.by_customer (o_customer (ev_object ev))) (users w) = None ->
  List.find (WebhookHandler.by_email (o_customer_email (ev_object ev))) (users w) = None ->
  exists w', AppProd.stripe_webhook payload signature w
             = (Ret (jsonify (JObj [("success", JBool true)]) 200), w') /\
             users w' = users w.
Proof.
  intros Hev Hc He. unfold AppProd.stripe_webhook.
  rewrite try_except_eq, bind_eq. unfold lift at 1. rewrite Hev. cbv zeta.
  rewrite bind_eq.
  destruct (String.eqb _ "checkout.session.completed").
  { unfold WebhookHandler.handle_checkout_completed. cbv zeta. rewrite He.
    eexists. split; reflexivity. }
  destruct (String.eqb _ "invoice.payment_succeeded").
  { unfold WebhookHandler.handle_invoice_paid. cbv zeta. rewrite Hc.
    eexists. split; reflexivity. }
  destruct (String.eqb _ "invoice.payment_failed").
  { unfold WebhookHandler.handle_invoice_failed. cbv zeta. rewrite Hc.
    eexists. split; reflexivity. }
  destruct (String.eqb _ "customer.subscription.updated").
  { unfold WebhookHandler.handle_subscription_updated. cbv zeta. rewrite Hc.
    eexists. split; reflexivity. }
  destruct (String.eqb _ "customer.subscription.deleted").
  { unfold WebhookHandler.handle_subscription_deleted. cbv zeta. rewrite Hc.
    eexists. split; reflexivity. }
  eexists. split; reflexivity.
Qed.

(** ** Locating the payload in the solver's output *)

Lemma find_from_bounds c s i :
  0 <= i -> Str.find_from c s i = -1 \/ i <= Str.find_from c s i.
Proof.
  revert i. induction s as [|a s IH]; intros i Hi; simpl; [by left|].
  destruct (Ascii.eqb a c); [right; lia|].
  destruct (IH (i + 1)) as [H|H]; [lia|by left|right; lia].
Qed.

Lemma find_from_none c s i :
  0 <= i -> Str.find_from c s i = -1 <-> Str.occurs c s = false.
Proof.
  revert i. induction s as [|a s IH]; intros i Hi; simpl; [done|].
  destruct (Ascii.eqb a c); simpl.
  - split; [lia|done].
  - apply IH. lia.
Qed.

(** [find] answers -1 exactly when the character occurs nowhere. *)
Lemma find_none c s : Str.find c s = -1 <-> Str.occurs c s = false.
Proof. apply find_from_none. lia. Qed.

Lemma app_empty (s : string) : EmptyString +:+ s = s.
Proof. reflexivity. Qed.

Lemma app_String a (s1 s2 : string) : String a s1 +:+ s2 = String a (s1 +:+ s2).
Proof. reflexivity. Qed.

Lemma find_from_split c pre post i :
  Str.occurs c pre = false ->
  Str.find_from c (pre +:+ String c post) i = i + Z.of_nat (String.length pre).
Proof.
  revert i. induction pre as [|a pre IH]; intros i Hocc.
  - rewrite app_empty. cbn. rewrite Ascii.eqb_refl. lia.
  - rewrite app_String. cbn [Str.find_from String.length].
    cbn in Hocc. apply orb_false_elim in Hocc as [Ha Hpre].
    rewrite Ha, IH by done. lia.
Qed.

Lemma drop_length_app pre s : Str.drop (String.length pre) (pre +:+ s) = s.
Proof.
  induction pre as [|a pre IH].
  - rewrite app_empty. by destruct s.
  - rewrite app_String. cbn. done.
Qed.

(** When the output is [pre], then the first ['{'], then [post], the payload
    handed to the parser is ['{'] followed by [post]. *)
Lemma payload_at_first_brace c pre post :
  Str.occurs c pre = false ->
  Str.find c (pre +:+ String c post) <> -1 /\
  Str.slice_from (Str.find c (pre +:+ String c post)) (pre +:+ String c post)
  = String c post.
Proof.
  intros Hocc. unfold Str.find, Str.slice_from.
  rewrite find_from_split by done. split; [lia|].
  rewrite Z.add_0_l, Nat2Z.id. apply drop_length_app.
Qed.




(** ** Outcomes of a dispatch *)

Lemma cons_neq_self {A} (x : A) (l : list A) : x :: l <> l.
Proof. intros H. apply (f_equal length) in H. simpl in H. lia. Qed.

Section Outcomes.
Context {ext : Externals}.

(** [run_optimization] either stops before the solver, or starts exactly
    one process and returns what [run_verdict] makes of it, with the
    workspace gone; it never touches the tables. *)
Lemma run_optimization_inv ship cargo (w w' : World) r :
  AppProd.run_optimization ship cargo w = (r, w') ->
  users w' = users w /\ logs w' = logs w /\ console w' = console w /\
  ((started w' = started w /\ exists e, r = Raise e) \/
   (exists p, started w' = p :: started w /\ r = run_verdict p /\ fs w' = fs w)).
Proof.
  rewrite run_optimization_steps. cbv zeta.
  destruct (write_ship_config _ _ _) as [[[]|e1] f2].
  - destruct (write_cargo_manifest _ _ _) as [[[]|e2] f3].
    + intros [= <- <-]. repeat split. right. eauto.
    + intros [= <- <-]. repeat split. left. eauto.
  - intros [= <- <-]. repeat split. left. eauto.
Qed.

Lemma app_optimize_inv data (w w' : World) r :
  App.optimize data w = (r, w') ->
  users w' = users w /\ logs w' = logs w /\ console w' = console w /\
  exists resp, r = Ret resp /\
    ((started w' = started w /\ status resp <> 200) \/
     (exists p, started w' = p :: started w /\ resp = app_verdict p /\
                fs w' = fs w)).
Proof.
  assert (Hh : forall e, status (app_handler e) <> 200)
    by (intros e; unfold app_handler; by repeat case_match).
  rewrite app_optimize_steps.
  destruct (missing_ship_or_cargo data) as [[|]|e0].
  - intros [= <- <-]. repeat split. eexists. split; [done|]. left. done.
  - cbv zeta. destruct (Py.getitem data "ship") as [ship|e].
    2:{ intros [= <- <-]. repeat split. eexists. split; [done|]. left. auto. }
    destruct (write_ship_config _ _ _) as [[[]|e1] f2].
    2:{ intros [= <- <-]. repeat split. eexists. split; [done|]. left. auto. }
    destruct (Py.getitem data "cargo") as [cargo|e].
    2:{ intros [= <- <-]. repeat split. eexists. split; [done|]. left. auto. }
    destruct (write_cargo_manifest _ _ _) as [[[]|e2] f3].
    2:{ intros [= <- <-]. repeat split. eexists. split; [done|]. left. auto. }
    intros [= <- <-]. repeat split. eexists. split; [done|]. right. eauto.
  - intros [= <- <-]. repeat split. eexists. split; [done|]. left. auto.
Qed.

(** [optimize] of [app_prod.py]: the only row it can append is the one for
    a run that [run_verdict] reports without error. *)
Lemma prod_optimize_inv (req : AppProd.Request) (w w' : World) r :
  AppProd.optimize req w = (r, w') ->
  users w' = users w /\ console w' = console w /\
  exists resp, r = Ret resp /\
    ((started w' = started w /\ logs w' = logs w /\ status resp <> 200) \/
     (exists p, started w' = p :: started w /\ fs w' = fs w /\
        match run_verdict p with
        | Raise e => resp = prod_handler e /\ logs w' = logs w
        | Ret (result, t, error) =>
            exists cargo row,
              (resp, row) = prod_after_run req cargo result t error /\
              logs w' = logs (add_log row w)
        end)).
Proof.
  rewrite prod_optimize_steps. cbv zeta.
  destruct (missing_ship_or_cargo _) as [[|]|e0].
  - intros [= <- <-]. repeat split. eexists. split; [done|]. left. done.
  - destruct (Py.getitem _ "ship") as [ship|e].
    2:{ intros [= <- <-]. repeat split. eexists. split; [done|]. left. done. }
    destruct (Py.getitem _ "cargo") as [cargo|e].
    2:{ intros [= <- <-]. repeat split. eexists. split; [done|]. left. done. }
    destruct (AppProd.run_optimization ship cargo w) as [r1 w1] eqn:Erun.
    destruct (run_optimization_inv _ _ _ _ _ Erun)
      as (Hu & Hl & Hc & [[Hs [e ->]]|(p & Hs & -> & Hfs)]).
    + intros [= <- <-]. repeat split; [done..|].
      eexists. split; [done|]. left. done.
    + destruct (run_verdict p) as [[[result t] error]|e] eqn:Ev.
      * intros [= <- <-].
        destruct (prod_after_run req cargo result t error) as [resp row] eqn:Ea.
        cbn [fst snd].
        repeat split; [by destruct row..|].
        eexists. split; [done|]. right. exists p.
        split; [by destruct row|]. split; [by destruct row|].
        rewrite Ev. exists cargo, row. split; [done|].
        destruct row; simpl; by rewrite Hl.
      * intros [= <- <-]. repeat split; [done..|].
        eexists. split; [done|]. right. exists p. rewrite Ev. done.
  - intros [= <- <-]. repeat split. eexists. split; [done|]. left. done.
Qed.

End Outcomes.

Section Classification.
Context {ext : Externals}.

Lemma run_verdict_cases (p : Proc) :
  Qle_bool (duration p) 30 = true ->
  let t := (duration p * 1000)%Q in
  (returncode p <> 0 -> run_verdict p = Ret (JNull, t, Some (stderr p))) /\
  (returncode p = 0 -> Str.occurs "{" (stdout p) = false ->
   run_verdict p = Ret (JNull, t, Some "No JSON output")) /\
  (forall pre post,
     returncode p = 0 -> stdout p = pre +:+ String "{" post ->
     Str.occurs "{" pre = false ->
     (json_loads (String "{" post) = None -> run_verdict p = Raise JSONDecodeError) /\
     (forall o, json_loads (String "{" post) = Some (JObj o) ->
        run_verdict p =
          Ret (JObj (Py.dict_set "execution" (execution_info p) o), t, None))).
Proof.
  intros Hd. cbv zeta. unfold run_verdict. rewrite Hd.
  split; [|split].
  - intros Hrc. apply Z.eqb_neq in Hrc. by rewrite Hrc.
  - intros Hrc Hocc. apply Z.eqb_eq in Hrc. rewrite Hrc. cbn [negb].
    apply find_none in Hocc. by rewrite Hocc.
  - intros pre post Hrc Hout Hocc. apply Z.eqb_eq in Hrc. rewrite Hrc. cbn [negb].
    destruct (payload_at_first_brace "{" pre post Hocc) as [Hfind Hslice].
    rewrite Hout. apply Z.eqb_neq in Hfind. rewrite Hfind, Hslice.
    unfold loads. split.
    + by intros ->.
    + by intros o ->.
Qed.



End Classification.


(** ** The workspace *)

Lemma workspace_gone_initially (w : World) : workspace_gone w (fs w).
Proof.
  pose proof (temp_dir_fresh w) as H.
  unfold workspace_gone, Fs.read, ship_file_of, cargo_file_of. cbn [fst snd].
  by rewrite H.
Qed.

(** Once the workspace is created both artifacts are on disk, however the
    writing of the manifest ends. *)
Lemma workspace_created_artifacts {ext : Externals} (ship cargo : json) (w : World) :
  workspace_created ship w ->
  exists f2 r f3,
    write_ship_config ship (ship_file_of w) (<[temp_dir_of w := ∅]> (fs w))
    = (Ret tt, f2) /\
    write_cargo_manifest cargo (cargo_file_of w) f2 = (r, f3) /\
    is_Some (Fs.read (ship_file_of w) f3) /\
    is_Some (Fs.read (cargo_file_of w) f3).
Proof.
  intros [f Hship].
  pose proof (ship_cargo_names_differ (uuids w (uuid_next w))
                (uuids w (S (uuid_next w)))) as Hne.
  destruct (write_ship_config_creates ship (ship_file_of w)
              (<[temp_dir_of w := ∅]> (fs w)) ∅) as (r1 & c1 & E1);
    [apply lookup_insert_eq|].
  rewrite Hship in E1. injection E1 as <- ->.
  destruct (write_cargo_manifest_creates cargo (cargo_file_of w)
              (<[(ship_file_of w).1 := <[(ship_file_of w).2 := c1]> ∅]>
                 (<[temp_dir_of w := ∅]> (fs w)))
              (<[(ship_file_of w).2 := c1]> ∅)) as (r2 & c2 & E2);
    [apply lookup_insert_eq|].
  eexists _, r2, _. split; [done|]. split; [exact E2|].
  unfold Fs.read, ship_file_of, cargo_file_of in *. cbn [fst snd] in *.
  rewrite !lookup_insert_eq.
  rewrite lookup_insert_ne by congruence. rewrite !lookup_insert_eq.
  split; eauto.
Qed.

(** C5: a dispatch that created its workspace leaves neither the directory
    nor either artifact behind, whatever the outcome (a parsed plan, a
    nonzero exit, malformed output, a raised exception, a timeout): the
    filesystem is as it was before the dispatch. This holds for
    [run_optimization] of [app_prod.py] and for [optimize] of [app.py]. *)
Theorem workspace_released {ext : Externals} (ship cargo data : json) (w : World) :
  (forall r w',
     AppProd.run_optimization ship cargo w = (r, w') ->
     workspace_created ship w ->
     fs w' = fs w /\ workspace_gone w (fs w')) /\
  (forall r w' ship' cargo',
     App.optimize data w = (r, w') ->
     Py.getitem data "ship" = Ret ship' ->
     Py.getitem data "cargo" = Ret cargo' ->
     workspace_created ship' w ->
     fs w' = fs w /\ workspace_gone w (fs w')).
Proof.
  split.
  - intros r w' Hrun [f Hship].
    rewrite run_optimization_steps in Hrun. cbv zeta in Hrun.
    rewrite Hship in Hrun.
    assert (fs w' = fs w) as ->; [|split; [done|apply workspace_gone_initially]].
    destruct (write_cargo_manifest _ _ _) as [[[]|e2] f3];
      by injection Hrun as <- <-.
  - intros r w' ship' cargo' Hrun Hs Hc [f Hship].
    rewrite app_optimize_steps in Hrun. cbv zeta in Hrun.
    rewrite Hs, Hc, Hship in Hrun.
    assert (fs w' = fs w) as ->; [|split; [done|apply workspace_gone_initially]].
    destruct (missing_ship_or_cargo data) as [[|]|e0];
      [by injection Hrun as <- <-| |by injection Hrun as <- <-].
    destruct (write_cargo_manifest _ _ _) as [[[]|e2] f3];
      by injection Hrun as <- <-.
Qed.

(** The solver is killed at the timeout; the workspace is gone all the
    same. *)
Lemma workspace_released_witness :
  let w' := (@AppProd.run_optimization (Fixture.externals Fixture.slow)
               Fixture.ship (JArr []) Fixture.empty_world).2 in
  fs w' = fs Fixture.empty_world /\ workspace_gone Fixture.empty_world (fs w').
Proof.
  cbv zeta.
  destruct (@AppProd.run_optimization (Fixture.externals Fixture.slow)
              Fixture.ship (JArr []) Fixture.empty_world) as [r w'] eqn:Erun.
  apply (proj1 (@workspace_released (Fixture.externals Fixture.slow)
                  Fixture.ship (JArr []) JNull Fixture.empty_world) r w' Erun).
  eexists. vm_compute. reflexivity.
Defined.

(** When the ship descriptor cannot be written, the second removal of the
    [finally] block raises before [rmdir] is reached: the empty directory
    stays. *)
Lemma workspace_left_without_ship_file :
  let w' := (@AppProd.run_optimization (Fixture.externals Fixture.fast)
               (JObj []) (JArr []) Fixture.empty_world).2 in
  fs w' !! temp_dir_of Fixture.empty_world = Some ∅.
Proof. vm_compute. reflexivity. Qed.

(** ** What dispatch validates *)


Section CargoLines.
Context {ext : Externals}.




End CargoLines.




(** ** Timeouts *)

Lemma exceeds_timeout (p : Proc) :
  (30 < duration p)%Q -> Qle_bool (duration p) 30 = false.
Proof.
  intros Hlt. destruct (Qle_bool (duration p) 30) eqn:E; [|done].
  apply Qle_bool_iff in E. by apply Qlt_not_le in Hlt.
Qed.

(** C3, as stated, fails: on a solver that runs for 31 seconds
    [optimize] of [app_prod.py] answers 500 and writes no usage row. *)
Lemma timeout_answered_500_without_record :
  (30 < duration Fixture.slow)%Q /\
  exists resp w',
    @AppProd.optimize (Fixture.externals Fixture.slow)
      (Fixture.logged_in Fixture.good_body) Fixture.empty_world
    = (Ret resp, w') /\
    started w' = [Fixture.slow] /\
    status resp = 500 /\
    logs w' = [].
Proof.
  split; [reflexivity|].
  eexists _, _. split; [vm_compute; reflexivity|]. repeat split.
Qed.

(** C3, amended: when the solver process outlives the 30-second timeout,
    the caller gets exactly one response and it is an error, which
    [app.py] surfaces as HTTP 408; no usage row is appended for the
    attempt, and the workspace is released. *)
Theorem timeout_outcome {ext : Externals} (req : AppProd.Request) (data : json)
  (w : World) (p : Proc) :
  (30 < duration p)%Q ->
  (forall r w',
     App.optimize data w = (r, w') -> started w' = p :: started w ->
     r = Ret (jsonify (error_body "Optimization timeout (>30s)") 408) /\
     logs w' = logs w /\ fs w' = fs w) /\
  (forall r w',
     AppProd.optimize req w = (r, w') -> started w' = p :: started w ->
     (exists resp, r = Ret resp /\ status resp <> 200) /\
     logs w' = logs w /\ fs w' = fs w).
Proof.
  intros Hslow. apply exceeds_timeout in Hslow. split.
  - intros r w' Hrun Hstarted.
    destruct (app_optimize_inv _ _ _ _ Hrun)
      as (_ & Hl & _ & resp & -> & [[Hs _]|(q & Hs & -> & Hfs)]).
    + rewrite Hs in Hstarted. symmetry in Hstarted.
      by apply cons_neq_self in Hstarted.
    + rewrite Hs in Hstarted. injection Hstarted as ->.
      unfold app_verdict. rewrite Hslow. done.
  - intros r w' Hrun Hstarted.
    destruct (prod_optimize_inv _ _ _ _ Hrun)
      as (_ & _ & resp & -> & [(Hs & _ & _)|(q & Hs & Hfs & Hv)]).
    + rewrite Hs in Hstarted. symmetry in Hstarted.
      by apply cons_neq_self in Hstarted.
    + rewrite Hs in Hstarted. injection Hstarted as ->.
      unfold run_verdict in Hv. rewrite Hslow in Hv. destruct Hv as [-> Hl].
      split; [|done]. eexists. split; [done|]. done.
Qed.

Lemma timeout_outcome_witness :
  (@App.optimize (Fixture.externals Fixture.slow) Fixture.good_body
     Fixture.empty_world).1
  = Ret (jsonify (error_body "Optimization timeout (>30s)") 408).
Proof.
  destruct (@App.optimize (Fixture.externals Fixture.slow) Fixture.good_body
              Fixture.empty_world) as [r w'] eqn:Erun.
  assert (Hs : started w' = Fixture.slow :: started Fixture.empty_world)
    by (vm_compute in Erun; by injection Erun as <- <-).
  assert (Hslow : (30 < duration Fixture.slow)%Q) by reflexivity.
  apply (proj1 (@timeout_outcome (Fixture.externals Fixture.slow)
                  (Fixture.logged_in Fixture.good_body) Fixture.good_body
                  Fixture.empty_world Fixture.slow Hslow) r w' Erun Hs).
Defined.

(** ** The validation endpoint *)

Lemma appends_conv m (n n' : nat) : n = n' -> Valid.appends m n -> Valid.appends m n'.
Proof. by intros ->. Qed.

Lemma appends_done : Valid.appends (ret tt) 0.
Proof. intros errors. exists []. by rewrite app_nil_r. Qed.

Lemma appends_append msg : Valid.appends (App.append msg) 1.
Proof. intros errors. by exists [msg]. Qed.

Lemma appends_seq m k (n1 n2 : nat) :
  Valid.appends m n1 -> Valid.appends k n2 -> Valid.appends (m ;;; k) (n1 + n2).
Proof.
  intros Hm Hk errors. rewrite bind_eq.
  destruct (Hm errors) as (ms1 & -> & <-).
  destruct (Hk (errors ++ ms1)%list) as (ms2 & -> & <-).
  exists (ms1 ++ ms2)%list. by rewrite app_assoc, length_app.
Qed.

Lemma appends_lift {A} (a : A) (k : A -> M (list string) unit) (n : nat) :
  Valid.appends (k a) n -> Valid.appends (x <- lift (Ret a) ;; k x) n.
Proof. intros Hk errors. apply Hk. Qed.

Lemma appends_when (b : bool) m (n : nat) :
  Valid.appends m n -> Valid.appends (App.when b m) (if b then n else 0%nat).
Proof. intros Hm. destruct b; [done|apply appends_done]. Qed.

Lemma any_le0_numbers (l : list json) :
  forallb Valid.is_number l = true ->
  App.any_le0 l = Ret (negb (forallb (fun d => Valid.positive (Some d)) l)).
Proof.
  induction l as [|d l IH]; [done|]. simpl.
  destruct d; try done. simpl. intros Hl. rewrite (IH Hl).
  by destruct (Qle_bool q 0).
Qed.

Lemma invalid_dimensions_numbers (l : list json) :
  forallb Valid.is_number l = true ->
  App.invalid_dimensions (JArr l) = Ret (negb (Valid.three_positive (Some (JArr l)))).
Proof.
  intros Hl. unfold App.invalid_dimensions. simpl Py.len. simpl Py.iter.
  cbv beta iota. rewrite (any_le0_numbers l Hl). simpl.
  destruct (Nat.eqb_spec (length l) 3) as [E|E].
  - rewrite E. done.
  - destruct (Z.eqb_spec (Z.of_nat (length l)) 3) as [E'|E']; [lia|done].
Qed.

Section Validation.
Context {ext : Externals}.

Lemma validate_item_appends (i : nat) (item : json) :
  Valid.well_typed_item item = true ->
  Valid.appends (App.validate_item i item) (Valid.item_violations item).
Proof.
  destruct item as [| | | | |o]; try done. simpl.
  intros Hwt. apply andb_prop in Hwt as [Hwt Hdims].
  apply andb_prop in Hwt as [Hid Hweight].
  unfold App.validate_item, Valid.item_violations. cbv zeta.
  simpl Py.get. simpl Valid.field.
  apply appends_lift. apply appends_seq.
  { destruct (Py.assoc "id" o) as [[| | |s| |]|]; try done.
    - destruct s; [apply (appends_when true), appends_append|apply appends_done].
    - apply (appends_when true), appends_append. }
  destruct (Py.assoc "weight" o) as [[| |q| | |]|]; try done.
  - apply appends_lift. simpl Py.le0. apply appends_lift. apply appends_seq.
    { simpl. destruct (Qle_bool q 0).
      - apply (appends_when true), appends_lift, appends_append.
      - apply appends_done. }
    apply appends_lift.
    destruct (Py.assoc "dimensions" o) as [[| | | |l|]|]; try done.
    + rewrite (invalid_dimensions_numbers l Hdims). apply appends_lift.
      rewrite Nat.add_0_r.
      destruct (Valid.three_positive _).
      * apply appends_done.
      * apply (appends_when true), appends_lift, appends_append.
    + apply appends_lift. apply (appends_when true), appends_lift, appends_append.
  - apply appends_lift. simpl Py.le0. apply appends_lift. apply appends_seq.
    { apply (appends_when true), appends_lift, appends_append. }
    apply appends_lift.
    destruct (Py.assoc "dimensions" o) as [[| | | |l|]|]; try done.
    + rewrite (invalid_dimensions_numbers l Hdims). apply appends_lift.
      rewrite Nat.add_0_r.
      destruct (Valid.three_positive _).
      * apply appends_done.
      * apply (appends_when true), appends_lift, appends_append.
    + apply appends_lift. apply (appends_when true), appends_lift, appends_append.
Qed.

Lemma validate_items_appends (items : list json) (i : nat) :
  forallb Valid.well_typed_item items = true ->
  Valid.appends (App.validate_items i items) (Valid.items_violations items).
Proof.
  revert i. induction items as [|item items IH]; intros i Hwt; simpl.
  - apply appends_done.
  - simpl in Hwt. apply andb_prop in Hwt as [Hitem Hitems].
    apply appends_seq; [by apply validate_item_appends|by apply IH].
Qed.

Lemma measure_appends (so : list (string * json)) (k msg : string) rest (n : nat) :
  Valid.number_if_present (Py.assoc k so) = true ->
  Valid.appends rest n ->
  Valid.appends (v <- lift (Py.get (JObj so) k (JNum 0)) ;;
                 b <- lift (Py.le0 v) ;;
                 App.when b (App.append msg) ;;; rest)
                (Valid.miss (Valid.positive (Py.assoc k so)) + n).
Proof.
  intros Hnum Hrest. simpl Py.get. apply appends_lift.
  destruct (Py.assoc k so) as [[| |q| | |]|]; try done; simpl.
  - apply appends_lift.
    apply (appends_seq _ _ (Valid.miss (negb (Qle_bool q 0)))); [|done].
    destruct (Qle_bool q 0); [apply (appends_when true), appends_append|].
    apply appends_done.
  - apply appends_lift.
    apply (appends_seq _ _ 1); [|done].
    apply (appends_when true), appends_append.
Qed.

Lemma cargo_appends (o : list (string * json)) :
  match Py.assoc "cargo" o with
  | None => true
  | Some (JArr items) => forallb Valid.well_typed_item items
  | _ => false
  end = true ->
  let cargo := Valid.items_of (Py.assoc "cargo" o) in
  Valid.appends
    (cargo <- lift (Py.get (JObj o) "cargo" (JArr [])) ;;
     App.when (negb (Py.truthy cargo)) (App.append "At least one cargo item required") ;;;
     items <- lift (Py.iter cargo) ;;
     App.validate_items 0 items)
    (Valid.miss (negb (Nat.eqb (length cargo) 0)) + Valid.items_violations cargo).
Proof.
  intros Hwt. cbv zeta. simpl Py.get. apply appends_lift.
  destruct (Py.assoc "cargo" o) as [[| | | |items|]|]; try done; simpl.
  - apply appends_seq.
    + destruct items; [apply (appends_when true), appends_append|apply appends_done].
    + apply appends_lift. by apply validate_items_appends.
  - apply (appends_seq _ _ 1 0).
    + apply (appends_when true), appends_append.
    + apply appends_lift, appends_done.
Qed.

Lemma validate_checks_appends (data : json) :
  Valid.well_typed data = true ->
  Valid.appends (App.validate_checks data) (Valid.violations data).
Proof.
  destruct data as [| | | | |o]; try done. simpl Valid.well_typed.
  intros Hwt. apply andb_prop in Hwt as [Hship Hcargo].
  unfold App.validate_checks, Valid.violations. cbv zeta.
  simpl Valid.field. simpl Py.get at 1. apply appends_lift.
  pose proof (cargo_appends o Hcargo) as Hrest. cbv zeta in Hrest.
  destruct (Py.assoc "ship" o) as [[| | | | |so]|]; try done.
  - apply andb_prop in Hship as [Hship Hmw].
    apply andb_prop in Hship as [Hlen Hwid].
    simpl Valid.field.
    apply measure_appends; [done|].
    apply measure_appends; [done|].
    apply measure_appends; [done|].
    exact Hrest.
  - apply (measure_appends [] "length"); [done|].
    apply (measure_appends [] "width"); [done|].
    apply (measure_appends [] "max_weight"); [done|].
    exact Hrest.
Qed.

End Validation.







(** * Further properties of the backends *)

(** ** The API-key guard and the ledger *)

(** X1: the guard [api_key_required] answers 401 when the [X-API-Key]
    header is missing or empty and when no user holds the key, and 429 with
    the limit when the key's owner has used up today's runs; in all three
    cases the wrapped route is not run and nothing changes. Otherwise it
    runs the wrapped route with [request.current_user] set to the owner. *)
Theorem api_key_guard (f : AppProd.Request -> M World Response)
  (req : AppProd.Request) (w : World) :
  (AppProd.x_api_key req = None \/ AppProd.x_api_key req = Some "" ->
   AppProd.api_key_required f req w
   = (Ret (jsonify (error_body "API key required") 401), w)) /\
  (forall key,
     AppProd.x_api_key req = Some key -> key <> "" ->
     (List.find (fun u => bool_decide (User.api_key u = Some key)) (users w) = None ->
      AppProd.api_key_required f req w
      = (Ret (jsonify (error_body "Invalid API key") 401), w)) /\
     (forall user,
        List.find (fun u => bool_decide (User.api_key u = Some key)) (users w)
        = Some user ->
        (User.daily_limit user <= AppProd.today_count user req w ->
         AppProd.api_key_required f req w
         = (Ret (jsonify (JObj [("error", JStr "Daily limit exceeded");
                                ("limit", JNum (inject_Z (User.daily_limit user)))])
                         429), w)) /\
        (AppProd.today_count user req w < User.daily_limit user ->
         AppProd.api_key_required f req w
         = f (AppProd.mkRequest (AppProd.json_body req) (AppProd.x_api_key req)
                (AppProd.current_user req) (AppProd.now req) (Some user)) w))).
Proof.
  unfold AppProd.api_key_required. split.
  - by intros [->| ->].
  - intros key -> Hne.
    assert (Str.is_empty key = false) as -> by (by destruct key).
    split.
    + by intros ->.
    + intros user ->. split.
      * intros Hle. apply Z.leb_le in Hle. by rewrite Hle.
      * intros Hlt. apply Z.leb_gt in Hlt. by rewrite Hlt.
Qed.

Lemma api_key_guard_witness :
  AppProd.api_key_required (@AppProd.optimize (Fixture.externals Fixture.fast))
    (Fixture.with_key Fixture.good_body) Fixture.busy_world
  = (Ret (jsonify (JObj [("error", JStr "Daily limit exceeded");
                         ("limit", JNum (inject_Z (User.daily_limit Fixture.alice)))])
                  429), Fixture.busy_world).
Proof.
  refine (proj1 (proj2 (proj2 (api_key_guard _ (Fixture.with_key Fixture.good_body)
                                 Fixture.busy_world) "key-alice" eq_refl _)
                         Fixture.alice eq_refl) _).
  - discriminate.
  - vm_compute. discriminate.
Defined.

(** The start of the UTC day lies at most a day before the clock. *)
Lemma today_start_bounds (req : AppProd.Request) :
  AppProd.today_start req <= AppProd.now req < AppProd.today_start req + 86400.
Proof.
  unfold AppProd.today_start.
  pose proof (Z.mod_pos_bound (AppProd.now req) 86400). lia.
Qed.

Lemma today_count_app (user : User.t) (req : AppProd.Request) (w : World) row :
  AppProd.today_count user req (add_log (Some row) w)
  = AppProd.today_count user req w
    + (if AppProd.counts_today user (AppProd.today_start req) row then 1 else 0).
Proof.
  unfold AppProd.today_count, add_log. cbn [logs].
  rewrite List.filter_app, length_app. simpl.
  destruct (AppProd.counts_today _ _ row); simpl; lia.
Qed.

Section Ledger.
Context {ext : Externals}.

(** What [optimize] of [app_prod.py] does to the table of logs. *)
Lemma prod_optimize_logs (req : AppProd.Request) (w w' : World) r :
  AppProd.optimize req w = (r, w') ->
  exists resp, r = Ret resp /\
    ((logs w' = logs w /\ (AppProd.current_user req <> None -> status resp <> 200)) \/
     (exists uid t n placed,
        AppProd.current_user req = Some uid /\ status resp = 200 /\
        w' = add_log (Some (OptimizationLog.mk (Some uid) t n placed true
                              (AppProd.now req)))
               (mkWorld (fs w') (users w') (logs w) (console w') (started w')
                        (uuids w') (uuid_next w')))).
Proof.
  rewrite prod_optimize_steps. cbv zeta.
  destruct (missing_ship_or_cargo _) as [[|]|e0];
    [intros [= <- <-]; eexists; split; [done|]; by left| |
     intros [= <- <-]; eexists; split; [done|]; by left].
  destruct (Py.getitem _ "ship") as [ship|e];
    [|intros [= <- <-]; eexists; split; [done|]; by left].
  destruct (Py.getitem _ "cargo") as [cargo|e];
    [|intros [= <- <-]; eexists; split; [done|]; by left].
  destruct (AppProd.run_optimization ship cargo w) as [r1 w1] eqn:Erun.
  destruct (run_optimization_inv _ _ _ _ _ Erun) as (Hu & Hl & Hc & _).
  destruct r1 as [[[result t] error]|e];
    [|intros [= <- <-]; eexists; split; [done|]; by left].
  unfold prod_after_run.
  destruct (AppProd.truthy_error error);
    [intros [= <- <-]; eexists; split; [done|]; by left|].
  destruct (AppProd.current_user req) as [uid|];
    [|intros [= <- <-]; eexists; split; [done|]; by left].
  destruct (Py.len cargo) as [n|e];
    [|intros [= <- <-]; eexists; split; [done|]; by left].
  destruct (Py.getitem result "analysis") as [analysis|e];
    [|intros [= <- <-]; eexists; split; [done|]; by left].
  destruct (Py.getitem analysis "placed_count") as [placed|e];
    [|intros [= <- <-]; eexists; split; [done|]; by left].
  intros [= <- <-]. eexists. split; [done|]. right.
  exists uid, t, n, placed. split; [done|]. split; [done|].
  unfold add_log. cbn. by rewrite Hl.
Qed.

(** X2: for a logged-in user, [optimize] of [app_prod.py] answers 200
    exactly when it appends one row to [optimization_logs]; the row carries
    the user's id, the request time and [success = True]. Today's count of
    that user then rises by one, and no other user's count changes. On
    every other path the table of logs is left as it was. *)
Theorem optimize_logs_success (req : AppProd.Request) (w w' : World)
  (r : res Response) (uid : Z) :
  AppProd.optimize req w = (r, w') ->
  AppProd.current_user req = Some uid ->
  exists resp, r = Ret resp /\
    ((status resp <> 200 /\ logs w' = logs w) \/
     (status resp = 200 /\
      exists row,
        logs w' = (logs w ++ [row])%list /\
        OptimizationLog.user_id row = Some uid /\
        OptimizationLog.created_at row = AppProd.now req /\
        OptimizationLog.success row = true /\
        forall user,
          AppProd.today_count user req w'
          = AppProd.today_count user req w
            + (if bool_decide (User.id user = uid) then 1 else 0))).
Proof.
  intros Hrun Huid.
  destruct (prod_optimize_logs req w w' r Hrun)
    as (resp & -> & [[Hl Hst]|(uid' & t & n & placed & Hu & Hst & Hw)]).
  - exists resp. split; [done|]. left. split; [|done]. apply Hst. by rewrite Huid.
  - exists resp. split; [done|]. right. split; [done|].
    rewrite Huid in Hu. injection Hu as <-.
    eexists. split; [by rewrite Hw|]. repeat split.
    intros user. rewrite Hw at 1. rewrite today_count_app.
    unfold AppProd.today_count at 1. cbn [logs]. fold (AppProd.today_count user req w).
    f_equal. unfold AppProd.counts_today. cbn.
    pose proof (today_start_bounds req) as [Hle _].
    apply Z.leb_le in Hle. rewrite Hle, andb_true_r.
    destruct (decide (User.id user = uid)) as [->|Hne].
    + by rewrite !bool_decide_eq_true_2.
    + rewrite !bool_decide_eq_false_2; [done|done|congruence].
Qed.

End Ledger.

Lemma optimize_logs_success_witness :
  exists resp w',
    @AppProd.optimize (Fixture.externals Fixture.fast)
      (Fixture.logged_in Fixture.good_body) Fixture.busy_world = (Ret resp, w') /\
    ((status resp <> 200 /\ logs w' = logs Fixture.busy_world) \/
     (status resp = 200 /\
      exists row,
        logs w' = (logs Fixture.busy_world ++ [row])%list /\
        OptimizationLog.user_id row = Some 1 /\
        OptimizationLog.created_at row
        = AppProd.now (Fixture.logged_in Fixture.good_body) /\
        OptimizationLog.success row = true /\
        forall user,
          AppProd.today_count user (Fixture.logged_in Fixture.good_body) w'
          = AppProd.today_count user (Fixture.logged_in Fixture.good_body)
              Fixture.busy_world
            + (if bool_decide (User.id user = 1) then 1 else 0))).
Proof.
  destruct (@AppProd.optimize (Fixture.externals Fixture.fast)
              (Fixture.logged_in Fixture.good_body) Fixture.busy_world)
    as [r w'] eqn:Erun.
  destruct (@optimize_logs_success (Fixture.externals Fixture.fast)
              (Fixture.logged_in Fixture.good_body) Fixture.busy_world w' r 1
              Erun eq_refl) as (resp & -> & H).
  exists resp, w'. split; [reflexivity|exact H].
Defined.

Section MoreDispatch.
Context {ext : Externals}.

(** X3: [optimize] of [app_prod.py] never touches the table of users and
    never prints; it starts at most one solver process; it appends at most
    one row to the logs, and none at all for an anonymous request. *)
Theorem optimize_frame (req : AppProd.Request) (w w' : World) (r : res Response) :
  AppProd.optimize req w = (r, w') ->
  users w' = users w /\ console w' = console w /\
  (started w' = started w \/ exists p, started w' = p :: started w) /\
  (logs w' = logs w \/ exists row, logs w' = (logs w ++ [row])%list) /\
  (AppProd.current_user req = None -> logs w' = logs w).
Proof.
  intros Hrun.
  destruct (prod_optimize_inv req w w' r Hrun)
    as (Hu & Hc & resp & -> & [(Hs & _ & _)|(p & Hs & _ & _)]);
    (split; [done|]; split; [done|]; split; [eauto|]);
    destruct (prod_optimize_logs req w w' _ Hrun)
      as (resp' & _ & [[Hl _]|(uid & t & n & placed & Huid & _ & Hw)]);
    try (split; [by left|done]);
    (split; [right; eexists; by rewrite Hw|intros Hnone; congruence]).
Qed.

(** X4: when the solver exits within the timeout with a nonzero status,
    [optimize] of [app_prod.py] answers 500 with the captured stderr as long
    as stderr is not empty. With an empty stderr the [if error:] test
    fails: an anonymous caller is answered 200 with a [null] body, a
    logged-in caller 500; in no case is a row appended. *)
Theorem optimize_on_solver_failure (req : AppProd.Request) (w w' : World)
  (r : res Response) (p : Proc) :
  AppProd.optimize req w = (r, w') ->
  started w' = p :: started w ->
  (duration p <= 30)%Q ->
  returncode p <> 0 ->
  logs w' = logs w /\
  (stderr p <> "" ->
   r = Ret (jsonify (error_body ("Optimization failed: " +:+ stderr p)) 500)) /\
  (stderr p = "" ->
   (AppProd.current_user req = None -> r = Ret (jsonify JNull 200)) /\
   (AppProd.current_user req <> None ->
    exists resp, r = Ret resp /\ status resp = 500)).
Proof.
  intros Hrun Hstarted Hd Hrc. apply Qle_bool_iff in Hd.
  destruct (prod_optimize_inv req w w' r Hrun)
    as (_ & _ & resp & -> & [(Hs & _ & _)|(q & Hs & _ & Hv)]).
  { rewrite Hs in Hstarted. symmetry in Hstarted.
    by apply cons_neq_self in Hstarted. }
  rewrite Hs in Hstarted. injection Hstarted as ->.
  destruct (run_verdict_cases p Hd) as (H1 & _). rewrite (H1 Hrc) in Hv.
  destruct Hv as (cargo & row & Hafter & Hl).
  unfold prod_after_run in Hafter. cbn [AppProd.truthy_error] in Hafter.
  destruct (stderr p) as [|a err] eqn:Eerr; cbn [Str.is_empty negb] in Hafter.
  - destruct (AppProd.current_user req) as [uid|] eqn:Euid.
    + destruct (Py.len cargo) as [n|e]; cbn in Hafter; injection Hafter as -> ->;
        (split; [done|]); (split; [done|]); intros _; split; [done| |done|];
        intros _; eexists; by split.
    + injection Hafter as -> ->. split; [done|]. split; [done|].
      intros _. split; [done|]. intros Hne. done.
  - injection Hafter as -> ->. split; [done|]. split; [done|]. done.
Qed.


End MoreDispatch.

Lemma optimize_frame_witness :
  let out := @AppProd.optimize (Fixture.externals Fixture.fast)
               (AppProd.mkRequest Fixture.good_body None None 0 None)
               Fixture.busy_world in
  logs out.2 = logs Fixture.busy_world.
Proof.
  cbv zeta.
  destruct (@AppProd.optimize (Fixture.externals Fixture.fast)
              (AppProd.mkRequest Fixture.good_body None None 0 None)
              Fixture.busy_world) as [r w'] eqn:Erun.
  apply (@optimize_frame (Fixture.externals Fixture.fast) _ _ _ _ Erun).
  reflexivity.
Defined.



Lemma optimize_on_solver_failure_witness :
  (@AppProd.optimize (Fixture.externals (mkProc 1 "" "" 1))
     (AppProd.mkRequest Fixture.good_body None None 0 None)
     Fixture.empty_world).1 = Ret (jsonify JNull 200).
Proof.
  destruct (@AppProd.optimize (Fixture.externals (mkProc 1 "" "" 1))
              (AppProd.mkRequest Fixture.good_body None None 0 None)
              Fixture.empty_world) as [r w'] eqn:Erun.
  assert (Hs : started w' = mkProc 1 "" "" 1 :: started Fixture.empty_world)
    by (vm_compute in Erun; by injection Erun as <- <-).
  assert (Hd : (duration (mkProc 1 "" "" 1) <= 30)%Q) by (by vm_compute).
  assert (Hrc : returncode (mkProc 1 "" "" 1) <> 0) by done.
  destruct (@optimize_on_solver_failure (Fixture.externals (mkProc 1 "" "" 1))
              _ _ _ _ _ Erun Hs Hd Hrc) as (_ & _ & Hempty).
  destruct (Hempty eq_refl) as [Hanon _]. exact (Hanon eq_refl).
Defined.

(** ** The contents of the two artifacts *)

Lemma string_app_assoc (a b c : string) : (a +:+ b) +:+ c = a +:+ (b +:+ c).
Proof. induction a as [|x a IH]; [done|]. rewrite !app_String. by rewrite IH. Qed.

Lemma string_app_empty_r (a : string) : a +:+ "" = a.
Proof. induction a as [|x a IH]; [done|]. rewrite app_String. by rewrite IH. Qed.

Lemma open_w_existing (p : path) (f : FS) e :
  f !! p.1 = Some e -> Fs.open_w p f = (Ret tt, <[p.1 := <[p.2 := ""]> e]> f).
Proof. intros H. unfold Fs.open_w. by rewrite H. Qed.

Lemma write_existing (p : path) (text c : string) (f : FS) e :
  Fs.write p text (<[p.1 := <[p.2 := c]> e]> f)
  = (Ret tt, <[p.1 := <[p.2 := c +:+ text]> e]> f).
Proof.
  unfold Fs.write. rewrite !lookup_insert_eq. by rewrite !insert_insert_eq.
Qed.

Section Artifacts.
Context {ext : Externals}.


Lemma write_cargo_line_rendered (p : path) (item : json) (line : string) (f : FS) :
  manifest_line item = Some line ->
  write_cargo_line p item f = Fs.write p line f.
Proof.
  unfold manifest_line, write_cargo_line. rewrite bind_eq. unfold lift at 1.
  destruct (Py.getitem item "id") as [i|]; [|done].
  rewrite bind_eq. unfold lift at 1.
  destruct (Py.getitem item "weight") as [wt|]; [|done].
  rewrite bind_eq. unfold lift at 1.
  destruct (Py.getitem item "dimensions") as [dims|]; [|done].
  rewrite bind_eq. unfold lift at 1.
  destruct (Py.index dims 0) as [d0|]; [|done].
  rewrite bind_eq. unfold lift at 1. rewrite bind_eq. unfold lift at 1.
  destruct (Py.index dims 1) as [d1|]; [|done].
  rewrite bind_eq. unfold lift at 1. rewrite bind_eq. unfold lift at 1.
  destruct (Py.index dims 2) as [d2|]; [|done].
  rewrite bind_eq. unfold lift at 1.
  destruct (Py.get item "type" _) as [ty|]; [|done].
  by intros [= <-].
Qed.

Lemma write_cargo_line_unrendered (p : path) (item : json) (f : FS) :
  manifest_line item = None ->
  exists e, write_cargo_line p item f = (Raise e, f).
Proof.
  unfold manifest_line, write_cargo_line. rewrite bind_eq. unfold lift at 1.
  destruct (Py.getitem item "id") as [i|]; [|eauto].
  rewrite bind_eq. unfold lift at 1.
  destruct (Py.getitem item "weight") as [wt|]; [|eauto].
  rewrite bind_eq. unfold lift at 1.
  destruct (Py.getitem item "dimensions") as [dims|]; [|eauto].
  rewrite bind_eq. unfold lift at 1.
  destruct (Py.index dims 0) as [d0|]; [|eauto].
  rewrite bind_eq. unfold lift at 1. rewrite bind_eq. unfold lift at 1.
  destruct (Py.index dims 1) as [d1|]; [|eauto].
  rewrite bind_eq. unfold lift at 1. rewrite bind_eq. unfold lift at 1.
  destruct (Py.index dims 2) as [d2|]; [|eauto].
  rewrite bind_eq. unfold lift at 1.
  destruct (Py.get item "type" _) as [ty|]; [done|eauto].
Qed.

Lemma for_each_lines (p : path) (items : list json) (c : string) (f : FS)
  (e : gmap string string) :
  exists r,
    for_each items (write_cargo_line p) (<[p.1 := <[p.2 := c]> e]> f)
    = (r, <[p.1 := <[p.2 := c +:+ concat_lines (manifest_lines items)]> e]> f) /\
    (r = Ret tt <-> length (manifest_lines items) = length items).
Proof.
  revert c. induction items as [|item items IH]; intros c; simpl.
  - exists (Ret tt). by rewrite string_app_empty_r.
  - rewrite bind_eq. destruct (manifest_line item) as [line|] eqn:Eline.
    + rewrite (write_cargo_line_rendered p item line (<[p.1 := <[p.2 := c]> e]> f) Eline),
        write_existing.
      destruct (IH (c +:+ line)) as (r & -> & Hr). exists r.
      cbn [concat_lines length]. rewrite string_app_assoc. split; [done|].
      rewrite Hr. split; [by intros ->|by intros [= ->]].
    + destruct (write_cargo_line_unrendered p item (<[p.1 := <[p.2 := c]> e]> f) Eline)
        as [ex ->].
      exists (Raise ex). cbn [concat_lines length].
      rewrite string_app_empty_r. split; [done|]. split; [done|]. simpl. lia.
Qed.

(** X7: [write_cargo_manifest] on a list of items leaves at the given path
    the header line followed by one line per item, in order, each with the
    item's id, weight, first three dimensions and type ([standard] when the
    item names none). It stops at the first item that has no id, no weight
    or fewer than three dimensions, keeping the lines written so far, and
    it returns normally exactly when every item was written. *)
Theorem manifest_file_content (items : list json) (p : path) (f : FS)
  (e : gmap string string) :
  f !! p.1 = Some e ->
  exists r,
    write_cargo_manifest (JArr items) p f
    = (r, <[p.1 := <[p.2 := manifest_header +:+ concat_lines (manifest_lines items)]> e]> f) /\
    (r = Ret tt <-> length (manifest_lines items) = length items).
Proof.
  intros Hdir. unfold write_cargo_manifest.
  rewrite bind_eq, (open_w_existing p f e Hdir).
  rewrite bind_eq, write_existing. rewrite bind_eq. unfold lift at 1.
  simpl Py.iter. rewrite app_empty. apply for_each_lines.
Qed.

End Artifacts.


Lemma manifest_file_content_witness :
  exists r,
    @write_cargo_manifest (Fixture.externals Fixture.fast)
      (JArr [Fixture.item "C1" 5 [1; 2; 3]%Q]) ("tmp", "cargo.txt") (<["tmp" := ∅]> ∅)
    = (r, <["tmp" := <["cargo.txt" :=
                         manifest_header +:+
                         concat_lines (@manifest_lines (Fixture.externals Fixture.fast)
                                         [Fixture.item "C1" 5 [1; 2; 3]%Q])]> ∅]>
            (<["tmp" := ∅]> ∅)) /\
    (r = Ret tt <->
     length (@manifest_lines (Fixture.externals Fixture.fast)
               [Fixture.item "C1" 5 [1; 2; 3]%Q]) = 1%nat).
Proof.
  exact (@manifest_file_content (Fixture.externals Fixture.fast)
           [Fixture.item "C1" 5 [1; 2; 3]%Q]
           ("tmp", "cargo.txt") (<["tmp" := ∅]> ∅) ∅ eq_refl).
Defined.

(** ** More on the subscription state machine *)

Lemma map_update_first {B} (g : User.t -> B) (p : User.t -> bool)
  (f : User.t -> User.t) (us : list User.t) :
  (forall u, g (f u) = g u) ->
  map g (WebhookHandler.update_first p f us) = map g us.
Proof.
  intros Hg. induction us as [|u us IH]; [done|]. simpl.
  destruct (p u); simpl; by rewrite ?Hg, ?IH.
Qed.

(** X8: each of the handlers for a paid invoice, a failed invoice, an
    updated subscription and a deleted subscription is idempotent: applied
    twice with the same event it leaves every principal as one application
    does. *)
Theorem customer_keyed_idempotent (h : StripeObject -> M World unit)
  (ev : StripeObject) (w : World) :
  In h customer_keyed ->
  users (h ev (h ev w).2).2 = users (h ev w).2.
Proof.
  intros Hh. simpl in Hh. destruct Hh as [<-|[<-|[<-|[<-|[]]]]].
  - rewrite !users_after_invoice_paid. by apply update_first_twice.
  - rewrite !users_after_invoice_failed. by apply update_first_twice.
  - rewrite !users_after_subscription_updated. by apply update_first_twice.
  - rewrite !users_after_subscription_deleted. by apply update_first_twice.
Qed.

Lemma customer_keyed_idempotent_witness :
  users (WebhookHandler.handle_subscription_deleted BillingFixture.deleted
           (WebhookHandler.handle_subscription_deleted BillingFixture.deleted
              BillingFixture.world).2).2
  = users (WebhookHandler.handle_subscription_deleted BillingFixture.deleted
             BillingFixture.world).2.
Proof.
  apply (customer_keyed_idempotent WebhookHandler.handle_subscription_deleted).
  simpl. auto.
Defined.

(** X9: no billing handler ever changes a principal's id, email or API
    key, nor adds or removes a principal. The four handlers keyed by
    customer reference never change a stored customer reference, and the
    handlers for a paid invoice, a failed invoice and an updated
    subscription never change a tier, hence never a daily limit. *)
Theorem handlers_preserve_identity (ev : StripeObject) (w : World) :
  map identity (users (WebhookHandler.handle_checkout_completed ev w).2)
  = map identity (users w) /\
  (forall h, In h customer_keyed ->
     map identity (users (h ev w).2) = map identity (users w) /\
     map User.stripe_customer_id (users (h ev w).2)
     = map User.stripe_customer_id (users w)) /\
  (forall h, In h status_only ->
     map User.subscription_tier (users (h ev w).2)
     = map User.subscription_tier (users w) /\
     map User.daily_limit (users (h ev w).2) = map User.daily_limit (users w)).
Proof.
  split; [|split].
  - rewrite users_after_checkout. by apply map_update_first.
  - intros h Hh. simpl in Hh. destruct Hh as [<-|[<-|[<-|[<-|[]]]]].
    + rewrite users_after_invoice_paid. split; by apply map_update_first.
    + rewrite users_after_invoice_failed. split; by apply map_update_first.
    + rewrite users_after_subscription_updated. split; by apply map_update_first.
    + rewrite users_after_subscription_deleted. split; by apply map_update_first.
  - intros h Hh. simpl in Hh. destruct Hh as [<-|[<-|[<-|[]]]].
    + rewrite users_after_invoice_paid. split; by apply map_update_first.
    + rewrite users_after_invoice_failed. split; by apply map_update_first.
    + rewrite users_after_subscription_updated. split; by apply map_update_first.
Qed.

Lemma handlers_preserve_identity_witness :
  map User.subscription_tier
    (users (WebhookHandler.handle_invoice_failed BillingFixture.invoice
              BillingFixture.world).2)
  = map User.subscription_tier (users BillingFixture.world) /\
  map User.daily_limit
    (users (WebhookHandler.handle_invoice_failed BillingFixture.invoice
              BillingFixture.world).2)
  = map User.daily_limit (users BillingFixture.world).
Proof.
  apply (proj2 (proj2 (handlers_preserve_identity BillingFixture.invoice
                         BillingFixture.world))
           WebhookHandler.handle_invoice_failed).
  simpl. auto.
Defined.






Section Webhook.
Context {ext : Externals}.

(** X12: a webhook call whose payload or signature Stripe's check refuses
    is answered 400 and reaches no handler: users, logs and files are
    untouched, and one line is printed. *)
Theorem webhook_rejects_bad_signature (payload : string)
  (signature : option string) (w : World) :
  construct_event payload signature = None ->
  AppProd.stripe_webhook payload signature w
  = (Ret (jsonify (error_body (str_exn PlainException)) 400),
     mkWorld (fs w) (users w) (logs w)
       (console w ++ ["Webhook error: " +:+ str_exn PlainException])
       (started w) (uuids w) (uuid_next w)).
Proof.
  intros Hev. unfold AppProd.stripe_webhook.
  rewrite try_except_eq, bind_eq. unfold lift at 1. by rewrite Hev.
Qed.


End Webhook.

Lemma webhook_rejects_bad_signature_witness :
  (@AppProd.stripe_webhook WebhookFixture.externals "forged" None
     BillingFixture.world).1
  = Ret (jsonify (error_body "Invalid signature") 400) /\
  users (@AppProd.stripe_webhook WebhookFixture.externals "forged" None
           BillingFixture.world).2 = users BillingFixture.world.
Proof.
  rewrite (@webhook_rejects_bad_signature WebhookFixture.externals "forged" None
             BillingFixture.world eq_refl).
  split; reflexivity.
Defined.


(** ** The training challenges *)

Lemma validate_accepts {ext : Externals} (data : json) (w : World) :
  Valid.well_typed data = true ->
  Valid.violations data = 0%nat ->
  App.validate data w
  = (Ret (jsonify (JObj [("valid", JBool true); ("errors", JArr [])]) 200), w).
Proof.
  intros Hwt Hv.
  destruct (validate_checks_appends data Hwt []) as (msgs & Hrun & Hlen).
  rewrite Hv in Hlen. destruct msgs; [|done].
  unfold App.validate. by rewrite Hrun.
Qed.

(** X14: the two backends serve the same three challenges, and every
    challenge is a configuration the validation endpoint accepts
    ([valid] true, no error), passes the guard of [optimize], and loads
    less than the ship's maximum weight. *)
Theorem challenges_are_valid {ext : Externals} (w : World) :
  Challenges.app_get_challenges = Challenges.app_prod_get_challenges /\
  Forall (fun challenge =>
            let data := Challenges.request_of challenge in
            App.validate data w
            = (Ret (jsonify (JObj [("valid", JBool true); ("errors", JArr [])]) 200),
               w) /\
            missing_ship_or_cargo data = Ret false /\
            (Challenges.total_weight data < Challenges.capacity data)%Q)
         Challenges.app_prod_challenges.
Proof.
  split; [reflexivity|].
  repeat (apply Forall_cons; split;
          [cbv zeta; split;
           [apply validate_accepts; by vm_compute|split; by vm_compute]|]).
  constructor.
Qed.

(** ** Prices, checkout and the billing routes *)

(** X15: [create_checkout] turns the request away with 400 unless the
    body names the plan [pro_monthly] or [pro_annual] and the user is on
    the free tier. When it goes through, Stripe is asked for one
    subscription at the price configured for the plan, for the user's
    email, with metadata tier [pro] for either plan; the answer is 200 with
    the session's URL and id, or 500 with Stripe's error text. *)
Theorem checkout_gate {ext : Externals} {api : StripeService.Api}
  (env : StripeService.Env) (data tier : json) (me : User.t) (host_url : string) :
  Py.get data "tier" JNull = Ret tier ->
  (Py.truthy tier = false ->
   Billing.create_checkout env data me host_url
   = jsonify (error_body "Tier required") 400) /\
  (Py.truthy tier = true ->
   tier <> JStr "pro_monthly" -> tier <> JStr "pro_annual" ->
   Billing.create_checkout env data me host_url
   = jsonify (error_body "Invalid tier") 400) /\
  (forall plan,
     tier = JStr plan -> plan = "pro_monthly" \/ plan = "pro_annual" ->
     (User.subscription_tier me <> "free" ->
      Billing.create_checkout env data me host_url
      = jsonify (error_body
          "Already subscribed. Use billing portal to manage subscription.") 400) /\
     (forall listed,
        User.subscription_tier me = "free" ->
        StripeService.STRIPE_PRICES env !! plan = Some listed ->
        listed <> "contact_sales" ->
        Billing.create_checkout env data me host_url
        = match StripeService.checkout_session_create
                  (StripeService.mkCheckoutParams (User.email me) ["card"] listed 1
                     "subscription"
                     (host_url +:+ "app?payment=success"
                      +:+ "?session_id={CHECKOUT_SESSION_ID}")
                     (host_url +:+ "app?payment=canceled") "pro") with
          | inl msg => jsonify (error_body ("Stripe error: " +:+ msg)) 500
          | inr session =>
              jsonify (JObj [("checkout_url",
                              JStr (StripeService.session_url session));
                             ("session_id",
                              JStr (StripeService.session_id session))]) 200
          end)).
Proof.
  intros Hget. unfold Billing.create_checkout. rewrite Hget.
  split; [|split].
  - by intros ->.
  - intros -> Hm Ha.
    assert (Billing.plan_of tier = None) as ->; [|done].
    unfold Billing.plan_of. destruct tier as [| | |s| |]; try done.
    destruct (String.eqb_spec s "pro_monthly") as [->|_]; [done|].
    destruct (String.eqb_spec s "pro_annual") as [->|_]; [done|]. done.
  - intros plan -> Hplan.
    assert (Py.truthy (JStr plan) = true) as -> by (by destruct Hplan as [->| ->]).
    assert (Billing.plan_of (JStr plan) = Some plan) as ->
      by (by destruct Hplan as [->| ->]).
    cbn [negb]. split.
    + intros Hne. apply String.eqb_neq in Hne. by rewrite Hne.
    + intros listed Hfree Hlisted Hsales. rewrite Hfree. simpl (negb _). cbv zeta.
      unfold StripeService.create_checkout_session. rewrite Hlisted.
      apply String.eqb_neq in Hsales. rewrite Hsales.
      assert (StripeService.tier_of_plan plan = "pro") as ->
        by (by destruct Hplan as [->| ->]).
      rewrite string_app_assoc.
      by destruct (StripeService.checkout_session_create _).
Qed.

Lemma checkout_gate_witness :
  @Billing.create_checkout (Fixture.externals Fixture.fast) BillingRoutesFixture.api
    BillingRoutesFixture.env (JObj [("tier", JStr "pro_annual")]) Fixture.alice
    "https://cargoforge.example/"
  = jsonify (JObj [("checkout_url", JStr "https://checkout.example/cs_test");
                   ("session_id", JStr "cs_test")]) 200.
Proof.
  refine (proj2 (proj2 (proj2 (@checkout_gate (Fixture.externals Fixture.fast)
                                 BillingRoutesFixture.api BillingRoutesFixture.env
                                 (JObj [("tier", JStr "pro_annual")])
                                 (JStr "pro_annual") Fixture.alice
                                 "https://cargoforge.example/" eq_refl))
                        "pro_annual" eq_refl (or_intror eq_refl))
           "price_pro_annual" eq_refl eq_refl _).
  discriminate.
Defined.

(** X16: the pricing table agrees with the ledger and with the checkout.
    For every plan [get_tier_info] lists, the advertised daily limit is the
    daily limit of a user whose tier is the one a checkout of that plan
    stores (the plan's name up to the first underscore); and for the two
    plans a checkout accepts, the advertised Stripe price is the price the
    checkout charges. *)
Theorem tier_info_matches_limits (env : StripeService.Env) (plan : string)
  (info : json) :
  Py.getitem (StripeService.get_tier_info env) plan = Ret info ->
  (forall u : User.t,
     User.subscription_tier u = StripeService.tier_of_plan plan ->
     Py.getitem info "daily_limit" = Ret (JNum (inject_Z (User.daily_limit u)))) /\
  (Billing.plan_of (JStr plan) = Some plan ->
   exists listed,
     StripeService.STRIPE_PRICES env !! plan = Some listed /\
     Py.getitem info "stripe_price_id" = Ret (JStr listed)).
Proof.
  unfold StripeService.get_tier_info. cbv zeta. cbn [Py.getitem Py.assoc].
  destruct (String.eqb_spec "free" plan) as [<-|_].
  { intros [= <-]. split; [|done].
    intros u Hu. unfold User.daily_limit. rewrite Hu. reflexivity. }
  destruct (String.eqb_spec "pro_monthly" plan) as [<-|_].
  { intros [= <-]. split.
    - intros u Hu. unfold User.daily_limit. rewrite Hu. reflexivity.
    - intros _. eexists. split; reflexivity. }
  destruct (String.eqb_spec "pro_annual" plan) as [<-|_].
  { intros [= <-]. split.
    - intros u Hu. unfold User.daily_limit. rewrite Hu. reflexivity.
    - intros _. eexists. split; reflexivity. }
  destruct (String.eqb_spec "enterprise" plan) as [<-|_]; [|done].
  intros [= <-]. split; [|done].
  intros u Hu. unfold User.daily_limit. rewrite Hu. reflexivity.
Qed.

Lemma tier_info_matches_limits_witness :
  Py.getitem
    (JObj [("name", JStr "Enterprise"); ("price", JStr "Custom");
           ("currency", JStr "USD"); ("interval", JNull);
           ("daily_limit", JNum 10000); ("contact_sales", JBool true);
           ("features",
            StripeService.features ["Unlimited optimizations";
                                    "Custom ship configurations";
                                    "Dedicated support"; "SLA guarantee";
                                    "On-premise deployment option";
                                    "Custom integrations";
                                    "White-label solution"])])
    "daily_limit"
  = Ret (JNum (inject_Z (User.daily_limit (Fixture.with_tier "enterprise")))).
Proof.
  apply (proj1 (tier_info_matches_limits BillingRoutesFixture.env "enterprise" _
                  eq_refl) (Fixture.with_tier "enterprise")).
  reflexivity.
Defined.

Section BillingRoutes.
Context {ext : Externals} {api : StripeService.Api}.

Lemma map_status_twice (me : User.t) (s1 s2 : string) (us : list User.t) :
  map (fun u => if User.id u =? User.id me then Billing.set_status s2 u else u)
    (map (fun u => if User.id u =? User.id me then Billing.set_status s1 u else u) us)
  = map (fun u => if User.id u =? User.id me then Billing.set_status s2 u else u) us.
Proof.
  rewrite map_map. apply map_ext. intros u.
  destruct (User.id u =? User.id me) eqn:E; simpl; by rewrite E.
Qed.

(** X17: cancelling and reactivating a subscription. Without a stored
    subscription id both routes answer 400, and when Stripe refuses the
    change they answer 500; in both cases no row changes. When Stripe
    accepts, the user's row takes the status [canceling] (or [active]) and
    nothing else changes: no id, email, key, tier or daily limit, and no
    other user's row. Reactivating after a cancellation leaves the table
    as reactivating alone does. *)
Theorem cancel_and_reactivate (me : User.t) (w : World) :
  (Billing.present (User.stripe_subscription_id me) = None ->
   Billing.cancel_subscription me w
   = (Ret (jsonify (error_body "No active subscription") 400), w) /\
   Billing.reactivate_subscription me w
   = (Ret (jsonify (error_body "No subscription to reactivate") 400), w)) /\
  (forall sid,
     Billing.present (User.stripe_subscription_id me) = Some sid ->
     (forall msg,
        StripeService.subscription_modify sid true = inl msg ->
        Billing.cancel_subscription me w
        = (Ret (jsonify (error_body ("Stripe error: " +:+ msg)) 500), w)) /\
     (forall sub,
        StripeService.subscription_modify sid true = inr sub ->
        exists resp w1,
          Billing.cancel_subscription me w = (Ret resp, w1) /\
          status resp = 200 /\
          Py.getitem (body resp) "period_end"
          = Ret (JNum (inject_Z (StripeService.current_period_end sub))) /\
          map identity (users w1) = map identity (users w) /\
          map User.daily_limit (users w1) = map User.daily_limit (users w) /\
          (forall i u,
             users w !! i = Some u ->
             users w1 !! i
             = Some (if User.id u =? User.id me
                     then Billing.set_status "canceling" u else u)) /\
          (forall sub',
             StripeService.subscription_modify sid false = inr sub' ->
             users (Billing.reactivate_subscription me w1).2
             = users (Billing.reactivate_subscription me w).2))).
Proof.
  unfold Billing.cancel_subscription, Billing.reactivate_subscription.
  split.
  - by intros ->.
  - intros sid ->. unfold StripeService.cancel_subscription,
      StripeService.reactivate_subscription. split.
    + by intros msg ->.
    + intros sub ->. simpl. eexists _, _. split; [reflexivity|].
      split; [reflexivity|]. split; [reflexivity|]. simpl.
      split; [|split; [|split]].
      * rewrite map_map. apply map_ext. intros u. by destruct (_ =? _).
      * rewrite map_map. apply map_ext. intros u. by destruct (_ =? _).
      * intros i u Hi. by rewrite list_lookup_fmap, Hi.
      * intros sub' ->. simpl. apply map_status_twice.
Qed.

End BillingRoutes.

Lemma cancel_and_reactivate_witness :
  exists resp w1,
    @Billing.cancel_subscription (Fixture.externals Fixture.fast)
      BillingRoutesFixture.api BillingFixture.bob BillingFixture.world
    = (Ret resp, w1) /\
    status resp = 200 /\
    users w1 !! 1%nat = Some (Billing.set_status "canceling" BillingFixture.bob).
Proof.
  destruct (proj2 (@cancel_and_reactivate (Fixture.externals Fixture.fast)
                     BillingRoutesFixture.api BillingFixture.bob BillingFixture.world)
              "sub_7" eq_refl) as [_ Hok].
  destruct (Hok (StripeService.mkSubscription 1700000000) eq_refl)
    as (resp & w1 & Hrun & Hst & _ & _ & _ & Hrow & _).
  exists resp, w1. split; [exact Hrun|]. split; [exact Hst|].
  exact (Hrow 1%nat BillingFixture.bob eq_refl).
Defined.

(** ** Saved scenarios *)

Section ScenarioRoutes.
Context {platform : Scenarios.Platform}.



(** X18: who may read and who may delete a saved scenario. A scenario is
    shown to its owner and, when it is public, to every user; anyone else
    gets 403. Deleting is for the owner alone, public or not: another
    user's attempt answers 403 and changes nothing. The owner's deletion
    removes that row and no other, and afterwards the scenario is not found
    by anyone. *)
Theorem scenario_access (scenario_id : Z) (scenario : Scenario.t)
  (me : User.t) (db : Scenarios.Db) :
  Scenarios.rows db !! scenario_id = Some scenario ->
  (Scenario.user_id scenario <> User.id me ->
   Scenarios.delete_scenario scenario_id me db
   = (Ret (jsonify (error_body "Unauthorized") 403), db) /\
   status (Scenarios.get_scenario scenario_id me db)
   = if Scenario.is_public scenario then 200 else 403) /\
  (Scenario.user_id scenario = User.id me ->
   status (Scenarios.get_scenario scenario_id me db) = 200 /\
   exists db',
     Scenarios.delete_scenario scenario_id me db
     = (Ret (jsonify (JObj [("success", JBool true)]) 200), db') /\
     Scenarios.rows db' !! scenario_id = None /\
     (forall other, other <> scenario_id ->
        Scenarios.rows db' !! other = Scenarios.rows db !! other) /\
     (forall reader, Scenarios.get_scenario scenario_id reader db'
                     = Scenarios.not_found)) /\
  (status (Scenarios.get_scenario scenario_id me db) = 200 ->
   Scenarios.shown "ship" (Scenarios.get_scenario scenario_id me db)
   = Ret (Scenario.ship_config scenario) /\
   Scenarios.shown "cargo" (Scenarios.get_scenario scenario_id me db)
   = Ret (Scenario.cargo_manifest scenario) /\
   Scenarios.shown "results" (Scenarios.get_scenario scenario_id me db)
   = Ret (Scenario.results scenario)).
Proof.
  intros Hrow.
  unfold Scenarios.delete_scenario, Scenarios.get_scenario.
  rewrite Hrow. split; [|split].
  - intros Hne. apply Z.eqb_neq in Hne. rewrite Hne. cbn [negb andb].
    split; [reflexivity|]. by destruct (Scenario.is_public scenario).
  - intros He. apply Z.eqb_eq in He. rewrite He. cbn [negb andb].
    split; [reflexivity|]. eexists. split; [reflexivity|]. cbn [Scenarios.rows].
    split; [apply lookup_delete_eq|]. split.
    + intros other Hother. by apply lookup_delete_ne.
    + intros reader. unfold Scenarios.get_scenario. cbn [Scenarios.rows].
      by rewrite lookup_delete_eq.
  - destruct (negb _ && negb _); [discriminate|]. intros _. by repeat split.
Qed.


(** X20: the listing of [GET /api/scenarios] holds the caller's own
    scenarios and nothing else: a row is listed exactly when it is in the
    table under the caller's id, so another user's scenario is never
    listed, public or not. *)
Theorem listing_is_own (me : User.t) (db : Scenarios.Db) :
  Scenarios.reorders platform ->
  exists listed,
    Scenarios.get_scenarios me db
    = jsonify (JObj [("scenarios", JArr (map Scenarios.summary listed))]) 200 /\
    length listed
    = length (List.filter (Scenarios.owned_by me) (map_to_list (Scenarios.rows db))) /\
    forall key scenario,
      In (key, scenario) listed <->
      Scenarios.rows db !! key = Some scenario /\
      Scenario.user_id scenario = User.id me.
Proof.
  intros Horder. eexists. split; [reflexivity|]. split.
  - by rewrite (Horder _).
  - intros key scenario.
    rewrite <- list_elem_of_In, (Horder _), list_elem_of_In, List.filter_In.
    rewrite <- list_elem_of_In, elem_of_map_to_list.
    unfold Scenarios.owned_by. cbn [snd]. by rewrite Z.eqb_eq.
Qed.

End ScenarioRoutes.

Lemma scenario_access_witness :
  Scenarios.delete_scenario 4 BillingFixture.bob ScenarioFixture.db
  = (Ret (jsonify (error_body "Unauthorized") 403), ScenarioFixture.db).
Proof.
  refine (proj1 (proj1 (@scenario_access ScenarioFixture.platform 4
                          ScenarioFixture.plan BillingFixture.bob
                          ScenarioFixture.db eq_refl) _)).
  discriminate.
Defined.



Lemma listing_is_own_witness :
  exists listed,
    @Scenarios.get_scenarios ScenarioFixture.platform Fixture.alice
      ScenarioFixture.db
    = jsonify (JObj [("scenarios",
                      JArr (map (@Scenarios.summary ScenarioFixture.platform)
                              listed))]) 200 /\
    forall scenario, ~ In (5, scenario) listed.
Proof.
  destruct (@listing_is_own ScenarioFixture.platform Fixture.alice
              ScenarioFixture.db (fun l => Permutation_refl l))
    as (listed & Hbody & _ & Hin).
  exists listed. split; [exact Hbody|].
  intros scenario Hlisted. apply Hin in Hlisted as [Hrow _]. discriminate Hrow.
Defined.

(** ** The report's recommendations *)

Section Report.
Context {formatter : CargoLoadingPlanPDF.Formatter}.

(** X21: the recommendations of a report agree with the status cell of its
    stability table. When the measures the report reads are numbers where
    the analysis has them, both are produced; the list opens with the one
    advice on stability that belongs to the status shown, goes on with at
    most three remarks on balance and utilization, and always ends with
    the same three general reminders. An analysis without [gm] is reported
    as low stability. *)
Theorem recommendations_follow_status (analysis : list (string * json)) :
  CargoLoadingPlanPDF.measured analysis ->
  exists status advice specific,
    CargoLoadingPlanPDF.stability_status (JObj analysis) = Ret status /\
    CargoLoadingPlanPDF._generate_recommendations (JObj analysis)
    = Ret (advice :: specific
           ++ ["Verify all hazardous materials are properly separated (minimum 3m).";
               "Ensure all cargo is properly secured before departure.";
               "Monitor weather conditions and adjust loading plan if necessary."])%list /\
    (length specific <= 3)%nat /\
    (status = "CRITICAL - UNSTABLE" <->
     advice = "CRITICAL: Ship is unstable. Do not proceed with loading. Redistribute cargo immediately.") /\
    (status = "WARNING - Low Stability" <->
     advice = "WARNING: Metacentric height is below safe limits. Consider redistributing cargo for better stability.") /\
    (status = "WARNING - Over-stiff" <->
     advice = "Ship is over-stiff. This may cause uncomfortable rolling motion. Consider adjusting cargo distribution.") /\
    (status = "OPTIMAL" <->
     advice = "Stability is within optimal range. Ship is safe for operation.") /\
    (Py.assoc "gm" analysis = None -> status = "WARNING - Low Stability").
Proof.
  intros Hmeasured.
  destruct (Hmeasured "gm") as [gm Hgm]; [simpl; tauto|].
  destruct (Hmeasured "longitudinal_balance") as [long Hlong]; [simpl; tauto|].
  destruct (Hmeasured "lateral_balance") as [lat Hlat]; [simpl; tauto|].
  destruct (Hmeasured "cargo_utilization") as [util Hutil]; [simpl; tauto|].
  unfold CargoLoadingPlanPDF.stability_status,
    CargoLoadingPlanPDF._generate_recommendations, CargoLoadingPlanPDF.recommend.
  rewrite bind_eq. unfold lift at 1. rewrite Hgm.
  eexists _, (if CargoLoadingPlanPDF.lt gm 0 then _
              else if CargoLoadingPlanPDF.lt gm (3 # 10) then _
              else if CargoLoadingPlanPDF.lt 3 gm then _ else _),
    ((if CargoLoadingPlanPDF.lt 10 (Qabs long) then [_] else [])
     ++ (if CargoLoadingPlanPDF.lt 5 (Qabs lat) then [_] else [])
     ++ (if CargoLoadingPlanPDF.lt util 60 then [_]
         else if CargoLoadingPlanPDF.lt 95 util then [_] else []))%list.
  split; [reflexivity|]. split; [|split].
  - rewrite Hlong, Hlat, Hutil. cbv [bind lift App.append App.when ret].
    destruct (CargoLoadingPlanPDF.lt gm 0), (CargoLoadingPlanPDF.lt gm (3 # 10)),
      (CargoLoadingPlanPDF.lt 3 gm), (CargoLoadingPlanPDF.lt 10 (Qabs long)),
      (CargoLoadingPlanPDF.lt 5 (Qabs lat)), (CargoLoadingPlanPDF.lt util 60),
      (CargoLoadingPlanPDF.lt 95 util); reflexivity.
  - destruct (CargoLoadingPlanPDF.lt 10 (Qabs long)),
      (CargoLoadingPlanPDF.lt 5 (Qabs lat)), (CargoLoadingPlanPDF.lt util 60),
      (CargoLoadingPlanPDF.lt 95 util); simpl; lia.
  - assert (Py.assoc "gm" analysis = None ->
            CargoLoadingPlanPDF.lt gm 0 = false /\
            CargoLoadingPlanPDF.lt gm (3 # 10) = true) as Habsent.
    { intros Hnone. unfold CargoLoadingPlanPDF.measure in Hgm. cbn [Py.get] in Hgm.
      rewrite Hnone in Hgm. injection Hgm as <-. by split. }
    destruct (CargoLoadingPlanPDF.lt gm 0), (CargoLoadingPlanPDF.lt gm (3 # 10)),
      (CargoLoadingPlanPDF.lt 3 gm);
      (repeat split; try discriminate; try reflexivity;
       intros Hnone; destruct (Habsent Hnone); discriminate).
Qed.

End Report.

Lemma recommendations_follow_status_witness :
  exists advice specific,
    @CargoLoadingPlanPDF._generate_recommendations ReportFixture.formatter
      (JObj ReportFixture.analysis)
    = Ret (advice :: specific
           ++ ["Verify all hazardous materials are properly separated (minimum 3m).";
               "Ensure all cargo is properly secured before departure.";
               "Monitor weather conditions and adjust loading plan if necessary."])%list /\
    (advice = "Stability is within optimal range. Ship is safe for operation." ->
     False).
Proof.
  destruct (@recommendations_follow_status ReportFixture.formatter
              ReportFixture.analysis)
    as (status & advice & specific & _ & Hlist & _ & _ & _ & _ & Hoptimal & Hlow).
  - intros key Hkey. simpl in Hkey.
    destruct Hkey as [<-|[<-|[<-|[<-|[]]]]]; eexists; reflexivity.
  - exists advice, specific. split; [exact Hlist|].
    intros Hadvice. apply Hoptimal in Hadvice. rewrite (Hlow eq_refl) in Hadvice.
    discriminate Hadvice.
Defined.

(** ** The PDF export *)

Section ExportRoute.
Context {ext : Externals} {generator : PdfExport.Generator}.

(** X22: an export counts as a run. [export_pdf] always answers and never
    changes the table of users. Either it refuses with 400 or 500 and the
    table of logs is as before, or the report was rendered for the user's
    tier and exactly one row is appended for the user, with the request
    time and [success = True], so that the user's count for today rises by
    one. In the second case the reply is the download, unless the
    scenario name of the body is not a string: then the row stays and the
    reply is the 500 of the handler. No download is ever sent without the
    row. *)
Theorem export_counts_as_run (req : AppProd.Request) (me : User.t)
  (w w' : World) (r : res PdfExport.Reply) :
  PdfExport.export_pdf req me w = (r, w') ->
  exists reply,
    r = Ret reply /\ users w' = users w /\
    ((logs w' = logs w /\ PdfExport.refused reply) \/
     (exists row optimization_data scenario_name pdf,
        logs w' = (logs w ++ [row])%list /\
        OptimizationLog.user_id row = Some (User.id me) /\
        OptimizationLog.created_at row = AppProd.now req /\
        OptimizationLog.success row = true /\
        AppProd.today_count me req w' = AppProd.today_count me req w + 1 /\
        Py.get (AppProd.json_body req) "scenario_name" (JStr "Untitled Scenario")
        = Ret scenario_name /\
        PdfExport.generate_pdf_report optimization_data (User.subscription_tier me)
          scenario_name = Ret pdf /\
        reply = PdfExport.served pdf scenario_name)).
Proof.
  unfold PdfExport.export_pdf. cbv zeta.
  rewrite try_except_eq, bind_eq. unfold lift at 1.
  destruct (missing_ship_or_cargo _) as [[|]|e0].
  - intros [= <- <-]. eexists. split; [done|]. split; [done|]. left.
    split; [done|]. eexists. split; [reflexivity|]. by left.
  - rewrite bind_eq. unfold lift at 1.
    destruct (Py.getitem _ "ship") as [ship|e].
    2:{ intros [= <- <-]. eexists. split; [done|]. split; [done|]. left.
        split; [done|]. eexists. split; [reflexivity|]. by right. }
    rewrite bind_eq. unfold lift at 1.
    destruct (Py.getitem _ "cargo") as [cargo|e].
    2:{ intros [= <- <-]. eexists. split; [done|]. split; [done|]. left.
        split; [done|]. eexists. split; [reflexivity|]. by right. }
    rewrite bind_eq.
    destruct (AppProd.run_optimization ship cargo w) as [r1 w1] eqn:Erun.
    destruct (run_optimization_inv _ _ _ _ _ Erun) as (Hu & Hl & _ & _).
    destruct r1 as [[[result t] error]|e].
    2:{ intros [= <- <-]. eexists. split; [done|]. split; [done|]. left.
        split; [done|]. eexists. split; [reflexivity|]. by right. }
    destruct (AppProd.truthy_error error).
    { intros [= <- <-]. eexists. split; [done|]. split; [done|]. left.
      split; [done|]. eexists. split; [reflexivity|]. by right. }
    rewrite bind_eq. unfold lift at 1.
    rewrite bind_eq. unfold lift at 1.
    destruct (Py.getitem result "cargo") as [placed_cargo|e].
    2:{ intros [= <- <-]. eexists. split; [done|]. split; [done|]. left.
        split; [done|]. eexists. split; [reflexivity|]. by right. }
    rewrite bind_eq. unfold lift at 1.
    destruct (Py.getitem result "analysis") as [analysis|e].
    2:{ intros [= <- <-]. eexists. split; [done|]. split; [done|]. left.
        split; [done|]. eexists. split; [reflexivity|]. by right. }
    rewrite bind_eq. unfold lift at 1.
    destruct (Py.get _ "scenario_name" _) as [scenario_name|e] eqn:Ename.
    2:{ intros [= <- <-]. eexists. split; [done|]. split; [done|]. left.
        split; [done|]. eexists. split; [reflexivity|]. by right. }
    rewrite bind_eq. unfold lift at 1.
    destruct (PdfExport.generate_pdf_report _ _ _) as [pdf|e] eqn:Epdf.
    2:{ intros [= <- <-]. eexists. split; [done|]. split; [done|]. left.
        split; [done|]. eexists. split; [reflexivity|]. by right. }
    rewrite bind_eq. unfold lift at 1.
    rewrite bind_eq. unfold lift at 1.
    destruct (Py.len cargo) as [n|e].
    2:{ intros [= <- <-]. eexists. split; [done|]. split; [done|]. left.
        split; [done|]. eexists. split; [reflexivity|]. by right. }
    rewrite bind_eq. unfold lift at 1.
    rewrite bind_eq. unfold lift at 1.
    destruct (Py.getitem analysis "placed_count") as [placed|e].
    2:{ intros [= <- <-]. eexists. split; [done|]. split; [done|]. left.
        split; [done|]. eexists. split; [reflexivity|]. by right. }
    rewrite bind_eq. unfold db_add_log at 1.
    rewrite bind_eq. unfold lift at 1.
    set (row := OptimizationLog.mk _ _ _ _ _ _).
    assert (Hcount :
              AppProd.today_count me req
                (mkWorld (fs w1) (users w1) (logs w1 ++ [row]) (console w1)
                   (started w1) (uuids w1) (uuid_next w1))
              = AppProd.today_count me req w + 1).
    { change (mkWorld _ _ _ _ _ _ _) with (add_log (Some row) w1).
      rewrite today_count_app. unfold AppProd.today_count. rewrite Hl.
      f_equal. unfold AppProd.counts_today, row. cbn.
      pose proof (today_start_bounds req) as [Hle _].
      apply Z.leb_le in Hle. rewrite Hle. by rewrite bool_decide_eq_true_2. }
    destruct (PdfExport.file_name scenario_name) as [name|e] eqn:Efile.
    + intros [= <- <-]. eexists. split; [done|]. split; [done|]. right.
      exists row, (JObj [("ship", ship); ("cargo", placed_cargo);
                         ("analysis", analysis)]), scenario_name, pdf.
      unfold PdfExport.served. rewrite Efile.
      split; [cbn [logs]; by rewrite Hl|]. split; [done|]. split; [done|].
      split; [done|]. split; [exact Hcount|]. by repeat split.
    + intros [= <- <-]. eexists. split; [done|]. split; [done|]. right.
      exists row, (JObj [("ship", ship); ("cargo", placed_cargo);
                         ("analysis", analysis)]), scenario_name, pdf.
      unfold PdfExport.served. rewrite Efile.
      split; [cbn [logs]; by rewrite Hl|]. split; [done|]. split; [done|].
      split; [done|]. split; [exact Hcount|]. by repeat split.
  - intros [= <- <-]. eexists. split; [done|]. split; [done|]. left.
    split; [done|]. eexists. split; [reflexivity|]. by right.
Qed.

End ExportRoute.

Lemma export_counts_as_run_witness :
  exists w',
    @PdfExport.export_pdf (Fixture.externals Fixture.fast) ExportFixture.generator
      ExportFixture.numbered Fixture.alice Fixture.busy_world
    = (Ret (PdfExport.Json (jsonify (error_body "error") 500)), w') /\
    length (logs w') = 11%nat.
Proof.
  destruct (@PdfExport.export_pdf (Fixture.externals Fixture.fast)
              ExportFixture.generator ExportFixture.numbered Fixture.alice
              Fixture.busy_world) as [r w'] eqn:Erun.
  destruct (@export_counts_as_run (Fixture.externals Fixture.fast)
              ExportFixture.generator ExportFixture.numbered Fixture.alice
              Fixture.busy_world w' r Erun)
    as (reply & -> & _ & [[Hlogs _]|Hrow]).
  - exfalso. vm_compute in Erun. injection Erun as _ <-.
    vm_compute in Hlogs. discriminate Hlogs.
  - destruct Hrow as (row & data & name & pdf & Hlogs & _ & _ & _ & _ & Hname & _ & ->).
    injection Hname as <-. exists w'. split; [reflexivity|].
    rewrite Hlogs, length_app. reflexivity.
Defined.

Section ScenarioExportRoute.
Context {ext : Externals} {generator : PdfExport.Generator}
        {platform : Scenarios.Platform}.

Lemma try_except_bind {S A B} (m : M S A) (k : A -> M S B)
  (handler : exn -> M S B) (s : S) :
  try_except (bind m k) handler s
  = match m s with
    | (Ret a, s1) => try_except (k a) handler s1
    | (Raise e, s1) => handler e s1
    end.
Proof. unfold try_except, bind. by destruct (m s) as [[a|e] s1]. Qed.

Lemma send_report_inv (optimization_data : json) (me : User.t)
  (scenario : Scenario.t) (w : World) :
  exists reply,
    try_except (ScenarioExport.send_report optimization_data me scenario)
      (fun e => ret (PdfExport.Json (jsonify (error_body (str_exn e)) 500))) w
    = (Ret reply, w) /\
    status_of reply <> 404 /\ status_of reply <> 403.
Proof.
  unfold ScenarioExport.send_report.
  rewrite try_except_bind. unfold lift at 1.
  destruct (PdfExport.generate_pdf_report _ _ _) as [pdf|e];
    [|eexists; split; [reflexivity|]; by split].
  rewrite try_except_bind. unfold lift at 1.
  destruct (PdfExport.file_name _) as [name|e];
    eexists; (split; [reflexivity|]); by split.
Qed.

(** X23: the export of a saved scenario is open to the same users as the
    scenario itself and leaves no trace. [export_scenario_pdf] always
    answers; it answers 404 exactly when [get_scenario] does and 403
    exactly when [get_scenario] does. It never changes the users and,
    unlike [export_pdf], never appends a log row. When the scenario
    carries results that count as true, it starts no solver and leaves
    the whole state as it was. *)
Theorem scenario_export_access (scenario_id : Z) (me : User.t)
  (db : Scenarios.Db) (w w' : World) (r : res PdfExport.Reply) :
  ScenarioExport.export_scenario_pdf scenario_id me db w = (r, w') ->
  exists reply,
    r = Ret reply /\ users w' = users w /\ logs w' = logs w /\
    (status_of reply = 404 <->
     status (Scenarios.get_scenario scenario_id me db) = 404) /\
    (status_of reply = 403 <->
     status (Scenarios.get_scenario scenario_id me db) = 403) /\
    (forall scenario,
       Scenarios.rows db !! scenario_id = Some scenario ->
       Py.truthy (Scenario.results scenario) = true -> w' = w).
Proof.
  unfold ScenarioExport.export_scenario_pdf, Scenarios.get_scenario.
  destruct (Scenarios.rows db !! scenario_id) as [scenario|].
  2:{ intros [= <- <-]. eexists. split; [done|]. split; [done|]. split; [done|].
      split; [done|]. split; [done|]. intros scenario [=]. }
  destruct (negb _ && negb _).
  { intros [= <- <-]. eexists. split; [done|]. split; [done|]. split; [done|].
    split; [done|]. split; [done|]. done. }
  destruct (Py.truthy (Scenario.results scenario)) eqn:Eresults.
  - rewrite try_except_bind. unfold lift at 1.
    destruct (Py.get _ "cargo" _) as [cargo|e].
    2:{ intros [= <- <-]. eexists. split; [done|]. split; [done|]. split; [done|].
        split; [done|]. split; [done|]. done. }
    rewrite try_except_bind. unfold lift at 1.
    destruct (Py.get _ "analysis" _) as [analysis|e].
    2:{ intros [= <- <-]. eexists. split; [done|]. split; [done|]. split; [done|].
        split; [done|]. split; [done|]. done. }
    destruct (send_report_inv
                (JObj [("ship", Scenario.ship_config scenario); ("cargo", cargo);
                       ("analysis", analysis)]) me scenario w)
      as (reply & -> & H404 & H403).
    intros [= <- <-]. exists reply. split; [done|]. split; [done|]. split; [done|].
    split; [done|]. split; [done|]. done.
  - rewrite try_except_bind.
    destruct (AppProd.run_optimization _ _ w) as [r1 w1] eqn:Erun.
    destruct (run_optimization_inv _ _ _ _ _ Erun) as (Hu & Hl & _ & _).
    assert (Hcached : forall s : Scenario.t,
              Some scenario = Some s -> Py.truthy (Scenario.results s) = true ->
              w' = w) by (intros s [= <-]; congruence).
    destruct r1 as [[[result t] error]|e].
    2:{ intros [= <- <-]. eexists. split; [done|]. split; [done|]. split; [done|].
        split; [done|]. split; [done|]. exact Hcached. }
    destruct (AppProd.truthy_error error).
    { intros [= <- <-]. eexists. split; [done|]. split; [done|]. split; [done|].
      split; [done|]. split; [done|]. exact Hcached. }
    rewrite try_except_bind. unfold lift at 1.
    destruct (Py.getitem result "cargo") as [cargo|e].
    2:{ intros [= <- <-]. eexists. split; [done|]. split; [done|]. split; [done|].
        split; [done|]. split; [done|]. exact Hcached. }
    rewrite try_except_bind. unfold lift at 1.
    destruct (Py.getitem result "analysis") as [analysis|e].
    2:{ intros [= <- <-]. eexists. split; [done|]. split; [done|]. split; [done|].
        split; [done|]. split; [done|]. exact Hcached. }
    destruct (send_report_inv
                (JObj [("ship", Scenario.ship_config scenario); ("cargo", cargo);
                       ("analysis", analysis)]) me scenario w1)
      as (reply & -> & H404 & H403).
    intros [= <- <-]. exists reply. split; [done|]. split; [done|]. split; [done|].
    split; [done|]. split; [done|]. exact Hcached.
Qed.

End ScenarioExportRoute.

Lemma scenario_export_access_witness :
  exists reply,
    @ScenarioExport.export_scenario_pdf (Fixture.externals Fixture.fast)
      ExportFixture.generator 4 BillingFixture.bob ScenarioExportFixture.db
      Fixture.busy_world
    = (Ret reply, Fixture.busy_world) /\
    status_of reply = 403.
Proof.
  destruct (@ScenarioExport.export_scenario_pdf (Fixture.externals Fixture.fast)
              ExportFixture.generator 4 BillingFixture.bob ScenarioExportFixture.db
              Fixture.busy_world) as [r w'] eqn:Erun.
  destruct (@scenario_export_access (Fixture.externals Fixture.fast)
              ExportFixture.generator ScenarioFixture.platform 4 BillingFixture.bob
              ScenarioExportFixture.db Fixture.busy_world w' r Erun)
    as (reply & -> & _ & _ & _ & H403 & Hcached).
  rewrite (Hcached ScenarioExportFixture.solved eq_refl eq_refl).
  exists reply. split; [reflexivity|]. apply H403. reflexivity.
Defined.
